(** * Telemetry dashboards: ingestion, filtering and metrics

    A shallow embedding of the data pipeline of the dashboard variants:

    - [Dashboard]            src/src/Dashboard.js, lines 1-1377 (wide CSV shape)
    - [DashboardLoc]         the unnamed variant with a location selector
                             (wide CSV shape, required-column check)
    - [TimeSeriesDashboard]  src/src/Dashboard.js, lines 1378-2925 (long shape)
    - [KomarDashboard]       src/src/TimeSeriesDashboard.js (long shape)

    Conventions of the embedding.

    - An instant is an integer number of milliseconds since the epoch
      ([Z]); an invalid [Date] is [None].  The range limit of [Date]
      (8.64e15 ms) is not modelled.
    - A JavaScript number is a rational; [num := option Q] adds one
      non-finite value, [None], which stands for [NaN] (division by zero,
      which gives an infinity or [NaN] in JavaScript, is lumped into it).
      Binary floating-point rounding is not modelled.
    - A string produced by [toFixed] is represented by the number it
      denotes (the input rounded to that many decimals).
    - React state is a record, a state setter is a record update, and a
      [useMemo] body is a function of the state fields it reads.
    - What the JavaScript host decides (date parsing, time zone, locale
      formatting, the CSV library, the random source) is the interface
      [Host]. *)

From Stdlib Require Import ZArith QArith Qround Qabs Lia Lqa.
From Stdlib Require Import List Bool String Ascii Permutation Sorted.
From stdpp Require Import base gmap strings pretty.
Import ListNotations.

Set Default Proof Using "Type".
Set Warnings "-register-all".
Open Scope Z_scope.

(* ================================================================== *)
(** * Part I: the programs *)
(* ================================================================== *)

(** ** JavaScript values and numbers *)

Inductive jsval : Type :=
| VUndef
| VNull
| VBool (b : bool)
| VNum (q : Q)
| VNaN
| VStr (s : string).

(** A number that may be [NaN]. *)
Definition num : Type := option Q.

(** A computation that may throw. *)
Inductive result (A : Type) : Type :=
| Ok (a : A)
| Throw (msg : string).
Arguments Ok {A} a.
Arguments Throw {A} msg.

#[global] Instance result_bind : MBind result :=
  fun A B (k : A -> result B) (r : result A) =>
    match r with
    | Ok a => k a
    | Throw m => Throw m
    end.

Definition nlift2 (f : Q -> Q -> Q) (a b : num) : num :=
  match a, b with
  | Some x, Some y => Some (f x y)
  | _, _ => None
  end.

Definition nadd : num -> num -> num := nlift2 Qplus.
Definition nsub : num -> num -> num := nlift2 Qminus.
Definition nmul : num -> num -> num := nlift2 Qmult.

Definition ndiv (a b : num) : num :=
  match a, b with
  | Some x, Some y => if Qeq_bool y 0%Q then None else Some (x / y)%Q
  | _, _ => None
  end.

(** [Math.max(a, b)] and [Math.min(a, b)]: [NaN] is contagious. *)
Definition Qmax (x y : Q) : Q := if Qle_bool x y then y else x.
Definition Qmin (x y : Q) : Q := if Qle_bool x y then x else y.
Definition nmax : num -> num -> num := nlift2 Qmax.
Definition nmin : num -> num -> num := nlift2 Qmin.

(** Comparisons with a [NaN] operand are false. *)
Definition ngt (a b : num) : bool :=
  match a, b with
  | Some x, Some y => negb (Qle_bool x y)
  | _, _ => false
  end.

Definition ofZ (z : Z) : Q := inject_Z z.
Definition ofnat (n : nat) : Q := inject_Z (Z.of_nat n).

(** [x || 0] for a number: [NaN] and zero are falsy. *)
Definition or0 (a : num) : Q :=
  match a with
  | Some x => x
  | None => 0%Q
  end.

(** [ToNumber].  Text that the CSV library left as a string is not
    numeric, so it converts to [NaN]. *)
Definition to_number (v : jsval) : num :=
  match v with
  | VNum q => Some q
  | VNull => Some 0%Q
  | VBool b => Some (if b then 1%Q else 0%Q)
  | VUndef | VNaN | VStr _ => None
  end.

Definition of_num (n : num) : jsval :=
  match n with
  | Some q => VNum q
  | None => VNaN
  end.

(** [a === b] *)
Definition strict_eq (a b : jsval) : bool :=
  match a, b with
  | VUndef, VUndef => true
  | VNull, VNull => true
  | VBool x, VBool y => Bool.eqb x y
  | VNum x, VNum y => Qeq_bool x y
  | VStr x, VStr y => String.eqb x y
  | _, _ => false
  end.

(** Truthiness, and [a || b]. *)
Definition truthy (v : jsval) : bool :=
  match v with
  | VUndef | VNull | VNaN => false
  | VBool b => b
  | VNum q => negb (Qeq_bool q 0%Q)
  | VStr s => negb (String.eqb s "")
  end.

Definition js_or (a b : jsval) : jsval := if truthy a then a else b.

(** SameValueZero, the equality of lodash's [uniqBy]. *)
Definition same_value_zero (a b : jsval) : bool :=
  match a, b with
  | VNaN, VNaN => true
  | _, _ => strict_eq a b
  end.

(** ** Printing numbers

    [Number_toString] is the decimal expansion JavaScript prints for a
    number given by a decimal literal with at most 17 significant digits
    and magnitude in [1e-6, 1e21): sign, integer digits and, when the
    number is not an integer, a point and the fractional digits. *)

Definition digit (d : Z) : ascii := ascii_of_nat (48 + Z.to_nat d).

Fixpoint frac_digits (fuel : nat) (r den : Z) : string :=
  match fuel with
  | O => EmptyString
  | S fuel' =>
      if r =? 0 then EmptyString
      else String (digit (r * 10 / den))
                  (frac_digits fuel' ((r * 10) mod den) den)
  end.

Definition Number_toString (q : Q) : string :=
  let n := Z.abs (Qnum q) in
  let d := Z.pos (Qden q) in
  let sign := if Qnum q <? 0 then "-"%string else ""%string in
  let ip := pretty (n / d) in
  let fp := frac_digits 20 (n mod d) d in
  sign +:+ ip +:+ (if String.eqb fp "" then "" else "." +:+ fp)%string.

Definition js_to_string (v : jsval) : string :=
  match v with
  | VUndef => "undefined"
  | VNull => "null"
  | VBool true => "true"
  | VBool false => "false"
  | VNum q => Number_toString q
  | VNaN => "NaN"
  | VStr s => s
  end.

(** [a + b] *)
Definition js_add (a b : jsval) : jsval :=
  match a, b with
  | VStr _, _ | _, VStr _ => VStr (js_to_string a +:+ js_to_string b)
  | _, _ => of_num (nadd (to_number a) (to_number b))
  end.

(** [x.toFixed(d)] on a finite number: the nearest multiple of [10^-d],
    the larger one in magnitude on a tie. *)
Definition round_half_away (q : Q) : Z :=
  if Qle_bool 0 q then Qfloor (q + (1 # 2))%Q
  else - Qfloor (- q + (1 # 2))%Q.

Definition toFixed (d : nat) (q : Q) : Q :=
  let p := 10 ^ Z.of_nat d in
  Qred (inject_Z (round_half_away (q * inject_Z p)) / inject_Z p)%Q.

(** [toFixed] on a number that may be [NaN] gives the string "NaN". *)
Definition ntoFixed (d : nat) (a : num) : num := option_map (toFixed d) a.

(** [v.toFixed(d)] on an arbitrary value: only numbers have the method
    (calling it on [undefined] or [null] is a [TypeError], and a string
    has no such property). *)
Definition val_toFixed (d : nat) (v : jsval) : result num :=
  match v with
  | VNum q => Ok (Some (toFixed d q))
  | VNaN => Ok None
  | VUndef => Throw "TypeError: Cannot read properties of undefined (reading 'toFixed')"
  | VNull => Throw "TypeError: Cannot read properties of null (reading 'toFixed')"
  | VBool _ | VStr _ => Throw "TypeError: toFixed is not a function"
  end.

(** ** Rows of a parsed CSV file

    With [header: true] the CSV library yields one object per data row,
    keyed by the header fields, in header order. *)

Definition RawRow : Type := list (string * jsval).

Fixpoint row_get (r : RawRow) (k : string) : jsval :=
  match r with
  | [] => VUndef
  | (k', v) :: r' => if String.eqb k' k then v else row_get r' k
  end.

Definition Object_keys (r : RawRow) : list string := map fst r.

(** ** The host *)

Class Host : Type := {
  (** [Date.parse]: implementation-defined outside the ISO format. *)
  Date_parse : string -> option Z;
  (** Offset of local time from UTC at an instant, in milliseconds. *)
  tzOffset : Z -> Z;
  toLocaleDateString : Z -> string;
  toLocaleTimeString : Z -> string;
  toLocaleString : Z -> string;
  (** [Papa.parse(text, {header: true, dynamicTyping: true,
      skipEmptyLines: true, ...}).data] *)
  Papa_parse : string -> list RawRow;
  (** The successive values of [Math.random()]. *)
  Math_random : nat -> Q
}.

Section Dates.
Context `{Host}.

(** [new Date(v)] *)
Definition new_Date (v : jsval) : option Z :=
  match v with
  | VStr s => Date_parse s
  | VNum q => Some (if Qle_bool 0%Q q then Qfloor q else Qceiling q)
  | VNull => Some 0
  | VBool b => Some (if b then 1 else 0)
  | VUndef | VNaN => None
  end.

Definition local (t : Z) : Z := t + tzOffset t.

Definition getHours (t : Z) : Z := (local t / 3600000) mod 24.

(** The epoch fell on a Thursday. *)
Definition getDay (t : Z) : Z := (local t / 86400000 + 4) mod 7.

(** Day of the month, from the count of days since the epoch. *)
Definition getDate (t : Z) : Z :=
  let z := local t / 86400000 + 719468 in
  let era := z / 146097 in
  let doe := z - era * 146097 in
  let yoe := (doe - doe / 1460 + doe / 36524 - doe / 146096) / 365 in
  let doy := doe - (365 * yoe + yoe / 4 - yoe / 100) in
  let mp := (5 * doy + 2) / 153 in
  doy - (153 * mp + 2) / 5 + 1.

Definition localeDateString (d : option Z) : string :=
  match d with
  | Some t => toLocaleDateString t
  | None => "Invalid Date"
  end.

Definition localeTimeString (d : option Z) : string :=
  match d with
  | Some t => toLocaleTimeString t
  | None => "Invalid Date"
  end.
End Dates.

(** [Math.max(...xs)] and [Math.min(...xs)] over instants.  One [NaN]
    makes the result [NaN]; on no argument JavaScript gives an infinity,
    which as a [Date] is invalid. *)
Fixpoint Math_max (xs : list (option Z)) : option Z :=
  match xs with
  | [] => None
  | [x] => x
  | x :: xs' =>
      match x, Math_max xs' with
      | Some a, Some b => Some (Z.max a b)
      | _, _ => None
      end
  end.

Fixpoint Math_min (xs : list (option Z)) : option Z :=
  match xs with
  | [] => None
  | [x] => x
  | x :: xs' =>
      match x, Math_min xs' with
      | Some a, Some b => Some (Z.min a b)
      | _, _ => None
      end
  end.

(** [a >= b] on dates. *)
Definition date_ge (a b : option Z) : bool :=
  match a, b with
  | Some x, Some y => y <=? x
  | _, _ => false
  end.

(** ** lodash *)

(** [_.sumBy(xs, f)] where [f] always yields a number. *)
Definition sum_num {A : Type} (f : A -> num) (xs : list A) : num :=
  fold_left (fun acc x => nadd acc (f x)) xs (Some 0%Q).

(** [baseSum] of lodash 4: the accumulator starts as [undefined]; a
    value that is [undefined] is skipped, the first defined value
    replaces the accumulator and each later one is added with [+].  The
    result is [undefined] when no value was defined. *)
Definition baseSum {A : Type} (f : A -> jsval) (xs : list A) : jsval :=
  fold_left
    (fun acc x =>
       match f x with
       | VUndef => acc
       | v => match acc with
              | VUndef => v
              | _ => js_add acc v
              end
       end) xs VUndef.

(** [_.sumBy(xs, f)] *)
Definition sumBy {A : Type} (f : A -> jsval) (xs : list A) : jsval :=
  match xs with
  | [] => VNum 0
  | _ => baseSum f xs
  end.

(** [_.meanBy(xs, f)] *)
Definition meanBy {A : Type} (f : A -> jsval) (xs : list A) : num :=
  match xs with
  | [] => None
  | _ => ndiv (to_number (baseSum f xs)) (Some (ofnat (length xs)))
  end.

(** [_.uniqBy(xs, f)]: the first element of each class. *)
Fixpoint uniqBy_go {A : Type} (f : A -> jsval) (seen : list jsval)
    (xs : list A) : list A :=
  match xs with
  | [] => []
  | x :: xs' =>
      if existsb (same_value_zero (f x)) seen then uniqBy_go f seen xs'
      else x :: uniqBy_go f (f x :: seen) xs'
  end.

Definition uniqBy {A : Type} (f : A -> jsval) (xs : list A) : list A :=
  uniqBy_go f [] xs.

(** ** The wide shape: one record per cycle *)

(** A processed row: the spread raw row and the derived fields that the
    metrics below read. *)
Record CycleRecord : Type := {
  row : RawRow;
  date : option Z;
  dateStr : string;
  hour : option Z;
  dayOfWeek : option Z;
  runtime_hours : num;
  e_stop : bool;
  overload : bool;
  anomaly : bool
}.

Definition device_id (d : CycleRecord) : jsval := row_get (row d) "device_id".
Definition location (d : CycleRecord) : jsval := row_get (row d) "location".
Definition cycle_started_at (d : CycleRecord) : jsval :=
  row_get (row d) "cycle_started_at".
Definition cycle_duration_ms (d : CycleRecord) : jsval :=
  row_get (row d) "cycle_duration_ms".

(** The component state. *)
Record State : Type := {
  data : list CycleRecord;
  originalData : list CycleRecord;
  loading : bool;
  selectedDevice : string;
  selectedLocation : string;
  selectedTimeRange : string;
  errorMessage : string
}.

Definition setData (v : list CycleRecord) (s : State) : State :=
  {| data := v; originalData := originalData s; loading := loading s;
     selectedDevice := selectedDevice s;
     selectedLocation := selectedLocation s;
     selectedTimeRange := selectedTimeRange s;
     errorMessage := errorMessage s |}.

Definition setOriginalData (v : list CycleRecord) (s : State) : State :=
  {| data := data s; originalData := v; loading := loading s;
     selectedDevice := selectedDevice s;
     selectedLocation := selectedLocation s;
     selectedTimeRange := selectedTimeRange s;
     errorMessage := errorMessage s |}.

Definition setLoading (v : bool) (s : State) : State :=
  {| data := data s; originalData := originalData s; loading := v;
     selectedDevice := selectedDevice s;
     selectedLocation := selectedLocation s;
     selectedTimeRange := selectedTimeRange s;
     errorMessage := errorMessage s |}.

Definition setErrorMessage (v : string) (s : State) : State :=
  {| data := data s; originalData := originalData s; loading := loading s;
     selectedDevice := selectedDevice s;
     selectedLocation := selectedLocation s;
     selectedTimeRange := selectedTimeRange s;
     errorMessage := v |}.

(** The state of a freshly mounted component. *)
Definition initialState : State :=
  {| data := []; originalData := []; loading := true;
     selectedDevice := "all"; selectedLocation := "all";
     selectedTimeRange := "7d"; errorMessage := "" |}.

Section WideShape.
Context `{Host}.

(** [new Date(d.cycle_started_at)] *)
Definition startedAt (d : CycleRecord) : option Z :=
  new_Date (cycle_started_at d).

(** The [switch] on the selected time range. *)
Definition startDate (selectedTimeRange : string) (now : option Z)
    : option Z :=
  if String.eqb selectedTimeRange "24h" then
    option_map (fun t => t - 24 * 60 * 60 * 1000) now
  else if String.eqb selectedTimeRange "7d" then
    option_map (fun t => t - 7 * 24 * 60 * 60 * 1000) now
  else if String.eqb selectedTimeRange "30d" then
    option_map (fun t => t - 30 * 24 * 60 * 60 * 1000) now
  else Some 0.

(** The width of the window, when the selection names one. *)
Definition windowWidth (selectedTimeRange : string) : option Z :=
  if String.eqb selectedTimeRange "24h" then Some 86400000
  else if String.eqb selectedTimeRange "7d" then Some 604800000
  else if String.eqb selectedTimeRange "30d" then Some 2592000000
  else None.

(** The window predicate of the last [filter] call. *)
Definition inWindow (range : string) (D : list CycleRecord)
    (d : CycleRecord) : bool :=
  date_ge (startedAt d) (startDate range (Math_max (map startedAt D))).

Definition deviceOk (sel : string) (d : CycleRecord) : bool :=
  String.eqb sel "all" || strict_eq (device_id d) (VStr sel).

Definition locationOk (sel : string) (d : CycleRecord) : bool :=
  String.eqb sel "all" || strict_eq (location d) (VStr sel).
End WideShape.

(** The state right after a successful upload: [setOriginalData(D)] and
    [setData(D)], the selections as they were. *)
Definition installed (D : list CycleRecord) (s : State) : State :=
  setData D (setOriginalData D s).

Module Dashboard.
Section Defs.
Context `{Host}.

Definition applyFilters (s : State) : State :=
  match originalData s with
  | [] => s
  | _ =>
      let filtered := originalData s in
      let filtered :=
        if negb (String.eqb (selectedDevice s) "all") then
          List.filter
            (fun d => strict_eq (device_id d) (VStr (selectedDevice s)))
            filtered
        else filtered in
      let now := Math_max (map startedAt (originalData s)) in
      let startDate := startDate (selectedTimeRange s) now in
      let filtered :=
        List.filter (fun d => date_ge (startedAt d) startDate) filtered in
      setData filtered s
  end.
End Defs.
End Dashboard.

Module DashboardLoc.
Section Defs.
Context `{Host}.

Definition applyFilters (s : State) : State :=
  match originalData s with
  | [] => s
  | _ =>
      let filtered := originalData s in
      let filtered :=
        if negb (String.eqb (selectedDevice s) "all") then
          List.filter
            (fun d => strict_eq (device_id d) (VStr (selectedDevice s)))
            filtered
        else filtered in
      let filtered :=
        if negb (String.eqb (selectedLocation s) "all") then
          List.filter
            (fun d => strict_eq (location d) (VStr (selectedLocation s)))
            filtered
        else filtered in
      let now := Math_max (map startedAt (originalData s)) in
      let startDate := startDate (selectedTimeRange s) now in
      let filtered :=
        List.filter (fun d => date_ge (startedAt d) startDate) filtered in
      setData filtered s
  end.
End Defs.
End DashboardLoc.

(** ** The long shape: one row per measurement *)

(** A row that passed the [step] callback of [parseCSV].  The grouping
    keys are the strings lodash derives from [deviceId] and [Time];
    measure values are numbers. *)
Record MeasurementPoint : Type := {
  Time : string;
  deviceId : string;
  measure_name : string;
  measure_value : Q
}.

(** A pivoted point.  [fields] holds the properties set from measure
    names; an absent key is [undefined]. *)
Record TimeSeriesPoint : Type := {
  time : option Z;
  timeStr : string;
  timestamp : option Z;
  fields : gmap string Q
}.

(** [p[name]] *)
Definition field (p : TimeSeriesPoint) (name : string) : option Q :=
  fields p !! name.

(** [p[name] !== undefined] *)
Definition defined (p : TimeSeriesPoint) (name : string) : bool :=
  match field p name with
  | Some _ => true
  | None => false
  end.

(** [p[name] === 1] *)
Definition is1 (p : TimeSeriesPoint) (name : string) : bool :=
  match field p name with
  | Some q => Qeq_bool q 1
  | None => false
  end.

(** [p[name] || 0] *)
Definition field0 (p : TimeSeriesPoint) (name : string) : Q :=
  match field p name with
  | Some q => q
  | None => 0%Q
  end.

Record DateRange : Type := {
  start : string;
  end_ : string
}.

(** The width of the trailing window of the long-shape filter, when the
    selection names one. *)
Definition cutoffWidth (timeRange : string) : option Z :=
  if String.eqb timeRange "1h" then Some 3600000
  else if String.eqb timeRange "3h" then Some 10800000
  else if String.eqb timeRange "6h" then Some 21600000
  else if String.eqb timeRange "12h" then Some 43200000
  else None.

Definition cutoffOf (timeRange : string) (now : option Z) : option Z :=
  match cutoffWidth timeRange with
  | Some w => option_map (fun t => t - w) now
  | None => Some 0
  end.

(** The date-range predicate of the long-shape filter; an empty bound
    switches the date range off. *)
Definition inRange `{Host} (dateRange : DateRange) (d : TimeSeriesPoint)
    : bool :=
  String.eqb (start dateRange) "" || String.eqb (end_ dateRange) ""
  || (date_ge (timestamp d) (Date_parse (start dateRange))
      && date_ge (Date_parse (end_ dateRange)) (timestamp d)).

Module TimeSeriesDashboard.
Section Defs.
Context `{Host}.

(** [DataProcessor.applyFilters] *)
Definition applyFilters (data : list TimeSeriesPoint)
    (dateRange : DateRange) (timeRange : string) : list TimeSeriesPoint :=
  let filtered := data in
  let filtered :=
    if negb (String.eqb (start dateRange) "")
       && negb (String.eqb (end_ dateRange) "") then
      let startDate := Date_parse (start dateRange) in
      let endDate := Date_parse (end_ dateRange) in
      List.filter
        (fun d => date_ge (timestamp d) startDate
                  && date_ge endDate (timestamp d))
        filtered
    else filtered in
  if negb (String.eqb timeRange "all") && (0 <? length filtered)%nat then
    let now := Math_max (map timestamp filtered) in
    let cutoff :=
      if String.eqb timeRange "1h" then
        option_map (fun t => t - 60 * 60 * 1000) now
      else if String.eqb timeRange "3h" then
        option_map (fun t => t - 3 * 60 * 60 * 1000) now
      else if String.eqb timeRange "6h" then
        option_map (fun t => t - 6 * 60 * 60 * 1000) now
      else if String.eqb timeRange "12h" then
        option_map (fun t => t - 12 * 60 * 60 * 1000) now
      else Some 0 in
    List.filter (fun d => date_ge (timestamp d) cutoff) filtered
  else filtered.
End Defs.
End TimeSeriesDashboard.

(** ** Ingestion of the wide shape *)

Definition valid (d : option Z) : bool :=
  match d with
  | Some _ => true
  | None => false
  end.

(** [v === 'True' || v === true] *)
Definition flagTrue (v : jsval) : bool :=
  strict_eq v (VStr "True") || strict_eq v (VBool true).

(** [arr.join(', ')] *)
Fixpoint join (sep : string) (xs : list string) : string :=
  match xs with
  | [] => ""
  | [x] => x
  | x :: xs' => x +:+ sep +:+ join sep xs'
  end.

(** [columns.includes(col)] *)
Definition includes (col : string) (columns : list string) : bool :=
  existsb (String.eqb col) columns.

Section Ingestion.
Context `{Host}.

(** The object literal built for each parsed row.  Derived fields of
    which no metric below reads a value (the current imbalance, the
    pressure overshoot, the attention flag) are left out. *)
Definition processRow (r : RawRow) : CycleRecord :=
  let d := new_Date (row_get r "cycle_started_at") in
  {| row := r;
     date := d;
     dateStr := localeDateString d;
     hour := option_map getHours d;
     dayOfWeek := option_map getDay d;
     runtime_hours :=
       ndiv (ndiv (to_number (row_get r "cycle_duration_ms"))
               (Some 1000%Q)) (Some 3600%Q);
     e_stop := flagTrue (row_get r "di_e_stop_triggered");
     overload := flagTrue (row_get r "di_overload_trip");
     anomaly :=
       ngt (to_number (row_get r "health_anomaly_score")) (Some (1 # 2)%Q)
  |}.

(** [parsed.data.map(...).filter(row => !isNaN(row.date.getTime()))] *)
Definition processRows (rows : list RawRow) : list CycleRecord :=
  List.filter (fun r => valid (date r)) (map processRow rows).

(** The [catch] block shared by both variants. *)
Definition onError (fallback msg : string) (s : State) : State :=
  setLoading false
    (setOriginalData []
       (setData []
          (setErrorMessage (if String.eqb msg "" then fallback else msg) s))).

(** The end of the [try] block. *)
Definition onSuccess (processedData : list CycleRecord) (s : State)
    : State :=
  setErrorMessage ""
    (setLoading false (setData processedData
                         (setOriginalData processedData s))).
End Ingestion.

Definition requiredColumns : list string :=
  ["device_id"; "cycle_started_at"; "cycle_duration_ms"]%string.

Module DashboardLocIngest.
Section Defs.
Context `{Host}.

(** The [try] block of [processCSVData]. *)
Definition tryProcess (csvContent : string) : result (list CycleRecord) :=
  let parsed := Papa_parse csvContent in
  match parsed with
  | [] => Throw "The CSV file is empty or could not be parsed"
  | first :: _ =>
      let columns := Object_keys first in
      let missingColumns :=
        List.filter (fun col => negb (includes col columns))
          requiredColumns in
      match missingColumns with
      | _ :: _ =>
          Throw ("Missing required columns: " +:+ join ", " missingColumns)
      | [] =>
          let processedData := processRows parsed in
          match processedData with
          | [] => Throw "No valid data rows found after processing"
          | _ => Ok processedData
          end
      end
  end.

Definition processCSVData (csvContent : string) (s : State) : State :=
  match tryProcess csvContent with
  | Ok processedData => onSuccess processedData s
  | Throw msg => onError "Failed to process CSV data" msg s
  end.
End Defs.
End DashboardLocIngest.

Module DashboardIngest.
Section Defs.
Context `{Host}.

Definition tryProcess (csvContent : string) : result (list CycleRecord) :=
  let parsed := Papa_parse csvContent in
  match parsed with
  | [] => Throw "Empty CSV file"
  | _ => Ok (processRows parsed)
  end.

Definition processCSVData (csvContent : string) (s : State) : State :=
  match tryProcess csvContent with
  | Ok processedData => onSuccess processedData s
  | Throw msg => onError "Failed to process CSV" msg s
  end.
End Defs.
End DashboardIngest.

(** ** Fleet KPIs of the wide shape *)

Definition count {A : Type} (f : A -> bool) (xs : list A) : nat :=
  length (List.filter f xs).

(** [_.sumBy(data, 'runtime_hours')]: the derived field always holds a
    number. *)
Definition totalRuntimeOf (data : list CycleRecord) : num :=
  to_number (sumBy (fun d => of_num (runtime_hours d)) data).

Section WideWindow.
Context `{Host}.

(** [Math.max((latestDate - earliestDate) / (1000 * 60 * 60), 1)] *)
Definition hoursInWindowOf (data : list CycleRecord) : num :=
  let latestDate := Math_max (map startedAt data) in
  let earliestDate := Math_min (map startedAt data) in
  let diff :=
    match latestDate, earliestDate with
    | Some a, Some b => Some (ofZ (a - b))
    | _, _ => None
    end in
  nmax (ndiv diff (Some (ofZ (1000 * 60 * 60)))) (Some 1%Q).

(** [(totalRuntime / (uniqueDevices * hoursInWindow)) * 100] *)
Definition rawUtilization (data : list CycleRecord) : num :=
  let uniqueDevices := length (uniqBy device_id data) in
  nmul (ndiv (totalRuntimeOf data)
          (nmul (Some (ofnat uniqueDevices)) (hoursInWindowOf data)))
       (Some 100%Q).
End WideWindow.

Module DashboardKPIs.
Record FleetMetrics : Type := {
  totalRuntime : num;
  utilizationRate : num;
  totalCycles : nat;
  errorCount : nat;
  uniqueDevices : nat;
  avgCyclesPerMachine : num;
  totalEnergy : num;
  totalBales : jsval
}.

Section Defs.
Context `{Host}.

(** The [useMemo] body; [None] is the empty object. *)
Definition fleetMetrics (data : list CycleRecord)
    : result (option FleetMetrics) :=
  match data with
  | [] => Ok None
  | _ =>
      let totalRuntime := totalRuntimeOf data in
      let totalCycles := length data in
      let uniqueDevices := length (uniqBy device_id data) in
      let utilizationRate := rawUtilization data in
      let errorCount := count (fun d => e_stop d || overload d) data in
      let avgCyclesPerMachine :=
        ndiv (Some (ofnat totalCycles)) (Some (ofnat uniqueDevices)) in
      let totalEnergy :=
        sumBy (fun d => row_get (row d) "energy_active_kwh") data in
      let totalBales :=
        js_or (sumBy (fun d => row_get (row d)
                                 "productivity_bale_count_increment") data)
          (VNum 0%Q) in
      totalEnergy' ← val_toFixed 1 totalEnergy;
      Ok (Some
            {| totalRuntime := ntoFixed 1 totalRuntime;
               utilizationRate :=
                 ntoFixed 1 (nmin utilizationRate (Some 100%Q));
               totalCycles := totalCycles;
               errorCount := errorCount;
               uniqueDevices := uniqueDevices;
               avgCyclesPerMachine := ntoFixed 1 avgCyclesPerMachine;
               totalEnergy := totalEnergy';
               totalBales := totalBales |})
  end.
End Defs.
End DashboardKPIs.

Module DashboardLocKPIs.
Record KPIs : Type := {
  totalRuntime : num;
  totalCycles : nat;
  totalEnergy : num;
  totalBales : jsval;
  utilizationRate : num;
  errorCount : nat;
  anomalyCount : nat;
  avgCycleTime : num;
  avgPressure : num;
  avgEnergyPerCycle : num;
  deviceCount : nat;
  errorRate : num;
  anomalyRate : num
}.

Section Defs.
Context `{Host}.

(** The [useMemo] body; [None] is the empty object. *)
Definition kpis (data : list CycleRecord) : result (option KPIs) :=
  match data with
  | [] => Ok None
  | _ =>
      let totalRuntime := totalRuntimeOf data in
      let totalCycles := length data in
      let totalEnergy :=
        sumBy (fun d => row_get (row d) "energy_active_kwh") data in
      let totalBales :=
        sumBy (fun d => row_get (row d)
                          "productivity_bale_count_increment") data in
      let uniqueDevices := length (uniqBy device_id data) in
      let utilizationRate := rawUtilization data in
      let errorCount := count (fun d => e_stop d || overload d) data in
      let anomalyCount := count anomaly data in
      let avgCycleTime :=
        ndiv (ndiv (meanBy cycle_duration_ms data) (Some 1000%Q))
          (Some 60%Q) in
      let avgPressure :=
        meanBy (fun d => row_get (row d) "hydraulic_avg_pressure_psi")
          data in
      let avgEnergyPerCycle :=
        meanBy (fun d => row_get (row d) "energy_per_cycle_kwh") data in
      totalEnergy' ← val_toFixed 1 totalEnergy;
      Ok (Some
            {| totalRuntime := ntoFixed 1 totalRuntime;
               totalCycles := totalCycles;
               totalEnergy := totalEnergy';
               totalBales := totalBales;
               utilizationRate :=
                 ntoFixed 1 (nmin utilizationRate (Some 100%Q));
               errorCount := errorCount;
               anomalyCount := anomalyCount;
               avgCycleTime := ntoFixed 1 avgCycleTime;
               avgPressure := ntoFixed 0 avgPressure;
               avgEnergyPerCycle := ntoFixed 2 avgEnergyPerCycle;
               deviceCount := uniqueDevices;
               errorRate :=
                 if (0 <? totalCycles)%nat then
                   ntoFixed 1
                     (nmul (ndiv (Some (ofnat errorCount))
                              (Some (ofnat totalCycles))) (Some 100%Q))
                 else Some 0%Q;
               anomalyRate :=
                 if (0 <? totalCycles)%nat then
                   ntoFixed 1
                     (nmul (ndiv (Some (ofnat anomalyCount))
                              (Some (ofnat totalCycles))) (Some 100%Q))
                 else Some 0%Q |})
  end.
End Defs.
End DashboardLocKPIs.

(** ** A reference host

    Coordinated universal time, ISO dates of the form
    [YYYY-MM-DDTHH:MM:SSZ], comma-separated text without quoting, and a
    constant random source.  It serves to run the programs on concrete
    input. *)

Definition is_digit (c : ascii) : bool :=
  let n := nat_of_ascii c in (48 <=? n)%nat && (n <=? 57)%nat.

Fixpoint digits_value (acc : Z) (s : string) : option Z :=
  match s with
  | EmptyString => Some acc
  | String c s' =>
      if is_digit c then
        digits_value (acc * 10 + Z.of_nat (nat_of_ascii c - 48)) s'
      else None
  end.

Definition parse_digits (s : string) : option Z :=
  match s with
  | EmptyString => None
  | _ => digits_value 0 s
  end.

(** Days since the epoch of a civil date. *)
Definition days_from_civil (y m d : Z) : Z :=
  let y := if m <=? 2 then y - 1 else y in
  let era := y / 400 in
  let yoe := y - era * 400 in
  let doy := (153 * (if 2 <? m then m - 3 else m + 9) + 2) / 5 + d - 1 in
  let doe := yoe * 365 + yoe / 4 - yoe / 100 + doy in
  era * 146097 + doe - 719468.

Definition iso_parse (s : string) : option Z :=
  if negb (String.length s =? 20)%nat then None
  else if negb (String.eqb (substring 4 1 s) "-"
                && String.eqb (substring 7 1 s) "-"
                && String.eqb (substring 10 1 s) "T"
                && String.eqb (substring 13 1 s) ":"
                && String.eqb (substring 16 1 s) ":"
                && String.eqb (substring 19 1 s) "Z") then None
  else
    match parse_digits (substring 0 4 s), parse_digits (substring 5 2 s),
          parse_digits (substring 8 2 s), parse_digits (substring 11 2 s),
          parse_digits (substring 14 2 s), parse_digits (substring 17 2 s)
    with
    | Some y, Some m, Some d, Some hh, Some mm, Some ss =>
        if (1 <=? m) && (m <=? 12) && (1 <=? d) && (d <=? 31)
           && (hh <=? 23) && (mm <=? 59) && (ss <=? 59)
        then Some (((days_from_civil y m d * 24 + hh) * 60 + mm) * 60000
                   + ss * 1000)
        else None
    | _, _, _, _, _, _ => None
    end.

(** Splitting text at a separator character. *)
Fixpoint split_go (sep : ascii) (cur : string) (s : string) : list string :=
  match s with
  | EmptyString => [cur]
  | String c s' =>
      if Ascii.eqb c sep then cur :: split_go sep "" s'
      else split_go sep (cur +:+ String c "") s'
  end.

Definition split (sep : ascii) (s : string) : list string :=
  split_go sep "" s.

(** A decimal literal: an optional sign, digits, and an optional point
    followed by digits. *)
Definition parse_decimal (s : string) : option Q :=
  let '(neg, body) :=
    match s with
    | String "-" s' => (true, s')
    | _ => (false, s)
    end in
  let q :=
    match split "." body with
    | [ip] => option_map inject_Z (parse_digits ip)
    | [ip; fp] =>
        match parse_digits ip, parse_digits fp with
        | Some i, Some f =>
            Some (inject_Z i
                  + inject_Z f / inject_Z (10 ^ Z.of_nat (String.length fp)))%Q
        | _, _ => None
        end
    | _ => None
    end in
  option_map (fun x => if neg then (- x)%Q else x) q.

(** The dynamic typing of a field. *)
Definition dynamicTyping (s : string) : jsval :=
  if String.eqb s "true" || String.eqb s "TRUE" then VBool true
  else if String.eqb s "false" || String.eqb s "FALSE" then VBool false
  else match parse_decimal s with
       | Some q => VNum q
       | None => if String.eqb s "" then VNull else VStr s
       end.

(** A row has a key for each header field it has a value for. *)
Fixpoint zipRow (header fields : list string) : RawRow :=
  match header, fields with
  | h :: header', f :: fields' => (h, dynamicTyping f) :: zipRow header' fields'
  | _, _ => []
  end.

Definition csv_parse (text : string) : list RawRow :=
  match List.filter (fun l => negb (String.eqb l "")) (split "010" text) with
  | [] => []
  | header :: lines =>
      map (fun l => zipRow (split "," header) (split "," l)) lines
  end.

Definition refHost : Host :=
  {| Date_parse := iso_parse;
     tzOffset := fun _ => 0;
     toLocaleDateString := fun t => pretty (t / 86400000);
     toLocaleTimeString := fun t => pretty (t mod 86400000);
     toLocaleString := fun t => pretty t;
     Papa_parse := csv_parse;
     Math_random := fun _ => (1 # 2)%Q |}.

(** ** The time-window rule

    [windowRule ts start original working result]: the reference instant
    is the maximum over [original], and [result] keeps exactly the
    records of [working] that are not older than [start now]. *)






(** ** Objects with ordered keys

    The own keys of an object are enumerated with the array indices
    first, in ascending order, and then the other strings in the order
    they were created. *)

Definition jsobj (V : Type) : Type := list (string * V).

(** An array index is the canonical decimal string of an integer below
    [2^32 - 1]. *)
Definition array_index (k : string) : option Z :=
  match parse_digits k with
  | Some n =>
      if String.eqb (pretty n) k && (n <=? 4294967294) then Some n else None
  | None => None
  end.

Fixpoint obj_get {V : Type} (o : jsobj V) (k : string) : option V :=
  match o with
  | [] => None
  | (k', v) :: o' => if String.eqb k' k then Some v else obj_get o' k
  end.

Fixpoint obj_update {V : Type} (k : string) (v : V) (o : jsobj V) : jsobj V :=
  match o with
  | [] => []
  | (k', v') :: o' =>
      if String.eqb k' k then (k', v) :: o' else (k', v') :: obj_update k v o'
  end.

Fixpoint obj_insert_index {V : Type} (n : Z) (k : string) (v : V)
    (o : jsobj V) : jsobj V :=
  match o with
  | [] => [(k, v)]
  | (k', v') :: o' =>
      match array_index k' with
      | Some n' =>
          if n <? n' then (k, v) :: o
          else (k', v') :: obj_insert_index n k v o'
      | None => (k, v) :: o
      end
  end.

(** [o[k] = v] *)
Definition obj_set {V : Type} (k : string) (v : V) (o : jsobj V) : jsobj V :=
  match obj_get o k with
  | Some _ => obj_update k v o
  | None =>
      match array_index k with
      | Some n => obj_insert_index n k v o
      | None => o ++ [(k, v)]
      end
  end.

Definition Object_entries {V : Type} (o : jsobj V) : list (string * V) := o.
Definition Object_values {V : Type} (o : jsobj V) : list V := map snd o.

(** [_.groupBy(xs, key)]: each element is pushed on the array of its
    key, which is created on first use. *)
Definition groupStep {A : Type} (key : A -> string) (acc : jsobj (list A))
    (x : A) : jsobj (list A) :=
  match obj_get acc (key x) with
  | Some group => obj_set (key x) (group ++ [x]) acc
  | None => obj_set (key x) [x] acc
  end.

Definition groupBy {A : Type} (key : A -> string) (xs : list A)
    : jsobj (list A) :=
  fold_left (groupStep key) xs [].

Definition keyIs {A : Type} (key : A -> string) (k : string) (x : A) : bool :=
  String.eqb (key x) k.

Definition nonempty {A : Type} (l : list A) : option (list A) :=
  match l with
  | [] => None
  | _ => Some l
  end.

(** [xs.slice(-n)] *)
Definition slice_last {A : Type} (n : nat) (xs : list A) : list A :=
  skipn (length xs - n) xs.

(** ** Derived structures

    The object and array literals the metrics return. *)
Inductive value : Type :=
| JUndef
| JNum (n : num)
| JStr (s : string)
| JBool (b : bool)
| JArr (xs : list value)
| JObj (fs : list (string * value)).

Definition JNat (n : nat) : value := JNum (Some (ofnat n)).
Definition JQ (q : Q) : value := JNum (Some q).
Definition JZ (z : Z) : value := JNum (Some (ofZ z)).

(** [o.name] *)
Definition prop (o : value) (name : string) : value :=
  match o with
  | JObj fs =>
      match obj_get fs name with
      | Some v => v
      | None => JUndef
      end
  | _ => JUndef
  end.

(** ** Pivoting the long shape *)

Record DeviceDataset : Type := {
  timeSeries : list TimeSeriesPoint;
  cycleSummaries : list TimeSeriesPoint;
  realTimeData : list TimeSeriesPoint;
  dsDeviceId : string
}.

(** The comparator [(a, b) => a.timestamp - b.timestamp]; a [NaN]
    difference counts as zero. *)
Definition byTimestamp (a b : TimeSeriesPoint) : Z :=
  match timestamp a, timestamp b with
  | Some x, Some y => x - y
  | _, _ => 0
  end.

(** [Array.prototype.sort] is stable; insertion from the right is. *)
Fixpoint sort_insert {A : Type} (cmp : A -> A -> Z) (x : A) (l : list A)
    : list A :=
  match l with
  | [] => [x]
  | y :: l' => if cmp x y <=? 0 then x :: l else y :: sort_insert cmp x l'
  end.

Definition sortBy {A : Type} (cmp : A -> A -> Z) (l : list A) : list A :=
  fold_right (sort_insert cmp) [] l.

(** The name whose assignment reaches the accessor of
    [Object.prototype] instead of creating a property. *)
Definition protoName : string := "__proto__".

Section Pivot.
Context `{Host}.

(** [point[m.measure_name] = m.measure_value]: a number assigned to
    [__proto__] is ignored by the accessor and creates no property. *)
Definition setMeasure (point : gmap string Q) (m : MeasurementPoint)
    : gmap string Q :=
  if String.eqb (measure_name m) protoName then point
  else <[measure_name m := measure_value m]> point.

(** The point built for one [Time] group.  A measure called [time],
    [timeStr] or [timestamp] would replace that property of the point;
    here it is kept beside it in [fields], so what is said of the three
    properties of a point excludes such measures ([pointKeys]). *)
Definition makePoint (t : string) (measures : list MeasurementPoint)
    : TimeSeriesPoint :=
  {| time := Date_parse t;
     timeStr := localeTimeString (Date_parse t);
     timestamp := Date_parse t;
     fields := fold_left setMeasure measures ∅ |}.

Definition makeDevice (id : string) (deviceRows : list MeasurementPoint)
    : DeviceDataset :=
  let byTime := groupBy Time deviceRows in
  let timeSeries :=
    sortBy byTimestamp
      (map (fun '(t, measures) => makePoint t measures)
         (Object_entries byTime)) in
  let cycleSummaries :=
    List.filter (fun t => defined t "cycle.durationS") timeSeries in
  let realTimeData :=
    List.filter
      (fun t => defined t "voltage.U1" || defined t "DI1_KM"
                || defined t "temperature.ambient") timeSeries in
  {| timeSeries := timeSeries;
     cycleSummaries := cycleSummaries;
     realTimeData := realTimeData;
     dsDeviceId := id |}.

(** [processed[deviceId] = {...}] on the own properties of [processed]
    and on its prototype: an object assigned to [__proto__] becomes the
    prototype and creates no key. *)
Definition setDevice
    (processed : jsobj DeviceDataset * option DeviceDataset)
    (entry : string * list MeasurementPoint)
    : jsobj DeviceDataset * option DeviceDataset :=
  let '(id, deviceRows) := entry in
  if String.eqb id protoName
  then (fst processed, Some (makeDevice id deviceRows))
  else (obj_set id (makeDevice id deviceRows) (fst processed),
        snd processed).

(** The loop of [DataProcessor.pivotLongToWide], the same in both
    long-shape dashboards: the own properties of [processed], and the
    dataset that replaced its prototype, if any.  [_.groupBy] does keep
    a group called [__proto__] as a key of its own. *)
Definition pivotLoop (rows : list MeasurementPoint)
    : jsobj DeviceDataset * option DeviceDataset :=
  let byDevice := groupBy deviceId rows in
  fold_left setDevice (Object_entries byDevice) ([], None).

(** The own properties of the object that [pivotLongToWide] returns:
    what [Object.keys], [Object.values] and [Object.entries] see. *)
Definition pivotLongToWide (rows : list MeasurementPoint)
    : jsobj DeviceDataset :=
  fst (pivotLoop rows).

(** The dataset that [pivotLongToWide] made the prototype of its
    result: that of a device called [__proto__]. *)
Definition pivotPrototype (rows : list MeasurementPoint)
    : option DeviceDataset :=
  snd (pivotLoop rows).
End Pivot.

(** ** Metrics of the long shape: helpers *)

Record AlertThresholds : Type := {
  cycleDuration : Q;
  inrushMultiple : Q;
  voltageSag : Q;
  currentUnbalance : Q;
  ripple : Q;
  lifetimeCycleThreshold : Q;
  mtbfThresholdHours : Q
}.

(** The initial thresholds of the component. *)
Definition defaultThresholds : AlertThresholds :=
  {| cycleDuration := 25; inrushMultiple := 8; voltageSag := 60;
     currentUnbalance := 15; ripple := 70; lifetimeCycleThreshold := 50000;
     mtbfThresholdHours := 100 |}%Q.

(** The property iteratee [name] of lodash on a point. *)
Definition fval (name : string) (p : TimeSeriesPoint) : jsval :=
  match field p name with
  | Some q => VNum q
  | None => VUndef
  end.

Definition gtQ (a b : Q) : bool := negb (Qle_bool a b).
Definition ltQ (a b : Q) : bool := negb (Qle_bool b a).

(** [p[name] > 0] *)
Definition positive (p : TimeSeriesPoint) (name : string) : bool :=
  match field p name with
  | Some q => gtQ q 0
  | None => false
  end.

(** [parseFloat(q.toFixed(d))] *)
Definition rounded (d : nat) (q : Q) : value := JQ (toFixed d q).
Definition nrounded (d : nat) (n : num) : value := JNum (ntoFixed d n).

(** [Math.max(...xs)] and [Math.min(...xs)] over numbers. *)
Fixpoint Math_maxQ (xs : list num) : num :=
  match xs with
  | [] => None
  | [x] => x
  | x :: xs' => nmax x (Math_maxQ xs')
  end.

(** The span [Math.max(...ts) - Math.min(...ts)] of a list of instants,
    in milliseconds. *)
Definition spanMs (ts : list (option Z)) : num :=
  match Math_max ts, Math_min ts with
  | Some a, Some b => Some (ofZ (a - b))
  | _, _ => None
  end.

(** The default comparator of [sort]: by the printed strings. *)
Definition defaultCompare (a b : Q) : Z :=
  match String.compare (Number_toString a) (Number_toString b) with
  | Lt => -1
  | Eq => 0
  | Gt => 1
  end.

(** [_.range(0, e, 2)] *)
Definition range2 (e : Z) : list Z :=
  map (fun i => 2 * Z.of_nat i) (seq 0 (Z.to_nat ((e + 1) / 2))).

(** [_.max(xs)]: [undefined] on the empty list. *)
Definition lodash_max (xs : list Q) : num :=
  match xs with
  | [] => None
  | x :: xs' => Some (fold_left Qmax xs' x)
  end.

Definition dayNames : list string :=
  ["Sun"; "Mon"; "Tue"; "Wed"; "Thu"; "Fri"; "Sat"]%string.

(** The heatmap key [`${dayIndex}-${hour}`]. *)
Definition cellKey (day hr : Z) : string :=
  pretty day +:+ "-" +:+ pretty hr.

Definition showIndex (i : option Z) : string :=
  match i with
  | Some z => pretty z
  | None => "NaN"
  end.

Definition hours24 : list Z := map Z.of_nat (seq 0 24).
Definition days7 : list Z := map Z.of_nat (seq 0 7).

(** The 168 cells, day by day. *)
Definition gridCells : list (Z * Z) :=
  flat_map (fun d => map (fun h => (d, h)) hours24) days7.

(** The object with every cell at zero. *)
Definition emptyGrid {V : Type} (zero : V) : gmap string V :=
  fold_left (fun heatmap '(d, h) => <[cellKey d h := zero]> heatmap)
    gridCells ∅.

Definition mapValues {V : Type} (m : gmap string V) : list V :=
  map snd (map_to_list m).

(** The drift of a cycle against the baseline, in percent. *)
Definition driftOf (baseline duration : Q) : Q :=
  if gtQ baseline 0 then ((duration - baseline) / baseline * 100)%Q
  else 0%Q.

(** [durations.slice().sort()[Math.floor(durations.length / 2)]] *)
Definition baselineOf (durations : list Q) : Q :=
  if (0 <? length durations)%nat then
    nth (length durations / 2) (sortBy defaultCompare durations) 0%Q
  else 0%Q.

(** [value.x] as a number, for comparisons. *)
Definition vnum (v : value) : num :=
  match v with
  | JNum n => n
  | JBool b => Some (if b then 1%Q else 0%Q)
  | _ => None
  end.

Definition show_num (n : num) : string :=
  match n with
  | Some q => Number_toString q
  | None => "NaN"
  end.

(** ** [MetricsCalculator] of the long-shape dashboard with filters *)

Module TimeSeriesMetrics.
Section Defs.
Context `{Host}.

Definition totalRuntimeHours (cycles : list TimeSeriesPoint) : num :=
  ndiv (to_number (sumBy (fval "cycle.durationS") cycles)) (Some 3600%Q).

Definition timeWindowHoursOf (cycles : list TimeSeriesPoint) : num :=
  let timestamps := map timestamp cycles in
  if (0 <? length timestamps)%nat then
    ndiv (spanMs timestamps) (Some (ofZ (1000 * 60 * 60)))
  else Some 1%Q.

(** [timeWindowHours > 0 ? (totalRuntime / timeWindowHours) * 100 : 0] *)
Definition utilizationRateOf (cycles : list TimeSeriesPoint) : num :=
  let timeWindowHours := timeWindowHoursOf cycles in
  if ngt timeWindowHours (Some 0%Q) then
    nmul (ndiv (totalRuntimeHours cycles) timeWindowHours) (Some 100%Q)
  else Some 0%Q.

Definition calculateFleetKPIs (cycles realTime : list TimeSeriesPoint)
    (thresholds : AlertThresholds) : value :=
  match cycles with
  | [] => JObj []
  | _ =>
      let totalCycles := length cycles in
      let avgCycleDuration := or0 (meanBy (fval "cycle.durationS") cycles) in
      let totalEnergy :=
        or0 (to_number (sumBy (fval "energy.totalWh") cycles)) in
      let errorCount := count (fun c => is1 c "cycle.overall") cycles in
      let eStopCount :=
        count (fun r => is1 r "DI2_ES_Overload_Key") realTime in
      let doorViolations :=
        count (fun r => is1 r "DI4_Door" && is1 r "DI1_KM") realTime in
      let totalRuntime := totalRuntimeHours cycles in
      let timeWindowHours := timeWindowHoursOf cycles in
      let utilizationRate := utilizationRateOf cycles in
      let idleTime :=
        nmax (Some 0%Q) (nsub timeWindowHours totalRuntime) in
      let avgInrushPeak := or0 (meanBy (fval "inrush.maxPeakA") cycles) in
      let avgLoadFactor :=
        or0 (meanBy (fval "workCurrent.loadFactor") cycles) in
      let avgVoltageLevel :=
        or0 (meanBy (fval "workVoltage.levelPct") cycles) in
      JObj
        [("totalCycles", JNat totalCycles);
         ("avgCycleDuration", rounded 2 avgCycleDuration);
         ("totalEnergy", rounded 2 totalEnergy);
         ("errorCount", JNat errorCount);
         ("eStopCount", JNat eStopCount);
         ("doorViolations", JNat doorViolations);
         ("totalRuntime", nrounded 2 totalRuntime);
         ("utilizationRate", nrounded 1 utilizationRate);
         ("idleTime", nrounded 2 idleTime);
         ("timeWindowHours", nrounded 2 timeWindowHours);
         ("avgEnergyPerCycle",
          if (0 <? totalCycles)%nat then
            rounded 3 (totalEnergy / ofnat totalCycles)
          else JQ 0);
         ("avgInrushPeak", rounded 2 avgInrushPeak);
         ("avgLoadFactor", rounded 2 avgLoadFactor);
         ("avgVoltageLevel", rounded 2 avgVoltageLevel)]
  end.

(** One entry of [trends]. *)
Definition trendEntry (baseline : Q) (idx : nat) (c : TimeSeriesPoint)
    : value :=
  let duration := field0 c "cycle.durationS" in
  let drift := driftOf baseline duration in
  JObj
    [("cycle", JNat (idx + 1));
     ("duration", rounded 2 duration);
     ("energy", rounded 2 (field0 c "energy.workWh"));
     ("powerFactor", rounded 2 (field0 c "workCurrent.loadFactor"));
     ("drift", rounded 2 drift);
     ("baseline", rounded 2 baseline);
     ("time", JStr (timeStr c));
     ("isDrifting", JBool (gtQ (Qabs drift) 10))].

Definition calculateCycleMetrics (cycles : list TimeSeriesPoint) : value :=
  match cycles with
  | [] =>
      JObj [("trends", JArr []); ("distribution", JArr []);
            ("driftAnalysis", JArr []); ("baseline", JQ 0)]
  | _ =>
      let durations := map (fun c => field0 c "cycle.durationS") cycles in
      let baseline := baselineOf durations in
      let trends := imap (trendEntry baseline) cycles in
      let distribution :=
        map (fun bucket =>
               JObj
                 [("range",
                   JStr (pretty bucket +:+ "-" +:+ pretty (bucket + 2)
                         +:+ "s"));
                  ("count",
                   JNat (count
                           (fun d => Qle_bool (ofZ bucket) d
                                     && ltQ d (ofZ (bucket + 2)))
                           durations))])
          (range2
             (Qceiling
                (match lodash_max durations with
                 | Some m => if Qeq_bool m 0 then 30%Q else m
                 | None => 30%Q
                 end))) in
      JObj [("trends", JArr trends);
            ("distribution", JArr distribution);
            ("driftAnalysis", JArr (slice_last 30 trends));
            ("baseline", JQ baseline)]
  end.

Definition calculateElectricalMetrics (cycles : list TimeSeriesPoint)
    (thresholds : AlertThresholds) : value :=
  match cycles with
  | [] =>
      JObj [("inrush", JArr []); ("voltage", JArr []);
            ("current", JArr []); ("startDelay", JArr [])]
  | _ =>
      let inrush :=
        imap (fun idx c =>
                JObj
                  [("cycle", JNat (idx + 1));
                   ("peakA", rounded 2 (field0 c "inrush.maxPeakA"));
                   ("meanA", rounded 2 (field0 c "inrush.meanPeakA"));
                   ("unbalance", rounded 2 (field0 c "inrush.unbalancePct"));
                   ("duration", rounded 0 (field0 c "inrush.durationMs"));
                   ("multiple", rounded 2 (field0 c "inrush.multiple"));
                   ("time", JStr (timeStr c));
                   ("isHigh",
                    JBool (gtQ (field0 c "inrush.multiple")
                             (inrushMultiple thresholds)))]) cycles in
      let voltage :=
        imap (fun idx c =>
                JObj
                  [("cycle", JNat (idx + 1));
                   ("level", rounded 2 (field0 c "workVoltage.levelPct"));
                   ("unbalance",
                    rounded 2 (field0 c "workVoltage.unbalancePct"));
                   ("sagDepth", rounded 2 (field0 c "voltageSag.sagDepthPct"));
                   ("sagDuration",
                    rounded 0 (field0 c "voltageSag.sagDurationMaxMs"));
                   ("sagLevel", rounded 1 (field0 c "voltageSag.sagLevelMinV"));
                   ("time", JStr (timeStr c));
                   ("hasSag",
                    JBool (gtQ (field0 c "voltageSag.sagDepthPct")
                             (voltageSag thresholds)))]) cycles in
      let current :=
        imap (fun idx c =>
                JObj
                  [("cycle", JNat (idx + 1));
                   ("loadFactor",
                    rounded 2 (field0 c "workCurrent.loadFactor"));
                   ("meanA", rounded 2 (field0 c "workCurrent.meanAvgA"));
                   ("unbalance",
                    rounded 2 (field0 c "workCurrent.unbalancePct"));
                   ("ripple", rounded 2 (field0 c "workCurrent.rippleMaxPct"));
                   ("time", JStr (timeStr c));
                   ("hasIssue",
                    JBool (gtQ (field0 c "workCurrent.unbalancePct")
                             (currentUnbalance thresholds)))]) cycles in
      let startDelay :=
        imap (fun idx c =>
                JObj
                  [("cycle", JNat (idx + 1));
                   ("maxMs", rounded 2 (field0 c "startDelay.delayMaxMs"));
                   ("meanMs", rounded 2 (field0 c "startDelay.delayMeanMs"));
                   ("time", JStr (timeStr c))]) cycles in
      JObj [("inrush", JArr inrush); ("voltage", JArr voltage);
            ("current", JArr current); ("startDelay", JArr startDelay)]
  end.

Definition calculateVoltageMonitoring (realTimeData : list TimeSeriesPoint)
    : value :=
  match realTimeData with
  | [] => JArr []
  | _ =>
      JArr
        (map (fun d =>
                JObj
                  [("time", JStr (timeStr d));
                   ("U1", rounded 1 (field0 d "voltage.U1"));
                   ("U2", rounded 1 (field0 d "voltage.U2"));
                   ("U3", rounded 1 (field0 d "voltage.U3"));
                   ("temp", rounded 1 (field0 d "temperature.ambient"))])
           (List.filter (fun d => defined d "voltage.U1")
              (slice_last 100 realTimeData)))
  end.

(** The five checks of a cycle and their count. *)
Definition anomalyChecks (thresholds : AlertThresholds)
    (c : TimeSeriesPoint) : list bool :=
  [gtQ (field0 c "inrush.multiple") (inrushMultiple thresholds);
   gtQ (field0 c "voltageSag.sagDepthPct") (voltageSag thresholds);
   gtQ (field0 c "workCurrent.unbalancePct") (currentUnbalance thresholds);
   gtQ (field0 c "workCurrent.rippleMaxPct") (ripple thresholds);
   is1 c "cycle.overall"].

Definition anomalyScore (thresholds : AlertThresholds)
    (c : TimeSeriesPoint) : nat :=
  count (fun b : bool => b) (anomalyChecks thresholds c).

Definition anomalyEntry (thresholds : AlertThresholds) (idx : nat)
    (c : TimeSeriesPoint) : value :=
  let score := anomalyScore thresholds c in
  JObj
    [("cycle", JNat (idx + 1));
     ("score", JNat score);
     ("isAnomaly", JBool (2 <=? score)%nat);
     ("time", JStr (timeStr c));
     ("inrushHigh", JBool (nth 0 (anomalyChecks thresholds c) false));
     ("voltageIssue", JBool (nth 1 (anomalyChecks thresholds c) false));
     ("currentIssue", JBool (nth 2 (anomalyChecks thresholds c) false));
     ("rippleHigh", JBool (nth 3 (anomalyChecks thresholds c) false));
     ("cycleError", JBool (nth 4 (anomalyChecks thresholds c) false))].

Definition scoreOf (a : value) : nat :=
  match vnum (prop a "score") with
  | Some q => Z.to_nat (Qfloor q)
  | None => 0
  end.

Definition isAnomaly (a : value) : bool :=
  match prop a "isAnomaly" with
  | JBool b => b
  | _ => false
  end.

Definition calculateAnomalies (cycles : list TimeSeriesPoint)
    (thresholds : AlertThresholds) : value :=
  match cycles with
  | [] =>
      JObj [("anomalies", JArr []); ("count", JNat 0);
            ("recentAnomalies", JArr []); ("severity", JObj [])]
  | _ =>
      let anomalies := imap (anomalyEntry thresholds) cycles in
      let anomalyCount := count isAnomaly anomalies in
      let recentAnomalies := slice_last 10 (List.filter isAnomaly anomalies) in
      let severity :=
        JObj
          [("critical", JNat (count (fun a => (4 <=? scoreOf a)%nat) anomalies));
           ("high", JNat (count (fun a => (scoreOf a =? 3)%nat) anomalies));
           ("medium", JNat (count (fun a => (scoreOf a =? 2)%nat) anomalies))] in
      JObj [("anomalies", JArr anomalies); ("count", JNat anomalyCount);
            ("recentAnomalies", JArr recentAnomalies);
            ("severity", severity)]
  end.

Definition safetyEvent (type time severity : string) : value :=
  JObj [("type", JStr type); ("time", JStr time);
        ("severity", JStr severity)].

Definition calculateSafetyMetrics (realTimeData : list TimeSeriesPoint)
    : value :=
  match realTimeData with
  | [] => JObj [("events", JArr []); ("timeline", JArr [])]
  | _ =>
      let safetyEvents :=
        flat_map
          (fun point =>
             (if is1 point "DI2_ES_Overload_Key" then
                [safetyEvent "E-Stop/Overload" (timeStr point) "critical"]
              else [])
             ++ (if is1 point "DI4_Door" && is1 point "DI1_KM" then
                   [safetyEvent "Door Open Violation" (timeStr point) "high"]
                 else [])
             ++ (if is1 point "DI8_Full_Error" then
                   [safetyEvent "Full Error" (timeStr point) "critical"]
                 else []))
          realTimeData in
      let timeline :=
        map (fun d =>
               JObj [("time", JStr (timeStr d));
                     ("eStop", JQ (field0 d "DI2_ES_Overload_Key"));
                     ("doorOpen", JQ (field0 d "DI4_Door"));
                     ("fullError", JQ (field0 d "DI8_Full_Error"))])
          (slice_last 200 realTimeData) in
      JObj [("events", JArr (slice_last 20 safetyEvents));
            ("timeline", JArr timeline)]
  end.

(** [c['energy.totalWh'] > 0 ? (c['energy.workWh'] / c['energy.totalWh'])
    * 100 : 0] *)
Definition efficiencyPct (c : TimeSeriesPoint) : num :=
  if positive c "energy.totalWh" then
    nmul (ndiv (field c "energy.workWh") (field c "energy.totalWh"))
      (Some 100%Q)
  else Some 0%Q.

Definition hourKey (c : TimeSeriesPoint) : string :=
  showIndex (option_map getHours (time c)) +:+ ":00".

Definition calculateEnergyMetrics (cycles : list TimeSeriesPoint) : value :=
  match cycles with
  | [] =>
      JObj [("efficiency", JArr []); ("hourly", JArr []);
            ("composite", JArr [])]
  | _ =>
      let efficiency :=
        imap (fun idx c =>
                JObj
                  [("cycle", JNat (idx + 1));
                   ("totalWh", rounded 2 (field0 c "energy.totalWh"));
                   ("workWh", rounded 2 (field0 c "energy.workWh"));
                   ("efficiencyPct",
                    if positive c "energy.totalWh" then
                      nrounded 1 (efficiencyPct c)
                    else JQ 0);
                   ("powerW", rounded 0 (field0 c "energy.powerWorkW"));
                   ("time", JStr (timeStr c))]) cycles in
      let byHour := groupBy hourKey cycles in
      let hourly :=
        map (fun '(hr, hourCycles) =>
               JObj
                 [("hour", JStr hr);
                  ("totalWh",
                   rounded 2
                     (or0 (to_number
                             (sumBy (fval "energy.totalWh") hourCycles))));
                  ("cycles", JNat (length hourCycles));
                  ("avgPower",
                   rounded 0
                     (or0 (meanBy (fval "energy.powerWorkW") hourCycles)))])
          (Object_entries byHour) in
      let composite :=
        imap (fun idx c =>
                let energyScore := efficiencyPct c in
                let voltageScore :=
                  (100 - Qabs (100 - field0 c "workVoltage.levelPct"))%Q in
                let loadScore :=
                  (field0 c "workCurrent.loadFactor" * 100)%Q in
                let overallScore :=
                  ndiv (nadd (nadd energyScore (Some voltageScore))
                          (Some loadScore)) (Some 3%Q) in
                JObj
                  [("cycle", JNat (idx + 1));
                   ("energyScore", nrounded 1 energyScore);
                   ("voltageScore", rounded 1 voltageScore);
                   ("loadScore", rounded 1 loadScore);
                   ("overallScore", nrounded 1 overallScore)])
          (slice_last 20 cycles) in
      JObj [("efficiency", JArr efficiency); ("hourly", JArr hourly);
            ("composite", JArr composite)]
  end.

Definition sagSeverity (c : TimeSeriesPoint) : string :=
  if gtQ (field0 c "voltageSag.sagDepthPct") 60 then "critical"
  else if gtQ (field0 c "voltageSag.sagDepthPct") 40 then "high"
  else "medium".

Definition hasSeverity (sev : string) (s : value) : bool :=
  match prop s "severity" with
  | JStr x => String.eqb x sev
  | _ => false
  end.

Definition calculateVoltageSagAnalysis (cycles : list TimeSeriesPoint)
    : value :=
  match cycles with
  | [] => JObj [("sags", JArr []); ("severity", JObj [])]
  | _ =>
      let sags :=
        imap (fun idx c =>
                JObj
                  [("cycle", JNat (idx + 1));
                   ("depth", rounded 2 (field0 c "voltageSag.sagDepthPct"));
                   ("duration",
                    rounded 0 (field0 c "voltageSag.sagDurationMaxMs"));
                   ("minLevel",
                    rounded 1 (field0 c "voltageSag.sagLevelMinV"));
                   ("time", JStr (timeStr c));
                   ("severity", JStr (sagSeverity c))])
          (List.filter (fun c => gtQ (field0 c "voltageSag.sagDepthPct") 0)
             cycles) in
      let severity :=
        JObj [("critical", JNat (count (hasSeverity "critical") sags));
              ("high", JNat (count (hasSeverity "high") sags));
              ("medium", JNat (count (hasSeverity "medium") sags))] in
      JObj [("sags", JArr (slice_last 30 sags)); ("severity", severity)]
  end.

(** The key of the cell a record falls in; an invalid date gives
    "NaN-NaN". *)
Definition recordKey (record : TimeSeriesPoint) : string :=
  showIndex (option_map getDay (time record)) +:+ "-"
  +:+ showIndex (option_map getHours (time record)).

(** The counting loop of the heatmap:
    [heatmap[key] = (heatmap[key] || 0) + 1] for an active record. *)
Definition countStep (heatmap : gmap string Q) (record : TimeSeriesPoint)
    : gmap string Q :=
  if is1 record "DI1_KM" then
    <[recordKey record :=
        (default 0%Q (heatmap !! recordKey record) + 1)%Q]> heatmap
  else heatmap.

Definition countActive (realTimeData : list TimeSeriesPoint)
    : gmap string Q :=
  fold_left countStep realTimeData (emptyGrid 0%Q).

Definition heatCell (heatmap : gmap string Q) (maxValue : Q)
    (cell : Z * Z) : value :=
  let '(dayIndex, hr) := cell in
  let v := default 0%Q (heatmap !! cellKey dayIndex hr) in
  JObj [("day", JZ dayIndex);
        ("hour", JZ hr);
        ("dayName", JStr (nth (Z.to_nat dayIndex) dayNames ""));
        ("value", JQ v);
        ("intensity", JQ (v / maxValue * 100))].

Definition calculateUtilizationHeatmap
    (realTimeData : list TimeSeriesPoint) : value :=
  match realTimeData with
  | [] => JObj [("days", JArr []); ("hours", JArr []); ("data", JArr [])]
  | _ =>
      let heatmap := countActive realTimeData in
      let maxValue := fold_left Qmax (mapValues heatmap) 1%Q in
      JObj [("days", JArr (map JStr dayNames));
            ("hours", JArr (map JZ hours24));
            ("data", JArr (map (heatCell heatmap maxValue) gridCells))]
  end.

Definition calculateIdleActiveAnalysis
    (realTimeData : list TimeSeriesPoint) : value :=
  match realTimeData with
  | [] =>
      JObj [("activeHours", JNat 0); ("idleHours", JNat 0);
            ("activePercent", JNat 0); ("totalHours", JNat 0)]
  | _ =>
      let activeCount := count (fun r => is1 r "DI1_KM") realTimeData in
      let totalCount := length realTimeData in
      let activePercent :=
        if (0 <? totalCount)%nat then
          (ofnat activeCount / ofnat totalCount * 100)%Q
        else 0%Q in
      let readingIntervalHours := (25 / 3600)%Q in
      let activeHours := (ofnat activeCount * readingIntervalHours)%Q in
      let totalHours := (ofnat totalCount * readingIntervalHours)%Q in
      let idleHours := (totalHours - activeHours)%Q in
      JObj [("activeHours", rounded 2 activeHours);
            ("idleHours", rounded 2 idleHours);
            ("totalHours", rounded 2 totalHours);
            ("activePercent", rounded 1 activePercent)]
  end.

Definition calculateLifetimeMetrics (allCycles : list TimeSeriesPoint)
    (thresholds : AlertThresholds) : value :=
  match allCycles with
  | [] =>
      JObj [("lifetimeCycles", JNat 0); ("rul", JNat 0);
            ("rulDays", JNat 0); ("mtbf", JNat 0);
            ("mttr", JQ (5 # 2)); ("remainingCycles", JNat 0)]
  | _ =>
      let lifetimeCycles := ofnat (length allCycles) in
      let threshold := lifetimeCycleThreshold thresholds in
      let remainingCycles := Qmax 0 (threshold - lifetimeCycles) in
      let rulPercent :=
        nmul (ndiv (Some remainingCycles) (Some threshold)) (Some 100%Q) in
      let timestamps := map timestamp allCycles in
      let dataSpanDays :=
        if (0 <? length timestamps)%nat then
          ndiv (spanMs timestamps) (Some (ofZ (1000 * 60 * 60 * 24)))
        else Some 1%Q in
      let avgCyclesPerDay :=
        if ngt dataSpanDays (Some 0%Q) then
          ndiv (Some lifetimeCycles) dataSpanDays
        else Some lifetimeCycles in
      let rulDays :=
        if ngt avgCyclesPerDay (Some 0%Q) then
          ndiv (Some remainingCycles) avgCyclesPerDay
        else Some 0%Q in
      let failures := count (fun c => is1 c "cycle.overall") allCycles in
      let totalRuntime := totalRuntimeHours allCycles in
      let mtbf :=
        if (0 <? failures)%nat then
          ndiv totalRuntime (Some (ofnat failures))
        else totalRuntime in
      JObj [("lifetimeCycles", JQ lifetimeCycles);
            ("rul", nrounded 1 rulPercent);
            ("rulDays", nrounded 0 rulDays);
            ("remainingCycles", JQ remainingCycles);
            ("mtbf", nrounded 1 mtbf);
            ("mttr", JQ (5 # 2))]
  end.

Definition calculateDIStateTimeline (realTimeData : list TimeSeriesPoint)
    : value :=
  match realTimeData with
  | [] => JArr []
  | _ =>
      JArr
        (map (fun d =>
                JObj [("time", JStr (timeStr d));
                      ("KM", JQ (field0 d "DI1_KM"));
                      ("Overload", JQ (field0 d "DI2_ES_Overload_Key"));
                      ("Gate", JQ (field0 d "DI3_Gate"));
                      ("Door", JQ (field0 d "DI4_Door"));
                      ("GateDown", JQ (field0 d "DI5_GateDown"));
                      ("Pressure", JQ (field0 d "DI6_PressureSwitchDigital"));
                      ("YDown", JQ (field0 d "DI7_Y_Down"));
                      ("Error", JQ (field0 d "DI8_Full_Error"))])
           (slice_last 50 realTimeData))
  end.

(** [generateReport]; [now] is [new Date().toISOString()].  Reading a
    property of [undefined] throws. *)
Definition generateReport (now deviceId : string)
    (fleetKPIs anomalyMetrics safetyMetrics voltageSagAnalysis
       lifetimeMetrics : value) : result value :=
  match prop voltageSagAnalysis "severity" with
  | JUndef =>
      Throw "TypeError: Cannot read properties of undefined (reading 'critical')"
  | severity =>
      let recommendations :=
        (if ngt (vnum (prop anomalyMetrics "count")) (Some 5%Q) then
           [JStr "High anomaly count detected - recommend maintenance inspection"]
         else [])
        ++ (if ngt (vnum (prop fleetKPIs "eStopCount")) (Some 3%Q) then
              [JStr "Multiple E-Stop events - investigate safety concerns"]
            else [])
        ++ (if ngt (Some (1 # 2)%Q) (vnum (prop fleetKPIs "avgLoadFactor"))
            then
              [JStr "Low load factor - check for underloading or inefficient operation"]
            else [])
        ++ (if ngt (vnum (prop severity "critical")) (Some 0%Q) then
              [JStr "Critical voltage sags detected - check power supply quality"]
            else [])
        ++ (if ngt (Some 20%Q) (vnum (prop lifetimeMetrics "rul")) then
              [JStr ("Machine approaching end-of-life - plan replacement within "
                     +:+ show_num (vnum (prop lifetimeMetrics "rulDays"))
                     +:+ " days")]
            else [])
        ++ (if ngt (Some 100%Q) (vnum (prop lifetimeMetrics "mtbf")) then
              [JStr "Low MTBF indicates poor reliability - investigate recurring failure modes"]
            else []) in
      Ok (JObj
            [("timestamp", JStr now);
             ("device", JStr deviceId);
             ("summary", fleetKPIs);
             ("anomalies",
              JObj [("total", prop anomalyMetrics "count");
                    ("severity", prop anomalyMetrics "severity");
                    ("recent", prop anomalyMetrics "recentAnomalies")]);
             ("safetyEvents", prop safetyMetrics "events");
             ("lifetime", lifetimeMetrics);
             ("recommendations", JArr recommendations)])
  end.
End Defs.
End TimeSeriesMetrics.

(** ** [MetricsCalculator] of the long-shape dashboard without filters *)

(** [Math.round] and [Math.floor] *)
Definition Math_round (q : Q) : Q := inject_Z (Qfloor (q + (1 # 2))).
Definition Math_floor (q : Q) : Q := inject_Z (Qfloor q).

(** [n.toString().padStart(2, '0')] for an index that may be [NaN]. *)
Definition pad2 (i : option Z) : string :=
  let s := showIndex i in
  if (String.length s <? 2)%nat then "0" +:+ s else s.

(** What the string comparison of the locale decides. *)
Class Collation : Type := {
  localeCompare : string -> string -> Z
}.

Module KomarMetrics.
Section Defs.
Context `{Host} `{Collation}.

(** [date.getDate().toString().padStart(2, '0') + ' Oct'] *)
Definition dayLabel (p : TimeSeriesPoint) : string :=
  pad2 (option_map getDate (time p)) +:+ " Oct".

Definition calculateUtilization (cycles : list TimeSeriesPoint) : value :=
  match cycles with
  | [] => JQ 0
  | _ =>
      let totalDuration := to_number (sumBy (fval "cycle.durationS") cycles) in
      let avgDuration := ndiv totalDuration (Some (ofnat (length cycles))) in
      JNum (nmin (Some 100%Q)
              (nmul (ndiv avgDuration (Some 30%Q)) (Some 100%Q)))
  end.

Definition calculateCycleMetrics (cycles : list TimeSeriesPoint) : value :=
  match cycles with
  | [] => JObj [("trends", JArr []); ("total", JNat 0); ("avgPerDay", JNat 0)]
  | _ =>
      let total := length cycles in
      let dailyData :=
        groupBy (fun c => localeDateString (time c)) cycles in
      let avgPerDay :=
        if (0 <? length dailyData)%nat then
          (ofnat total / ofnat (length dailyData))%Q
        else 0%Q in
      JObj [("total", JNat total); ("avgPerDay", JQ (Math_round avgPerDay))]
  end.

Definition dailyEntry (date : string) (dayCycles : list TimeSeriesPoint)
    : value :=
  JObj
    [("date", JStr date);
     ("count", JNat (length dayCycles));
     ("runtime",
      nrounded 2
        (ndiv (to_number (sumBy (fval "cycle.durationS") dayCycles))
           (Some 3600%Q)));
     ("avgDuration",
      rounded 2 (or0 (meanBy (fval "cycle.durationS") dayCycles)));
     ("bales",
      let b := Math_floor (ofnat (length dayCycles) / 70) in
      JQ (if Qeq_bool b 0 then 1%Q else b))].

Definition calculateDailyData (cycles : list TimeSeriesPoint)
    : list value :=
  match cycles with
  | [] => []
  | _ =>
      let byDate := groupBy dayLabel cycles in
      slice_last 7
        (map (fun '(date, dayCycles) => dailyEntry date dayCycles)
           (Object_entries byDate))
  end.

(** The metrics that draw from [Math.random] take the number of values
    drawn so far. *)
Definition calculateElectricalMetrics (drawn : nat)
    (cycles : list TimeSeriesPoint) : value :=
  match cycles with
  | [] => JObj [("inrush", JArr []); ("voltage", JArr [])]
  | _ =>
      let dailyData := calculateDailyData cycles in
      let inrush :=
        imap (fun i d =>
                let k := (drawn + 3 * i)%nat in
                JObj
                  [("date", prop d "date");
                   ("phaseA", rounded 2 (Math_random k * 200 + 50));
                   ("phaseB", rounded 2 (Math_random (k + 1) * 200 + 50));
                   ("phaseC", rounded 2 (Math_random (k + 2) * 200 + 50))])
          dailyData in
      let voltage :=
        imap (fun i d =>
                let k := (drawn + 3 * length dailyData + 4 * i)%nat in
                JObj
                  [("date", prop d "date");
                   ("U1", rounded 2 (Math_random k * 50 + 200));
                   ("U2", rounded 2 (Math_random (k + 1) * 50 + 200));
                   ("U3", rounded 2 (Math_random (k + 2) * 50 + 200));
                   ("sag", rounded 2 (Math_random (k + 3) * 100))])
          dailyData in
      JObj [("inrush", JArr inrush); ("voltage", JArr voltage)]
  end.

Definition calculateIdleActiveTime
    (realTimeData cycles : list TimeSeriesPoint) : value :=
  match realTimeData, cycles with
  | [], _ | _, [] =>
      JObj [("data", JArr []); ("activeHours", JNat 0);
            ("idleHours", JNat 0); ("activePercent", JNat 0)]
  | _, _ =>
      let activeCount := count (fun r => is1 r "DI1_KM") realTimeData in
      let totalCount := length realTimeData in
      let readingIntervalHours := (25 / 3600000)%Q in
      let activeHours := (ofnat activeCount * readingIntervalHours)%Q in
      let totalHours := (ofnat totalCount * readingIntervalHours)%Q in
      let idleHours := Qmax 0 (totalHours - activeHours) in
      let activePercent :=
        if (0 <? totalCount)%nat then
          (ofnat activeCount / ofnat totalCount * 100)%Q
        else 0%Q in
      let byDate := groupBy dayLabel realTimeData in
      let data :=
        slice_last 7
          (map (fun '(date, dayData) =>
                  let dayActiveCount :=
                    count (fun r => is1 r "DI1_KM") dayData in
                  let dayTotalCount := length dayData in
                  let dayActiveHours :=
                    (ofnat dayActiveCount * readingIntervalHours)%Q in
                  let dayIdleHours :=
                    (ofnat dayTotalCount * readingIntervalHours
                     - dayActiveHours)%Q in
                  JObj
                    [("date", JStr date);
                     ("activeHours", rounded 2 dayActiveHours);
                     ("idleHours", rounded 2 dayIdleHours);
                     ("utilization",
                      if (0 <? dayTotalCount)%nat then
                        rounded 1
                          (ofnat dayActiveCount / ofnat dayTotalCount * 100)
                      else JQ 0)])
             (Object_entries byDate)) in
      JObj [("data", JArr data);
            ("activeHours", rounded 2 activeHours);
            ("idleHours", rounded 2 idleHours);
            ("totalHours", rounded 2 totalHours);
            ("activePercent", rounded 1 activePercent)]
  end.

(** [hour >= 8 && hour <= 19]; false on an invalid date. *)
Definition tracked (p : TimeSeriesPoint) : bool :=
  match option_map getHours (time p) with
  | Some h => (8 <=? h) && (h <=? 19)
  | None => false
  end.

(** [day + '-' + hour] *)
Definition slotKey (p : TimeSeriesPoint) : string :=
  dayLabel p +:+ "-" +:+ showIndex (option_map getHours (time p)).

(** The [{ active, total }] counters of the cells. *)
Definition countSlots (sortedData : list TimeSeriesPoint)
    : jsobj (nat * nat) :=
  fold_left
    (fun heatmapData record =>
       if tracked record then
         let '(active, total) :=
           default (0, 0)%nat (obj_get heatmapData (slotKey record)) in
         obj_set (slotKey record)
           (if is1 record "DI1_KM" then S active else active, S total)
           heatmapData
       else heatmapData)
    sortedData [].

Definition byKey {V : Type} (a b : string * V) : Z :=
  localeCompare (fst a) (fst b).

Definition calculateUtilizationHeatmap
    (realTimeData : list TimeSeriesPoint) : value :=
  match realTimeData with
  | [] => JObj []
  | _ =>
      let sortedData := sortBy byTimestamp realTimeData in
      let heatmapData := countSlots sortedData in
      JObj
        (fold_left
           (fun result '(key, (active, total)) =>
              let utilizationPercent :=
                if (0 <? total)%nat then
                  (ofnat active / ofnat total * 100)%Q
                else 0%Q in
              obj_set key (rounded 2 utilizationPercent) result)
           (sortBy byKey (Object_entries heatmapData)) [])
  end.

Definition sumSlots (sortedCycles : list TimeSeriesPoint) : jsobj Q :=
  fold_left
    (fun heatmapData cycle =>
       if tracked cycle then
         obj_set (slotKey cycle)
           (default 0%Q (obj_get heatmapData (slotKey cycle))
            + field0 cycle "energy.workWh")%Q
           heatmapData
       else heatmapData)
    sortedCycles [].

Definition calculateEnergyHeatmap (cycles : list TimeSeriesPoint) : value :=
  match cycles with
  | [] => JObj []
  | _ =>
      let sortedCycles := sortBy byTimestamp cycles in
      let heatmapData := sumSlots sortedCycles in
      JObj
        (fold_left
           (fun result '(key, energy) =>
              obj_set key (rounded 2 energy) result)
           (sortBy byKey (Object_entries heatmapData)) [])
  end.

(** [cycles.filter(c => c.timestamp > t).length] *)
Definition cyclesAfter (t : option Z) (cycles : list TimeSeriesPoint)
    : nat :=
  count (fun c => match timestamp c, t with
                  | Some a, Some b => b <? a
                  | _, _ => false
                  end) cycles.

(** The last reading with the full-chamber error, if any. *)
Definition lastFullError (realTimeData : list TimeSeriesPoint)
    : option TimeSeriesPoint :=
  last (List.filter (fun r => is1 r "DI8_Full_Error") realTimeData).

Definition calculateChamberFullness
    (realTimeData cycles : list TimeSeriesPoint) : value :=
  match realTimeData with
  | [] =>
      JObj [("percent", JNat 0); ("color", JStr "bg-green-600");
            ("level", JStr "Low")]
  | _ =>
      let cyclesSinceLastFull :=
        match lastFullError realTimeData with
        | Some r => cyclesAfter (timestamp r) cycles
        | None => length cycles
        end in
      let fullnessPercent :=
        Qmin 100 (ofnat cyclesSinceLastFull / 75 * 100) in
      let '(color, level) :=
        if ltQ fullnessPercent 33 then ("bg-green-600", "Low")
        else if ltQ fullnessPercent 67 then ("bg-yellow-400", "Medium")
        else ("bg-rose-400", "High") in
      JObj [("percent", JQ (Math_round fullnessPercent));
            ("color", JStr color); ("level", JStr level)]
  end%string.

Definition calculateEnergyMetrics (drawn : nat)
    (cycles : list TimeSeriesPoint) : value :=
  match cycles with
  | [] => JObj [("efficiency", JArr [])]
  | _ =>
      let dailyData := calculateDailyData cycles in
      let efficiency :=
        imap (fun i d =>
                let k := (drawn + 3 * i)%nat in
                JObj
                  [("date", prop d "date");
                   ("baler1", rounded 2 (Math_random k * 200 + 50));
                   ("efficiency", rounded 2 (Math_random (k + 1) * 30 + 70));
                   ("powerFactor", rounded 2 (Math_random (k + 2) * 2 + 2))])
          dailyData in
      JObj [("efficiency", JArr efficiency)]
  end.

Definition recentAnomalies : value :=
  JArr [JObj [("type", JStr "Anomaly 4"); ("date", JStr "10/10/2025")];
        JObj [("type", JStr "Anomaly 3"); ("date", JStr "10/10/2025")];
        JObj [("type", JStr "Anomaly 2"); ("date", JStr "10/10/2025")];
        JObj [("type", JStr "Anomaly 1"); ("date", JStr "10/10/2025")]].

Definition calculateAnomalyMetrics (drawn : nat)
    (cycles : list TimeSeriesPoint) : value :=
  match cycles with
  | [] => JObj [("score", JNat 0); ("breakdown", JArr []); ("recent", JArr [])]
  | _ =>
      let dailyData := calculateDailyData cycles in
      let breakdown :=
        imap (fun i d =>
                let k := (drawn + 4 * i)%nat in
                JObj
                  [("date", prop d "date");
                   ("anomaly1", JQ (Math_floor (Math_random k * 5)));
                   ("anomaly2", JQ (Math_floor (Math_random (k + 1) * 8)));
                   ("anomaly3", JQ (Math_floor (Math_random (k + 2) * 6)));
                   ("anomaly4", JQ (Math_floor (Math_random (k + 3) * 3)))])
          dailyData in
      JObj [("score", JNat 5); ("breakdown", JArr breakdown);
            ("recent", recentAnomalies)]
  end.

Definition isSafetyEvent (d : TimeSeriesPoint) : bool :=
  is1 d "DI2_ES_Overload_Key"
  || (is1 d "DI4_Door" && is1 d "DI1_KM")
  || is1 d "DI8_Full_Error".

Definition calculateSafetyMetrics (realTimeData : list TimeSeriesPoint)
    : value :=
  match realTimeData with
  | [] =>
      JObj [("eStop", JNat 0); ("door", JNat 0); ("errors", JNat 0);
            ("mtbf", JNat 20); ("events", JArr [])]
  | _ =>
      let eStop := count (fun d => is1 d "DI2_ES_Overload_Key") realTimeData in
      let door :=
        count (fun d => is1 d "DI4_Door" && is1 d "DI1_KM") realTimeData in
      let errors := count (fun d => is1 d "DI8_Full_Error") realTimeData in
      let events :=
        map (fun d =>
               let issue :=
                 if is1 d "DI2_ES_Overload_Key" then "Overload"
                 else if is1 d "DI8_Full_Error" then "Full"
                 else if is1 d "DI4_Door" then "Gate Down"
                 else "Unknown" in
               JObj [("device", JStr "Baler 1");
                     ("issue", JStr issue);
                     ("time",
                      JStr (match time d with
                            | Some t => toLocaleString t
                            | None => "Invalid Date"
                            end))])
          (slice_last 7 (List.filter isSafetyEvent realTimeData)) in
      JObj [("eStop", JNat eStop); ("door", JNat door);
            ("errors", JNat errors); ("mtbf", JNat 20);
            ("events", JArr events)]
  end%string.

Definition LIFETIME_THRESHOLD : Q := 50000.

Definition forecastDates : list string :=
  ["09 Oct"; "10 Oct"; "11 Oct"; "12 Oct"; "13 Oct"; "14 Oct"; "15 Oct";
   "16 Oct"; "17 Oct"]%string.

Definition calculateEOLMetrics (cycles : list TimeSeriesPoint) : value :=
  match cycles with
  | [] =>
      JObj [("lifetimeCycles", JNat 0); ("remaining", JNat 100);
            ("remainingCycles", JQ 50000); ("rulDays", JNat 0);
            ("forecast", JArr [])]
  | _ =>
      let lifetimeCycles := ofnat (length cycles) in
      let remainingCycles := Qmax 0 (LIFETIME_THRESHOLD - lifetimeCycles) in
      let remainingLifePercent :=
        (remainingCycles / LIFETIME_THRESHOLD * 100)%Q in
      let timestamps := map timestamp cycles in
      let dataSpanDays :=
        if (0 <? length timestamps)%nat then
          ndiv (spanMs timestamps) (Some (ofZ (1000 * 60 * 60 * 24)))
        else Some 1%Q in
      let avgCyclesPerDay :=
        if ngt dataSpanDays (Some 0%Q) then
          ndiv (Some lifetimeCycles) dataSpanDays
        else Some lifetimeCycles in
      let rulDays :=
        if ngt avgCyclesPerDay (Some 0%Q) then
          option_map Math_floor (ndiv (Some remainingCycles) avgCyclesPerDay)
        else Some 0%Q in
      let forecast :=
        imap (fun idx date =>
                let projectedCycles :=
                  nadd (Some lifetimeCycles)
                    (nmul avgCyclesPerDay (Some (ofnat idx))) in
                let projectedRemaining :=
                  nmax (Some 0%Q)
                    (nmul (ndiv (nsub (Some LIFETIME_THRESHOLD)
                                   projectedCycles)
                             (Some LIFETIME_THRESHOLD)) (Some 100%Q)) in
                JObj [("date", JStr date);
                      ("remaining", nrounded 2 projectedRemaining)])
          forecastDates in
      JObj [("lifetimeCycles", JQ lifetimeCycles);
            ("remaining", rounded 1 remainingLifePercent);
            ("remainingCycles", JQ remainingCycles);
            ("rulDays", JNum rulDays);
            ("forecast", JArr forecast)]
  end.
End Defs.
End KomarMetrics.

(** ** The dashboards: which data each displayed value is computed from *)

(** The names every object inherits from [Object.prototype]; a read of
    one of them that is not a property of the object itself gives a
    function, or the prototype for [__proto__]: never [undefined]. *)
Definition objectPrototypeNames : list string :=
  ["constructor"; "__defineGetter__"; "__defineSetter__";
   "hasOwnProperty"; "__lookupGetter__"; "__lookupSetter__";
   "isPrototypeOf"; "propertyIsEnumerable"; "toString"; "valueOf";
   "__proto__"; "toLocaleString"]%string.

(** The properties of a device dataset: two arrays, another array and a
    non-empty string. *)
Definition datasetNames : list string :=
  ["timeSeries"; "cycleSummaries"; "realTimeData"; "deviceId"]%string.

(** What [processedData[name]] can be: [undefined], a dataset, or a
    truthy value that is no dataset and has neither [cycleSummaries]
    nor [realTimeData] (an inherited function, array, string or
    [Object.prototype]). *)
Inductive Current : Type :=
| NoDevice
| Device (d : DeviceDataset)
| NotADevice.

Module TimeSeriesView.
Section Defs.
Context `{Host}.

(** [processedData[name]], for the own properties [processedData] and
    the dataset that replaced the prototype of the object, if any. *)
Definition lookup (processedData : jsobj DeviceDataset)
    (prototype : option DeviceDataset) (name : string) : Current :=
  match obj_get processedData name with
  | Some d => Device d
  | None =>
      match prototype with
      | Some d =>
          if String.eqb name protoName then Device d
          else if existsb (String.eqb name) datasetNames
                  || existsb (String.eqb name) objectPrototypeNames
               then NotADevice
               else NoDevice
      | None =>
          if existsb (String.eqb name) objectPrototypeNames
          then NotADevice
          else NoDevice
      end
  end.

(** The [currentDevice] memo (lines 2188-2193). *)
Definition currentDevice (processedData : jsobj DeviceDataset)
    (prototype : option DeviceDataset) (selectedDevice : string)
    : Current :=
  let first :=
    match Object_values processedData with
    | d :: _ => Device d
    | [] => NoDevice
    end in
  if String.eqb selectedDevice "all" then first
  else
    match lookup processedData prototype selectedDevice with
    | NoDevice => first
    | found => found
    end.

(** The [filteredCycles] memo. *)
Definition filteredCycles (current : Current)
    (dateRange : DateRange) (timeRange : string) : list TimeSeriesPoint :=
  match current with
  | Device d =>
      TimeSeriesDashboard.applyFilters (cycleSummaries d) dateRange timeRange
  | NoDevice | NotADevice => []
  end.

(** The [filteredRealTime] memo. *)
Definition filteredRealTime (current : Current)
    (dateRange : DateRange) (timeRange : string) : list TimeSeriesPoint :=
  match current with
  | Device d =>
      TimeSeriesDashboard.applyFilters (realTimeData d) dateRange timeRange
  | NoDevice | NotADevice => []
  end.

(** The twelve metric memos of the component (lines 2205-2263), under
    their names. *)
Definition metricsOf (current : Current)
    (dateRange : DateRange) (timeRange : string)
    (alertThresholds : AlertThresholds) : list (string * value) :=
  let cycles := filteredCycles current dateRange timeRange in
  let realTime := filteredRealTime current dateRange timeRange in
  [("fleetKPIs",
    TimeSeriesMetrics.calculateFleetKPIs cycles realTime alertThresholds);
   ("cycleMetrics", TimeSeriesMetrics.calculateCycleMetrics cycles);
   ("electricalMetrics",
    TimeSeriesMetrics.calculateElectricalMetrics cycles alertThresholds);
   ("voltageMonitoring",
    TimeSeriesMetrics.calculateVoltageMonitoring realTime);
   ("anomalyMetrics",
    TimeSeriesMetrics.calculateAnomalies cycles alertThresholds);
   ("safetyMetrics", TimeSeriesMetrics.calculateSafetyMetrics realTime);
   ("energyMetrics", TimeSeriesMetrics.calculateEnergyMetrics cycles);
   ("voltageSagAnalysis",
    TimeSeriesMetrics.calculateVoltageSagAnalysis cycles);
   ("utilizationHeatmap",
    TimeSeriesMetrics.calculateUtilizationHeatmap realTime);
   ("idleActiveAnalysis",
    TimeSeriesMetrics.calculateIdleActiveAnalysis realTime);
   ("lifetimeMetrics",
    TimeSeriesMetrics.calculateLifetimeMetrics
      (match current with
       | Device d => cycleSummaries d
       | NoDevice | NotADevice => []
       end) alertThresholds);
   ("diStateTimeline",
    TimeSeriesMetrics.calculateDIStateTimeline realTime)].

(** What the page is drawn from, in a state that is not loading.
    Without a current device the component returns the upload screen
    (line 2293): [None].  Otherwise the page reads [rawData.length]
    (line 2326), [devices], the keys of [processedData], for their
    number (line 2335) and for the options of the selector (line 2386),
    [filteredCycles.length] (line 2467), and fields of each of the
    twelve memos. *)
Definition dashboard (rawData : list MeasurementPoint)
    (processedData : jsobj DeviceDataset)
    (prototype : option DeviceDataset) (selectedDevice : string)
    (dateRange : DateRange) (timeRange : string)
    (alertThresholds : AlertThresholds) : option value :=
  match currentDevice processedData prototype selectedDevice with
  | NoDevice => None
  | current =>
      Some
        (JObj
           ([("records", JNat (length rawData));
             ("devices", JArr (map JStr (map fst processedData)));
             ("filteredCycles",
              JNat (length (filteredCycles current dateRange timeRange)))]
            ++ metricsOf current dateRange timeRange alertThresholds))
  end.
End Defs.
End TimeSeriesView.

Module KomarView.

(** [expandedSections] *)
Record ExpandedSections : Type := {
  performance : bool;
  electrical : bool;
  utilization : bool;
  energy : bool;
  anomaly : bool;
  safety : bool;
  eol : bool
}.

Section Defs.
Context `{Host}.

(** The [currentDevice] memo: there is no device selector. *)
Definition currentDevice (processedData : jsobj DeviceDataset)
    : option DeviceDataset :=
  head (Object_values processedData).

(** The memos of the component that depend on [currentDevice] (lines
    531-579), with the defaults they have while no device is loaded;
    [drawn] is the number of values [Math.random] had given before.
    The memos [utilizationHeatmap] and [energyHeatmap] (lines 581-589)
    are left out: they are computed again only when the length of the
    data or the device id changes, and nothing reads them. *)
Definition metricsOf (drawn : nat) (current : option DeviceDataset)
    : value :=
  match current with
  | None =>
      JObj
        [("utilization", JNat 0);
         ("cycleMetrics", JObj [("total", JNat 0); ("avgPerDay", JNat 0)]);
         ("dailyData", JArr []);
         ("electricalMetrics",
          JObj [("inrush", JArr []); ("voltage", JArr [])]);
         ("energyMetrics", JObj [("efficiency", JArr [])]);
         ("anomalyMetrics",
          JObj [("score", JNat 0); ("breakdown", JArr []);
                ("recent", JArr [])]);
         ("safetyMetrics",
          JObj [("eStop", JNat 0); ("door", JNat 0); ("errors", JNat 0);
                ("mtbf", JNat 0); ("events", JArr [])]);
         ("eolMetrics",
          JObj [("lifetimeCycles", JNat 0); ("remaining", JNat 0);
                ("remainingCycles", JNat 0); ("rulDays", JNat 0);
                ("forecast", JArr [])]);
         ("idleActiveMetrics",
          JObj [("data", JArr []); ("activeHours", JNat 0);
                ("idleHours", JNat 0); ("activePercent", JNat 0)]);
         ("chamberFullness",
          JObj [("percent", JNat 0); ("color", JStr "bg-green-600");
                ("level", JStr "Low")])]
  | Some d =>
      let cycles := cycleSummaries d in
      let realTime := realTimeData d in
      let days := length (KomarMetrics.calculateDailyData cycles) in
      JObj
        [("utilization", KomarMetrics.calculateUtilization cycles);
         ("cycleMetrics", KomarMetrics.calculateCycleMetrics cycles);
         ("dailyData", JArr (KomarMetrics.calculateDailyData cycles));
         ("electricalMetrics",
          KomarMetrics.calculateElectricalMetrics drawn cycles);
         ("energyMetrics",
          KomarMetrics.calculateEnergyMetrics (drawn + 7 * days) cycles);
         ("anomalyMetrics",
          KomarMetrics.calculateAnomalyMetrics (drawn + 10 * days) cycles);
         ("safetyMetrics", KomarMetrics.calculateSafetyMetrics realTime);
         ("eolMetrics", KomarMetrics.calculateEOLMetrics cycles);
         ("idleActiveMetrics",
          KomarMetrics.calculateIdleActiveTime realTime cycles);
         ("chamberFullness",
          KomarMetrics.calculateChamberFullness realTime cycles)]
  end.

(** A heat matrix of the page: seven rows of twelve cells, each
    [Math.floor(Math.random() * 4)], drawn anew whenever the page is
    (lines 888-901 and 1000-1013). *)
Definition heatMatrix (rendering : nat) : value :=
  JArr
    (map
       (fun day =>
          JArr
            (map
               (fun h =>
                  JQ (Math_floor (Math_random (rendering + 12 * day + h)
                                  * 4)))
               (seq 0 12)))
       (seq 0 7)).

(** A section of the page: its content is there while it is expanded. *)
Definition section (expanded : bool) (name : string)
    (content : list (string * value)) : list (string * value) :=
  if expanded then [(name, JObj content)] else [].

(** What the page of a device is drawn from; [rendering] is the number
    of values [Math.random] had given when the page is drawn.  The page
    reads the device id (line 647) and, in the expanded sections, the
    memos but for three values: the chamber is filled to the literal 60
    (lines 706, 708) and not to [chamberFullness.percent], and the two
    heat matrices are drawn at random and not from the memos
    [utilizationHeatmap] and [energyHeatmap]. *)
Definition page (drawn rendering : nat)
    (expandedSections : ExpandedSections) (d : DeviceDataset) : value :=
  let memos := metricsOf drawn (Some d) in
  JObj
    ([("deviceId", JStr (dsDeviceId d))]
     ++ section (performance expandedSections) "performance"
          [("utilization", prop memos "utilization");
           ("chamberFullness",
            JObj [("color", prop (prop memos "chamberFullness") "color");
                  ("percent", JNat 60);
                  ("level", prop (prop memos "chamberFullness") "level")]);
           ("cycleMetrics", prop memos "cycleMetrics");
           ("dailyData", prop memos "dailyData")]
     ++ section (electrical expandedSections) "electrical"
          [("electricalMetrics", prop memos "electricalMetrics")]
     ++ section (utilization expandedSections) "utilization"
          [("heatmap", heatMatrix rendering);
           ("idleActiveMetrics", prop memos "idleActiveMetrics")]
     ++ section (energy expandedSections) "energy"
          [("energyMetrics", prop memos "energyMetrics");
           ("heatmap",
            heatMatrix
              (rendering + if utilization expandedSections then 84 else 0))]
     ++ section (anomaly expandedSections) "anomaly"
          [("anomalyMetrics", prop memos "anomalyMetrics")]
     ++ section (safety expandedSections) "safety"
          [("safetyMetrics", prop memos "safetyMetrics")]
     ++ section (eol expandedSections) "eol"
          [("eolMetrics", prop memos "eolMetrics")]).

(** The component in a state that is not loading: the upload screen
    ([None], line 592) without a current device, the page otherwise. *)
Definition dashboard (drawn rendering : nat)
    (expandedSections : ExpandedSections)
    (processedData : jsobj DeviceDataset) : option value :=
  option_map (page drawn rendering expandedSections)
    (currentDevice processedData).
End Defs.
End KomarView.

(** ** Heatmaps of the wide shape *)

Module DashboardHeatmap.
(** [`${record.dayOfWeek}-${record.hour}`] *)
Definition recordKey (record : CycleRecord) : string :=
  showIndex (dayOfWeek record) +:+ "-" +:+ showIndex (hour record).

(** The accumulation loop: [heatmap[key] += record.runtime_hours];
    a key that is not a cell reads as [undefined], and the sum is
    [NaN]. *)
Definition addStep (heatmap : gmap string num) (record : CycleRecord)
    : gmap string num :=
  <[recordKey record :=
      nadd (default None (heatmap !! recordKey record))
        (runtime_hours record)]> heatmap.

Definition accumulate (data : list CycleRecord) : gmap string num :=
  fold_left addStep data (emptyGrid (Some 0%Q)).

Definition heatCell (heatmap : gmap string num) (maxValue : num)
    (cell : Z * Z) : value :=
  let '(dayIndex, hr) := cell in
  let v := default None (heatmap !! cellKey dayIndex hr) in
  JObj [("day", JZ dayIndex);
        ("hour", JZ hr);
        ("dayName", JStr (nth (Z.to_nat dayIndex) dayNames ""));
        ("value", JNum v);
        ("intensity",
         JNum (if ngt maxValue (Some 0%Q) then
                 nmul (ndiv v maxValue) (Some 100%Q)
               else Some 0%Q))].

Definition heatmapData (data : list CycleRecord) : value :=
  match data with
  | [] => JObj [("days", JArr []); ("hours", JArr []); ("data", JArr [])]
  | _ =>
      let heatmap := accumulate data in
      let maxValue := Math_maxQ (mapValues heatmap) in
      JObj [("days", JArr (map JStr dayNames));
            ("hours", JArr (map JZ hours24));
            ("data", JArr (map (heatCell heatmap maxValue) gridCells))]
  end.

(** The raw values of the 168 cells of a result. *)
Definition cellValues (result : value) : list num :=
  match prop result "data" with
  | JArr cells => map (fun c => vnum (prop c "value")) cells
  | _ => []
  end.
End DashboardHeatmap.

(** The raw values of the cells of the long-shape 7 x 24 heatmap. *)
Definition heatValues (result : value) : list num :=
  DashboardHeatmap.cellValues result.

(** The sum of a list of numbers. *)
Definition nsum (xs : list num) : num := fold_right nadd (Some 0%Q) xs.
Definition Qsum (xs : list Q) : Q := fold_right Qplus 0%Q xs.

(** [r] belongs to the device [dev], the time group [t] and the measure
    [name]. *)
Definition sameTriple (dev t name : string) (r : MeasurementPoint) : bool :=
  String.eqb (deviceId r) dev && String.eqb (Time r) t
  && String.eqb (measure_name r) name.

(** The rows of one device, in input order. *)
Definition rowsOf (dev : string) (rows : list MeasurementPoint)
    : list MeasurementPoint :=
  List.filter (keyIs deviceId dev) rows.

(** ** Zeroed structures

    A derived structure is zeroed when every number in it is zero, every
    array is empty and every flag is off; text labels are not numbers
    and do not count. *)
Fixpoint zeroed (v : value) : bool :=
  match v with
  | JUndef => true
  | JNum n =>
      match n with
      | Some q => Qeq_bool q 0
      | None => false
      end
  | JStr _ => true
  | JBool b => negb b
  | JArr xs =>
      match xs with
      | [] => true
      | _ :: _ => false
      end
  | JObj fs =>
      (fix all (fs : list (string * value)) : bool :=
         match fs with
         | [] => true
         | (_, v') :: fs' => zeroed v' && all fs'
         end) fs
  end.

(** ** The baseline as the specification words it

    The element at index [floor(n / 2)] of the durations sorted in
    ascending numeric order. *)
Definition numericCompare (a b : Q) : Z :=
  match Qcompare a b with
  | Lt => -1
  | Eq => 0
  | Gt => 1
  end.

Definition specBaseline (durations : list Q) : Q :=
  nth (length durations / 2) (sortBy numericCompare durations) 0%Q.

(** A cycle summary that carries only its duration, in seconds. *)
Definition cycleAt (t : Z) (durationS : Q) : TimeSeriesPoint :=
  {| time := Some t; timeStr := ""; timestamp := Some t;
     fields := {[ "cycle.durationS"%string := durationS ]} |}.

(** The [isDrifting] flags of a result of [calculateCycleMetrics]. *)
Definition driftingFlags (metrics : value) : list value :=
  match prop metrics "trends" with
  | JArr trends => map (fun t => prop t "isDrifting") trends
  | _ => []
  end.

(** ** The health memo of the wide shape: the baseline cycle time *)

Module DashboardHealth.
(** The default comparator on arbitrary values: [undefined] sorts
    last, anything else by its string. *)
Definition defaultCompareVal (a b : jsval) : Z :=
  match a, b with
  | VUndef, VUndef => 0
  | VUndef, _ => 1
  | _, VUndef => -1
  | _, _ =>
      match String.compare (js_to_string a) (js_to_string b) with
      | Lt => -1
      | Eq => 0
      | Gt => 1
      end
  end.

(** [sortedCycleTimes[Math.floor(sortedCycleTimes.length / 2)]] with
    [sortedCycleTimes = data.map(d => d.cycle_duration_ms).sort()] *)
Definition baselineCycleTime (data : list CycleRecord) : jsval :=
  let sortedCycleTimes :=
    sortBy defaultCompareVal (map cycle_duration_ms data) in
  nth (length sortedCycleTimes / 2) sortedCycleTimes VUndef.
End DashboardHealth.

Definition refCollation : Collation :=
  {| localeCompare :=
       fun a b => match String.compare a b with
                  | Lt => -1
                  | Eq => 0
                  | Gt => 1
                  end |}.

(** ** An upload, end to end

    [handleFileUpload] passes the text of the file to [processCSVData];
    the effect on [originalData] then runs [applyFilters], and the KPI
    memo is computed from [data]. *)

Module DashboardLocRun.
Section Defs.
Context `{Host}.

Definition afterUpload (csvContent : string) (s : State) : State :=
  DashboardLoc.applyFilters (DashboardLocIngest.processCSVData csvContent s).

Definition kpisAfterUpload (csvContent : string) (s : State)
    : result (option DashboardLocKPIs.KPIs) :=
  DashboardLocKPIs.kpis (data (afterUpload csvContent s)).
End Defs.
End DashboardLocRun.

Module DashboardRun.
Section Defs.
Context `{Host}.

Definition afterUpload (csvContent : string) (s : State) : State :=
  Dashboard.applyFilters (DashboardIngest.processCSVData csvContent s).

Definition fleetMetricsAfterUpload (csvContent : string) (s : State)
    : result (option DashboardKPIs.FleetMetrics) :=
  DashboardKPIs.fleetMetrics (data (afterUpload csvContent s)).
End Defs.
End DashboardRun.

(** The line feed. *)
Definition LF : string := String "010" "".

(** The text of the round-trip scenario: the three required columns and
    two cycles of device M1, of one and two hours, started one hour
    apart. *)
Definition roundTripCSV : string :=
  "device_id,cycle_started_at,cycle_duration_ms" +:+ LF
  +:+ "M1,2024-01-01T00:00:00Z,3600000" +:+ LF
  +:+ "M1,2024-01-01T01:00:00Z,7200000".

(** The same cycles in a file that also has the energy column. *)
Definition roundTripWithEnergyCSV : string :=
  "device_id,cycle_started_at,cycle_duration_ms,energy_active_kwh" +:+ LF
  +:+ "M1,2024-01-01T00:00:00Z,3600000,1.5" +:+ LF
  +:+ "M1,2024-01-01T01:00:00Z,7200000,2.5".

(** A file whose header lacks the duration column. *)
Definition missingDurationCSV : string :=
  "device_id,cycle_started_at" +:+ LF
  +:+ "M2,2024-02-01T00:00:00Z".

(** ** Sums over the cells of a heatmap *)

Definition gridKeys : list string :=
  map (fun '(d, h) => cellKey d h) gridCells.
Arguments gridKeys : simpl never.

Definition sumAt (m : gmap string Q) (ks : list string) : Q :=
  Qsum (map (fun k => default 0%Q (m !! k)) ks).

Definition nsumAt (m : gmap string num) (ks : list string) : num :=
  nsum (map (fun k => default None (m !! k)) ks).

(** Equality of numbers: both [NaN], or equal rationals. *)
Definition neq (a b : num) : Prop :=
  match a, b with
  | Some x, Some y => (x == y)%Q
  | None, None => True
  | _, _ => False
  end.

(** A record whose day and hour fall in the grid, as every record with
    a valid date does. *)
Definition inGrid (d : CycleRecord) : Prop :=
  exists day hr,
    dayOfWeek d = Some day /\ hour d = Some hr /\
    0 <= day < 7 /\ 0 <= hr < 24.

(** A sample that counts for the heatmap: the contactor is on and the
    instant is valid. *)
Definition activeValid (r : TimeSeriesPoint) : bool :=
  is1 r "DI1_KM" && valid (time r).

(** A reading that carries only the contactor signal. *)
Definition sampleAt (t : Z) (km : Q) : TimeSeriesPoint :=
  {| time := Some t; timeStr := ""; timestamp := Some t;
     fields := {[ "DI1_KM"%string := km ]} |}.

(** The values of an object result, as numbers. *)
Definition objectValues (result : value) : list num :=
  match result with
  | JObj fs => map (fun '(_, v) => vnum v) fs
  | _ => []
  end.

(** ** The heatmap of the wide-shape dashboard with a location selector *)

Module DashboardLocHeatmap.
(** [Array(7).fill(null).map(() => Array(24).fill(0))] *)
Definition emptyWeek : list (list num) :=
  repeat (repeat (Some 0%Q) 24) 7.

(** [heatmap[record.dayOfWeek][record.hour] += record.runtime_hours].
    Indexing [undefined] throws; a write at a non-index leaves the
    elements as they are. *)
Definition addRecord (heatmap : list (list num)) (record : CycleRecord)
    : result (list (list num)) :=
  match dayOfWeek record with
  | None => Throw "TypeError: Cannot read properties of undefined"
  | Some day =>
      match heatmap !! Z.to_nat day with
      | None => Throw "TypeError: Cannot read properties of undefined"
      | Some hoursOfDay =>
          match hour record with
          | None => Ok heatmap
          | Some hr =>
              Ok (<[Z.to_nat day :=
                      <[Z.to_nat hr :=
                          nadd (default None (hoursOfDay !! Z.to_nat hr))
                            (runtime_hours record)]> hoursOfDay]> heatmap)
          end
      end
  end.

Fixpoint addRecords (heatmap : list (list num)) (data : list CycleRecord)
    : result (list (list num)) :=
  match data with
  | [] => Ok heatmap
  | record :: data' =>
      heatmap' ← addRecord heatmap record; addRecords heatmap' data'
  end.

Definition dayLetters : list string :=
  ["S"; "M"; "T"; "W"; "T"; "F"; "S"]%string.

(** [heatmap[dayIndex][hour]] *)
Definition cell (heatmap : list (list num)) (dayIndex hr : nat) : num :=
  default None (default [] (heatmap !! dayIndex) !! hr).

(** One row of the result: the letters are the keys, so a later day
    with the same letter overwrites an earlier one. *)
Definition hourRow (heatmap : list (list num)) (maxValue : num) (hr : nat)
    : value :=
  JObj
    (fold_left
       (fun row '(dayIndex, day) =>
          let v := cell heatmap dayIndex hr in
          obj_set (day +:+ "_intensity")
            (JNum (if ngt maxValue (Some 0%Q) then ndiv v maxValue
                   else Some 0%Q))
            (obj_set day (JNum v) row))
       (imap (fun dayIndex day => (dayIndex, day)) dayLetters)
       [("hour", JNat hr)]).

Definition heatmapData (data : list CycleRecord) : result value :=
  match data with
  | [] => Ok (JArr [])
  | _ =>
      heatmap ← addRecords emptyWeek data;
      let maxValue := Math_maxQ (concat heatmap) in
      Ok (JArr (map (hourRow heatmap maxValue) (seq 0 24)))
  end.

(** The raw values of the day columns of a result. *)
Definition rowValues (result : value) : list num :=
  match result with
  | JArr rows =>
      flat_map
        (fun row =>
           map (fun day => vnum (prop row day))
             ["S"; "M"; "T"; "W"; "F"]%string)
        rows
  | _ => []
  end.
End DashboardLocHeatmap.

(** ** The wide-shape dashboard of [Dashboard.js] as a state machine

    What the host and the user can do to the component, and how the
    handlers and the effect on [selectedDevice], [selectedTimeRange] and
    [originalData] change its state. *)

Definition setSelectedDevice (v : string) (s : State) : State :=
  {| data := data s; originalData := originalData s; loading := loading s;
     selectedDevice := v;
     selectedLocation := selectedLocation s;
     selectedTimeRange := selectedTimeRange s;
     errorMessage := errorMessage s |}.

Definition setSelectedTimeRange (v : string) (s : State) : State :=
  {| data := data s; originalData := originalData s; loading := loading s;
     selectedDevice := selectedDevice s;
     selectedLocation := selectedLocation s;
     selectedTimeRange := v;
     errorMessage := errorMessage s |}.

Module DashboardMachine.

(** The outcome of the initial [fetch]: the text of the file, a response
    that is not ok, or a rejection with its message. *)
Inductive Response : Type :=
| Fetched (csvContent : string)
| NotOk
| Rejected (message : string).

(** A rendered state of the component, and whether the effect of lines
    63-65 is still to run for it: it runs after a render in which
    [selectedDevice], [selectedTimeRange] or [originalData] changed. *)
Record Rendered : Type := {
  shown : State;
  pending : bool
}.

(** What happens to the component.  The updates a handler makes between
    two [await]s are applied together and rendered once, as React 18
    batches them; the effect is a step of its own, so that the state
    rendered before it runs is a state of the machine. *)
Inductive Event : Type :=
| Begin
| FetchSettled (response : Response)
| FileRead (text : option string)
| DeviceChange (value : string)
| TimeRangeChange (value : string)
| Effect.

Section Defs.
Context `{Host}.

(** [loadData], and [handleFileUpload] on a file, up to the first
    [await]. *)
Definition begin (s : State) : State :=
  setErrorMessage "" (setLoading true s).

(** The [catch] block of [loadData]. *)
Definition loadFailed (message : string) (s : State) : State :=
  setLoading false
    (setOriginalData [] (setData [] (setErrorMessage message s))).

(** [loadData] once the [fetch] has settled. *)
Definition loadData (response : Response) (s : State) : State :=
  match response with
  | Fetched csvContent => DashboardIngest.processCSVData csvContent s
  | NotOk => loadFailed "Please upload CSV file" s
  | Rejected message => loadFailed message s
  end.

(** [handleFileUpload] once [file.text()] has settled; [None] is a
    rejection. *)
Definition handleFileUpload (text : option string) (s : State) : State :=
  match text with
  | Some text => DashboardIngest.processCSVData text s
  | None => setLoading false (setErrorMessage "Failed to read file." s)
  end.

(** One event.  [loadData] and [processCSVData] give [originalData] a
    new array; a setter that is given the current string does not
    render again. *)
Definition step (e : Event) (r : Rendered) : Rendered :=
  match e with
  | Begin => {| shown := begin (shown r); pending := pending r |}
  | FetchSettled response =>
      {| shown := loadData response (shown r); pending := true |}
  | FileRead (Some text) =>
      {| shown := handleFileUpload (Some text) (shown r); pending := true |}
  | FileRead None =>
      {| shown := handleFileUpload None (shown r); pending := pending r |}
  | DeviceChange value =>
      if String.eqb value (selectedDevice (shown r)) then r
      else {| shown := setSelectedDevice value (shown r); pending := true |}
  | TimeRangeChange value =>
      if String.eqb value (selectedTimeRange (shown r)) then r
      else {| shown := setSelectedTimeRange value (shown r);
              pending := true |}
  | Effect =>
      if pending r
      then {| shown := Dashboard.applyFilters (shown r); pending := false |}
      else r
  end.

(** The first render; both effects are still to run. *)
Definition mounted : Rendered :=
  {| shown := initialState; pending := true |}.

(** The states the component can render. *)
Inductive reachable : Rendered -> Prop :=
| reachable_mounted : reachable mounted
| reachable_step (e : Event) (r : Rendered) :
    reachable r -> reachable (step e r).

(** The records of the loaded dataset that the current selections let
    through. *)
Definition visible (s : State) : list CycleRecord :=
  List.filter (inWindow (selectedTimeRange s) (originalData s))
    (List.filter (deviceOk (selectedDevice s)) (originalData s)).

(** What holds of every rendered state: every loaded record has a valid
    date, the displayed records are among the loaded ones, and they are
    the visible ones once the effect has run. *)
Definition invariant (r : Rendered) : Prop :=
  Forall (fun d => valid (date d) = true) (originalData (shown r)) /\
  sublist (data (shown r)) (originalData (shown r)) /\
  (pending r = false -> data (shown r) = visible (shown r)).
End Defs.
End DashboardMachine.

(** ** Chronological order

    [a] is not after [b], both instants being valid. *)
Definition chronological (a b : TimeSeriesPoint) : Prop :=
  match timestamp a, timestamp b with
  | Some x, Some y => x <= y
  | _, _ => False
  end.

(** The property names a point has before the measures are copied in. *)
Definition pointKeys : list string := ["time"; "timeStr"; "timestamp"]%string.

(** ** Reading the derived structures *)

(** The elements of an array result. *)
Definition elements (v : value) : list value :=
  match v with
  | JArr xs => xs
  | _ => []
  end.

(** The numbers stored under [name] in the objects of an array. *)
Definition column (name : string) (v : value) : list num :=
  map (fun x => vnum (prop x name)) (elements v).

(** [lo <= d && d < hi] for integer bounds. *)
Definition between (lo hi : Z) (d : Q) : bool :=
  Qle_bool (ofZ lo) d && ltQ d (ofZ hi).

(** ** Reading the long shape: [DataProcessor.parseCSV]

    The parser streams the rows of the file to the [step] callback and
    then calls [complete].  Its [error] callback is for input that
    cannot be read and is never invoked on a string.  The result is the
    sequence of calls made to [onProgress] and [onComplete]. *)

Inductive Callback : Type :=
| onProgress (percent : Q)
| onComplete (rows : list RawRow).

(** [row.data.Time && row.data.deviceId && row.data.measure_name] *)
Definition hasKeys (data : RawRow) : bool :=
  truthy (row_get data "Time") && truthy (row_get data "deviceId")
  && truthy (row_get data "measure_name").

(** [Math.min(90, (processedCount / expected) * 100)] *)
Definition progressAt (expected processedCount : Z) : Q :=
  Qmin 90 (ofZ processedCount / ofZ expected * 100).

Section ParseCSV.
Context `{Host}.
Variables (batchSize expected : Z).

(** The [step] callback, on [allRows], [processedCount] and the calls
    made so far. *)
Definition parseStep (st : list RawRow * Z * list Callback)
    (data : RawRow) : list RawRow * Z * list Callback :=
  let '(allRows, processedCount, calls) := st in
  if hasKeys data then
    let processedCount := processedCount + 1 in
    (allRows ++ [data], processedCount,
     if processedCount mod batchSize =? 0 then
       calls ++ [onProgress (progressAt expected processedCount)]
     else calls)
  else st.

Definition parseCSV_with (csvContent : string) : list Callback :=
  let '(allRows, _, calls) :=
    fold_left parseStep (Papa_parse csvContent) ([], 0, []) in
  calls ++ [onProgress 95; onComplete allRows; onProgress 100].
End ParseCSV.

(** [DataProcessor.parseCSV] of the long-shape dashboard with filters:
    a report every 10000 rows, against 100000 expected. *)
Module DataProcessor.
Definition parseCSV `{Host} : string -> list Callback :=
  parseCSV_with 10000 100000.
End DataProcessor.

(** [DataProcessor.parseCSV] of the dashboard without filters: a report
    every 1000 rows, against 5000 expected. *)
Module KomarDataProcessor.
Definition parseCSV `{Host} : string -> list Callback :=
  parseCSV_with 1000 5000.
End KomarDataProcessor.

(** The number of rows the parser keeps. *)
Definition kept (rows : list RawRow) : Z :=
  Z.of_nat (length (List.filter hasKeys rows)).

(** ** The daily dashboard: [DataUtils]

    The third program of the repository reads the long shape with a
    parser of its own and files the rows by day.  Text is a sequence of
    code units below 256. *)

(** [date.toLocaleDateString('en-US', { month: 'short', day: 'numeric' })]
    on a valid date. *)
Class Locale : Type := {
  monthDay : Z -> string
}.

(** A label made of the day count, to run the programs. *)
Definition refLocale : Locale :=
  {| monthDay := fun t => pretty (t / 86400000) |}.

(** [parseFloat] on a string; [None] is [NaN].  The infinities are
    outside the model. *)
Class Numeric : Type := {
  parseFloat : string -> num
}.

(** Decimal literals, to run the programs on concrete input. *)
Definition refNumeric : Numeric := {| parseFloat := parse_decimal |}.

(** The white space and line terminators that [trim] removes. *)
Definition isSpace (c : ascii) : bool :=
  let n := nat_of_ascii c in
  (n =? 9)%nat || (n =? 10)%nat || (n =? 11)%nat || (n =? 12)%nat
  || (n =? 13)%nat || (n =? 32)%nat || (n =? 160)%nat.

Fixpoint trimStart (s : string) : string :=
  match s with
  | EmptyString => EmptyString
  | String c s' => if isSpace c then trimStart s' else s
  end.

Definition trim (s : string) : string :=
  String.rev (trimStart (String.rev (trimStart s))).

(** The double quote. *)
Definition quote : ascii := ascii_of_nat 34.

(** The [replace] call that deletes every double quote. *)
Fixpoint unquote (s : string) : string :=
  match s with
  | EmptyString => EmptyString
  | String c s' =>
      if Ascii.eqb c quote then unquote s' else String c (unquote s')
  end.

(** The civil date of a day count since the epoch. *)
Definition civil_from_days (days : Z) : Z * Z * Z :=
  let z := days + 719468 in
  let era := z / 146097 in
  let doe := z - era * 146097 in
  let yoe := (doe - doe / 1460 + doe / 36524 - doe / 146096) / 365 in
  let doy := doe - (365 * yoe + yoe / 4 - yoe / 100) in
  let mp := (5 * doy + 2) / 153 in
  let d := doy - (153 * mp + 2) / 5 + 1 in
  let m := if mp <? 10 then mp + 3 else mp - 9 in
  let y := yoe + era * 400 + (if m <=? 2 then 1 else 0) in
  (y, m, d).

(** [s.padStart(n, '0')] *)
Definition padStart0 (n : nat) (s : string) : string :=
  String.concat "" (repeat "0"%string (n - String.length s)) +:+ s.

(** [date.toISOString().split('T')[0]]: the date in coordinated
    universal time, with an expanded year outside 0 to 9999. *)
Definition isoDay (t : Z) : string :=
  let '(y, m, d) := civil_from_days (t / 86400000) in
  let year :=
    if (0 <=? y) && (y <=? 9999) then padStart0 4 (pretty y)
    else (if y <? 0 then "-" else "+") +:+ padStart0 6 (pretty (Z.abs y)) in
  year +:+ "-" +:+ padStart0 2 (pretty m) +:+ "-" +:+ padStart0 2 (pretty d).

Module DataUtils.

(** An entry of a day. *)
Record Entry : Type := {
  time : jsval;
  timestamp : Z;
  deviceId : jsval;
  measure : jsval;
  value : Q
}.

(** The shares that [calculateChamberFullness] returns. *)
Record Fullness : Type := {
  low : Q;
  medium : Q;
  high : Q
}.

(** The cells of a line: split at the commas, the double quotes
    deleted from each piece, and each piece trimmed. *)
Definition cells (line : string) : list string :=
  map (fun v => trim (unquote v)) (split "," line).

(** [row[header] = v]: the name [__proto__] is an accessor that
    ignores anything but an object, and creates no key. *)
Definition setField (header : string) (v : jsval) (row : RawRow) : RawRow :=
  if String.eqb header "__proto__" then row else obj_set header v row.

(** [values[i]] *)
Definition cellAt (values : list string) (i : nat) : jsval :=
  match nth_error values i with
  | Some v => VStr v
  | None => VUndef
  end.

(** The object built for one line. *)
Definition rowOf (headers : list string) (line : string) : RawRow :=
  let values := cells line in
  fold_left (fun row '(i, header) => setField header (cellAt values i) row)
    (imap (fun i header => (i, header)) headers) [].

Definition parseCSV (csvText : string) : list RawRow :=
  let lines := split "010" (trim csvText) in
  let headers := cells (hd ""%string lines) in
  map (rowOf headers) (tl lines).

(** An anomaly of [detectAnomalies]; a field that the object does not
    have is [None]. *)
Module Anomaly.
Record t : Type := {
  date : string;
  type : string;
  severity : string;
  value : option Q;
  measure : option jsval;
  count : option Z
}.
End Anomaly.

(** The counters of [calculateSafetyMetrics]. *)
Record SafetyMetrics : Type := {
  eStops : Z;
  cycleErrors : Z;
  gateViolations : Z
}.

(** An item of [calculateDowntime]. *)
Module Downtime.
Record t : Type := {
  day : string;
  downtime : Q
}.
End Downtime.

Section Defs.
Context `{Host} `{Numeric}.

(** [parseFloat(v) || 0] on a value: a number prints and parses back,
    anything else that is not text gives [NaN]. *)
Definition valueOf (v : jsval) : Q :=
  or0 (match v with
       | VStr s => parseFloat s
       | VNum q => Some q
       | VUndef | VNull | VBool _ | VNaN => None
       end).

Definition entryOf (row : RawRow) (t : Z) : Entry :=
  {| time := row_get row "Time";
     timestamp := t;
     deviceId := row_get row "deviceId";
     measure := row_get row "measure_name";
     value := valueOf (row_get row "measure_value") |}.

(** [if (!dayData[dayKey]) dayData[dayKey] = []; dayData[dayKey].push(e)];
    an array is truthy. *)
Definition pushEntry (dayData : jsobj (list Entry)) (dayKey : string)
    (e : Entry) : jsobj (list Entry) :=
  let dayData :=
    match obj_get dayData dayKey with
    | Some _ => dayData
    | None => obj_set dayKey [] dayData
    end in
  obj_set dayKey (default [] (obj_get dayData dayKey) ++ [e]) dayData.

(** The loop of [processByDay]; [toISOString] throws on an invalid
    date. *)
Fixpoint fileRows (data : list RawRow) (dayData : jsobj (list Entry))
    : result (jsobj (list Entry)) :=
  match data with
  | [] => Ok dayData
  | row :: data' =>
      match new_Date (row_get row "Time") with
      | None => Throw "RangeError: Invalid time value"
      | Some t =>
          fileRows data' (pushEntry dayData (isoDay t) (entryOf row t))
      end
  end.

Definition processByDay (data : list RawRow) : result (jsobj (list Entry)) :=
  fileRows data [].

(** The entries that the rows of [data] contribute to [day]. *)
Definition filed (day : string) (data : list RawRow) : list Entry :=
  flat_map
    (fun row =>
       match new_Date (row_get row "Time") with
       | Some t => if String.eqb (isoDay t) day then [entryOf row t] else []
       | None => []
       end) data.

(** [Object.values(processedData).flat().filter(d => d.measure ===
    'cycle.durationS')] *)
Definition allCycles (processedData : jsobj (list Entry)) : list Entry :=
  List.filter (fun d => strict_eq (measure d) (VStr "cycle.durationS"))
    (concat (Object_values processedData)).

(** [Object.keys(processedData).length || 1] *)
Definition daysOf (processedData : jsobj (list Entry)) : Q :=
  match processedData with
  | [] => 1%Q
  | _ => ofnat (length processedData)
  end.

Definition cyclesPerDay (processedData : jsobj (list Entry)) : Q :=
  (ofnat (length (allCycles processedData)) / daysOf processedData)%Q.

Definition calculateUtilization (processedData : jsobj (list Entry)) : Q :=
  let totalCycles := ofnat (length (allCycles processedData)) in
  let optimalCyclesPerDay := (8 * 60 / 2)%Q in
  let days := daysOf processedData in
  let actualCyclesPerDay := (totalCycles / days)%Q in
  let utilization :=
    Qmin (actualCyclesPerDay / optimalCyclesPerDay * 100) 100 in
  Math_round utilization.

Definition calculateChamberFullness (processedData : jsobj (list Entry))
    : Fullness :=
  let cyclesPerDay := cyclesPerDay processedData in
  let low := Qmax 0 (Qmin 30 ((50 - cyclesPerDay) / 50 * 30)) in
  let medium :=
    if ltQ cyclesPerDay 50 then 0%Q
    else Qmin 40 ((cyclesPerDay - 50) / 100 * 40) in
  let high :=
    if ltQ cyclesPerDay 150 then 0%Q
    else Qmin 100 ((cyclesPerDay - 150) / 100 * 100) in
  let total := (low + medium + high)%Q in
  {| low := if gtQ total 0 then Math_round (low / total * 100) else 30%Q;
     medium :=
       if gtQ total 0 then Math_round (medium / total * 100) else 40%Q;
     high := if gtQ total 0 then Math_round (high / total * 100) else 30%Q |}.

(** One entry of the loop of [getUtilizationHeatmap]:
    [if (!heatmap[key]) heatmap[key] = 0; heatmap[key]++] *)
Definition heatStep (heatmap : jsobj Z) (d : Entry) : jsobj Z :=
  if strict_eq (measure d) (VStr "cycle.durationS") then
    let date := new_Date (time d) in
    let key :=
      showIndex (option_map getDay date) +:+ "-"
      +:+ showIndex (option_map getHours date) in
    let heatmap :=
      match obj_get heatmap key with
      | Some v => if v =? 0 then obj_set key 0 heatmap else heatmap
      | None => obj_set key 0 heatmap
      end in
    obj_set key (default 0 (obj_get heatmap key) + 1) heatmap
  else heatmap.

Definition getUtilizationHeatmap (processedData : jsobj (list Entry))
    : jsobj Z :=
  fold_left heatStep (concat (Object_values processedData)) [].

(** [d.measure.startsWith(prefix)]: only a string has the method; the
    messages are those of V8. *)
Definition startsWith (m : jsval) (prefix : string) : result bool :=
  match m with
  | VStr s => Ok (String.prefix prefix s)
  | VUndef =>
      Throw
        "TypeError: Cannot read properties of undefined (reading 'startsWith')"
  | VNull =>
      Throw "TypeError: Cannot read properties of null (reading 'startsWith')"
  | VNum _ | VBool _ | VNaN =>
      Throw "TypeError: d.measure.startsWith is not a function"
  end.

(** [data.filter(d => d.measure.startsWith('voltage.U'))] *)
Fixpoint voltagesOf (data : list Entry) : result (list Entry) :=
  match data with
  | [] => Ok []
  | d :: data' =>
      keep ← startsWith (measure d) "voltage.U";
      voltages ← voltagesOf data';
      Ok (if (keep : bool) then d :: voltages else voltages)
  end.

Definition voltageAnomaly (day : string) (v : Entry) : list Anomaly.t :=
  if ltQ (value v) 110 || gtQ (value v) 125 then
    [{| Anomaly.date := day;
        Anomaly.type := "Voltage Anomaly";
        Anomaly.severity :=
          if ltQ (value v) 105 || gtQ (value v) 130 then "critical"
          else "warning";
        Anomaly.value := Some (value v);
        Anomaly.measure := Some (measure v);
        Anomaly.count := None |}]
  else [].

Definition temperatureAnomaly (day : string) (t : Entry)
    : list Anomaly.t :=
  if gtQ (value t) 35 then
    [{| Anomaly.date := day;
        Anomaly.type := "Temperature Anomaly";
        Anomaly.severity :=
          if gtQ (value t) 40 then "critical" else "warning";
        Anomaly.value := Some (value t);
        Anomaly.measure := None;
        Anomaly.count := None |}]
  else [].

Definition inrushAnomaly (day : string) (i : Entry) : list Anomaly.t :=
  if gtQ (value i) 40 then
    [{| Anomaly.date := day;
        Anomaly.type := "Inrush Current Anomaly";
        Anomaly.severity :=
          if gtQ (value i) 45 then "critical" else "warning";
        Anomaly.value := Some (value i);
        Anomaly.measure := None;
        Anomaly.count := None |}]
  else [].

(** [d.measure === 'DI8_Full_Error' && d.value === 1] *)
Definition isFullError (d : Entry) : bool :=
  strict_eq (measure d) (VStr "DI8_Full_Error") && Qeq_bool (value d) 1.

Definition errorState (day : string) (errors : list Entry)
    : list Anomaly.t :=
  if (0 <? length errors)%nat then
    [{| Anomaly.date := day;
        Anomaly.type := "Error State";
        Anomaly.severity := "critical";
        Anomaly.value := None;
        Anomaly.measure := None;
        Anomaly.count := Some (Z.of_nat (length errors)) |}]
  else [].

(** The anomalies that one day pushes. *)
Definition dayAnomalies (day : string) (data : list Entry)
    : result (list Anomaly.t) :=
  voltages ← voltagesOf data;
  let temps :=
    List.filter
      (fun d => strict_eq (measure d) (VStr "temperature.ambient")) data in
  let inrush :=
    List.filter
      (fun d => strict_eq (measure d) (VStr "inrush.maxPeakA")) data in
  let errors := List.filter isFullError data in
  Ok (flat_map (voltageAnomaly day) voltages
      ++ flat_map (temperatureAnomaly day) temps
      ++ flat_map (inrushAnomaly day) inrush
      ++ errorState day errors).

(** The loop over [Object.keys(processedData)]; a key of the object has
    a value. *)
Fixpoint detectDays (processedData : jsobj (list Entry))
    (days : list string) (anomalies : list Anomaly.t)
    : result (list Anomaly.t) :=
  match days with
  | [] => Ok anomalies
  | day :: days' =>
      pushed ← dayAnomalies day (default [] (obj_get processedData day));
      detectDays processedData days' (anomalies ++ pushed)
  end.

Definition detectAnomalies (processedData : jsobj (list Entry))
    : result (list Anomaly.t) :=
  detectDays processedData (map fst processedData) [].

(** One entry of the loop of [calculateSafetyMetrics]. *)
Definition safetyStep (counters : SafetyMetrics) (d : Entry)
    : SafetyMetrics :=
  {| eStops :=
       if strict_eq (measure d) (VStr "DI2_ES_Overload_Key")
          && Qeq_bool (value d) 1
       then eStops counters + 1 else eStops counters;
     cycleErrors :=
       if isFullError d then cycleErrors counters + 1
       else cycleErrors counters;
     gateViolations :=
       if strict_eq (measure d) (VStr "DI3_Gate") && Qeq_bool (value d) 0
       then gateViolations counters + 1 else gateViolations counters |}.

Definition calculateSafetyMetrics (processedData : jsobj (list Entry))
    : SafetyMetrics :=
  fold_left safetyStep (concat (Object_values processedData))
    {| eStops := 0; cycleErrors := 0; gateViolations := 0 |}.

Definition calculateMTBF (processedData : jsobj (list Entry)) : Q :=
  let allData := concat (Object_values processedData) in
  let errors := List.filter isFullError allData in
  let cycles :=
    List.filter (fun d => strict_eq (measure d) (VStr "cycle.durationS"))
      allData in
  if (0 <? length errors)%nat
  then Math_round (ofnat (length cycles) / ofnat (length errors))
  else ofnat (length cycles).

(** [(a, b) => a.timestamp - b.timestamp] *)
Definition byTime (a b : Entry) : Z := timestamp a - timestamp b.

(** The loop of [calculateMTTR] from index 1 on: the total repair time
    and the number of repairs. *)
Fixpoint repairs (errors : list Entry) (acc : Q * Z) : Q * Z :=
  match errors with
  | prev :: ((cur :: _) as errors') =>
      repairs errors'
        (if Qeq_bool (value prev) 1 && Qeq_bool (value cur) 0 then
           let repairTime :=
             (inject_Z (timestamp cur - timestamp prev) / 1000 / 60)%Q in
           ((fst acc + repairTime)%Q, snd acc + 1)
         else acc)
  | _ => acc
  end.

Definition calculateMTTR (processedData : jsobj (list Entry)) : Q :=
  let allData := sortBy byTime (concat (Object_values processedData)) in
  let errors :=
    List.filter (fun d => strict_eq (measure d) (VStr "DI8_Full_Error"))
      allData in
  let '(totalRepairTime, repairCount) := repairs errors (0%Q, 0) in
  if 0 <? repairCount
  then Math_round (totalRepairTime / inject_Z repairCount)
  else 20%Q.

(** [Array.prototype.sort] without a comparator, on strings: the order
    of the code units. *)
Definition byCodeUnits (a b : string) : Z :=
  match String.compare a b with
  | Lt => -1
  | Eq => 0
  | Gt => 1
  end.

(** The loop of [calculateDowntime] from index 1 on. *)
Fixpoint downMinutes (kmStates : list Entry) (acc : Q) : Q :=
  match kmStates with
  | prev :: ((cur :: _) as kmStates') =>
      downMinutes kmStates'
        (if Qeq_bool (value cur) 0 then
           let timeDiff :=
             (inject_Z (timestamp cur - timestamp prev) / 1000 / 60)%Q in
           (acc + timeDiff)%Q
         else acc)
  | _ => acc
  end.

(** [new Date(day).toLocaleDateString('en-US', ...)] *)
Definition dayLabel `{Locale} (day : string) : string :=
  match new_Date (VStr day) with
  | Some t => monthDay t
  | None => "Invalid Date"
  end.

Definition calculateDowntime `{Locale}
    (processedData : jsobj (list Entry)) : list Downtime.t :=
  map
    (fun day =>
       let data := default [] (obj_get processedData day) in
       let kmStates :=
         sortBy byTime
           (List.filter (fun d => strict_eq (measure d) (VStr "DI1_KM"))
              data) in
       {| Downtime.day := dayLabel day;
          Downtime.downtime := downMinutes kmStates 0 |})
    (sortBy byCodeUnits (map fst processedData)).
End Defs.
End DataUtils.

(** The sum of a list of integers. *)
Definition Zsum (xs : list Z) : Z := fold_right Z.add 0 xs.

(** The total weight of the values of an object. *)
Definition weigh {V : Type} (w : V -> Z) (o : jsobj V) : Z :=
  Zsum (map (fun '(_, v) => w v) o).

(** ** The daily dashboard

    The component that reads a text file with [DataUtils] and keeps the
    figures of the file in its state. *)
Module DailyDashboard.

Record Stats : Type := {
  totalCycles : Z;
  utilization : Q;
  avgCycleCount : Q;
  deviceId : jsval;
  chamberFullness : DataUtils.Fullness;
  anomalyCount : Z;
  eStops : Z;
  cycleErrors : Z;
  gateViolations : Z;
  mtbf : Q;
  mttr : Q
}.

(** The state, and the alerts shown so far. *)
Record State : Type := {
  csvData : option (list RawRow);
  processedData : jsobj (list DataUtils.Entry);
  isLoading : bool;
  stats : Stats;
  alerts : list string
}.

(** The state of the first render. *)
Definition initial : State :=
  {| csvData := None;
     processedData := [];
     isLoading := false;
     stats :=
       {| totalCycles := 0; utilization := 0; avgCycleCount := 0;
          deviceId := VStr "N/A";
          chamberFullness :=
            {| DataUtils.low := 30; DataUtils.medium := 40;
               DataUtils.high := 30 |};
          anomalyCount := 0; eStops := 0; cycleErrors := 0;
          gateViolations := 0; mtbf := 0; mttr := 0 |};
     alerts := [] |}.

Section Defs.
Context `{Host} `{Numeric}.

(** The object given to [setStats]. *)
Definition statsOf (parsed : list RawRow)
    (byDay : jsobj (list DataUtils.Entry))
    (anomalies : list DataUtils.Anomaly.t) : Stats :=
  let totalCycles := length (DataUtils.allCycles byDay) in
  let utilization := DataUtils.calculateUtilization byDay in
  let days := DataUtils.daysOf byDay in
  let deviceId :=
    js_or
      (match parsed with
       | row :: _ => row_get row "deviceId"
       | [] => VUndef
       end) (VStr "N/A") in
  let chamberFullness := DataUtils.calculateChamberFullness byDay in
  let safetyMetrics := DataUtils.calculateSafetyMetrics byDay in
  let mtbf := DataUtils.calculateMTBF byDay in
  let mttr := DataUtils.calculateMTTR byDay in
  {| totalCycles := Z.of_nat totalCycles;
     utilization := utilization;
     avgCycleCount := Math_round (ofnat totalCycles / days);
     deviceId := deviceId;
     chamberFullness := chamberFullness;
     anomalyCount := Z.of_nat (length anomalies);
     eStops := DataUtils.eStops safetyMetrics;
     cycleErrors := DataUtils.cycleErrors safetyMetrics;
     gateViolations := DataUtils.gateViolations safetyMetrics;
     mtbf := mtbf;
     mttr := mttr |}.

(** The [catch] block. *)
Definition failed (s : State) : State :=
  {| csvData := csvData s;
     processedData := processedData s;
     isLoading := false;
     stats := stats s;
     alerts :=
       alerts s
       ++ ["Error processing CSV file. Please check the file format."] |}.

Definition handleFileLoad (content : string) (s : State) : State :=
  let parsed := DataUtils.parseCSV content in
  let s :=
    {| csvData := Some parsed; processedData := processedData s;
       isLoading := true; stats := stats s; alerts := alerts s |} in
  match DataUtils.processByDay parsed with
  | Throw _ => failed s
  | Ok byDay =>
      let s :=
        {| csvData := csvData s; processedData := byDay;
           isLoading := isLoading s; stats := stats s;
           alerts := alerts s |} in
      match DataUtils.detectAnomalies byDay with
      | Throw _ => failed s
      | Ok anomalies =>
          {| csvData := csvData s; processedData := processedData s;
             isLoading := false;
             stats := statsOf parsed byDay anomalies;
             alerts := alerts s |}
      end
  end.
End Defs.
End DailyDashboard.

(* ================================================================== *)
(** * Part II: properties *)
(* ================================================================== *)

(** ** Lists and maxima *)

Lemma filter_idem {A : Type} (f : A -> bool) (l : list A) :
  List.filter f (List.filter f l) = List.filter f l.
Proof.
  induction l as [|a l IH]; simpl; [reflexivity|].
  destruct (f a) eqn:E; simpl; [rewrite E, IH|]; auto.
Qed.

Lemma filter_all {A : Type} (f : A -> bool) (l : list A) :
  (forall x, In x l -> f x = true) -> List.filter f l = l.
Proof.
  induction l as [|a l IH]; simpl; intros Hall; [reflexivity|].
  rewrite (Hall a) by auto. f_equal. apply IH. auto.
Qed.

Lemma filter_none {A : Type} (f : A -> bool) (l : list A) :
  (forall x, In x l -> f x = false) -> List.filter f l = [].
Proof.
  induction l as [|a l IH]; simpl; intros Hall; [reflexivity|].
  rewrite (Hall a) by auto. apply IH. auto.
Qed.

Lemma filter_filter_and {A : Type} (f g : A -> bool) (l : list A) :
  List.filter f (List.filter g l) = List.filter (fun x => g x && f x) l.
Proof.
  induction l as [|a l IH]; simpl; [reflexivity|].
  destruct (g a); simpl; [destruct (f a)|]; rewrite IH; reflexivity.
Qed.

Lemma Math_max_cons (x : option Z) (xs : list (option Z)) :
  xs <> [] ->
  Math_max (x :: xs) =
    match x, Math_max xs with
    | Some a, Some b => Some (Z.max a b)
    | _, _ => None
    end.
Proof. destruct xs; [congruence | reflexivity]. Qed.

Lemma Math_min_cons (x : option Z) (xs : list (option Z)) :
  xs <> [] ->
  Math_min (x :: xs) =
    match x, Math_min xs with
    | Some a, Some b => Some (Z.min a b)
    | _, _ => None
    end.
Proof. destruct xs; [congruence | reflexivity]. Qed.

(** The maximum is an element and bounds every element. *)
Lemma Math_max_Some (xs : list (option Z)) (m : Z) :
  Math_max xs = Some m ->
  In (Some m) xs /\ forall x, In x xs -> exists v, x = Some v /\ v <= m.
Proof.
  revert m. induction xs as [|x xs IH]; intros m; [discriminate|].
  destruct xs as [|y ys].
  - simpl. intros ->. split; [auto|].
    intros x' [<-|[]]. exists m. split; [reflexivity | lia].
  - rewrite Math_max_cons by discriminate.
    destruct x as [a|]; [|discriminate].
    destruct (Math_max (y :: ys)) as [b|] eqn:E; [|discriminate].
    intros [= <-]. destruct (IH b eq_refl) as [Hin Hle]. split.
    + destruct (Z.max_spec a b) as [[_ ->]|[_ ->]]; [right | left]; auto.
    + intros x' [<-|Hx'].
      * exists a. split; [reflexivity | lia].
      * destruct (Hle x' Hx') as [v [-> Hv]]. exists v.
        split; [reflexivity | lia].
Qed.

Lemma Math_max_None (xs : list (option Z)) :
  Math_max xs = None -> xs = [] \/ In None xs.
Proof.
  induction xs as [|x xs IH]; [auto|].
  destruct xs as [|y ys].
  - simpl. intros ->. right. left. reflexivity.
  - rewrite Math_max_cons by discriminate.
    destruct x as [a|]; [|intros _; right; left; reflexivity].
    destruct (Math_max (y :: ys)) as [b|]; [discriminate|].
    intros _. destruct (IH eq_refl) as [?|?]; [discriminate|].
    right. right. assumption.
Qed.

Lemma Math_max_intro (xs : list (option Z)) (m : Z) :
  In (Some m) xs ->
  (forall x, In x xs -> exists v, x = Some v /\ v <= m) ->
  Math_max xs = Some m.
Proof.
  intros Hin Hle.
  destruct (Math_max xs) as [b|] eqn:E.
  - destruct (Math_max_Some _ _ E) as [Hb Hub].
    destruct (Hle _ Hb) as [v [[= <-] Hv]].
    destruct (Hub _ Hin) as [w [[= <-] Hw]].
    f_equal. lia.
  - destruct (Math_max_None _ E) as [->|Hn]; [destruct Hin|].
    destruct (Hle _ Hn) as [v [? _]]. discriminate.
Qed.

(** ** Filtering, wide shape *)

Section WideFilter.
Context `{Host}.

Lemma filter_if {A : Type} (c : bool) (f : A -> bool) (l : list A) :
  (if negb c then List.filter f l else l) =
  List.filter (fun x => c || f x) l.
Proof.
  destruct c; simpl; [|reflexivity].
  symmetry. apply filter_all. reflexivity.
Qed.

Lemma Dashboard_applyFilters_data (s : State) :
  originalData s <> [] ->
  data (Dashboard.applyFilters s) =
  List.filter (inWindow (selectedTimeRange s) (originalData s))
    (List.filter (deviceOk (selectedDevice s)) (originalData s)).
Proof.
  unfold Dashboard.applyFilters. destruct (originalData s) as [|d D] eqn:E.
  - congruence.
  - intros _. cbv zeta. rewrite filter_if. reflexivity.
Qed.

Lemma DashboardLoc_applyFilters_data (s : State) :
  originalData s <> [] ->
  data (DashboardLoc.applyFilters s) =
  List.filter (inWindow (selectedTimeRange s) (originalData s))
    (List.filter (locationOk (selectedLocation s))
       (List.filter (deviceOk (selectedDevice s)) (originalData s))).
Proof.
  unfold DashboardLoc.applyFilters.
  destruct (originalData s) as [|d D] eqn:E.
  - congruence.
  - intros _. cbv zeta. rewrite !filter_if. reflexivity.
Qed.

Lemma startDate_width (range : string) (now : option Z) :
  startDate range now =
  match windowWidth range with
  | Some w => option_map (fun t => t - w) now
  | None => Some 0
  end.
Proof.
  unfold startDate, windowWidth.
  repeat match goal with
         | |- context [String.eqb ?a ?b] => destruct (String.eqb a b)
         end; reflexivity.
Qed.

Lemma windowWidth_nonneg (range : string) (w : Z) :
  windowWidth range = Some w -> 0 <= w.
Proof.
  unfold windowWidth.
  repeat match goal with
         | |- context [String.eqb ?a ?b] => destruct (String.eqb a b)
         end; intros [= <-]; lia.
Qed.

Lemma date_ge_Some (a b : option Z) :
  date_ge a b = true <-> exists x y, a = Some x /\ b = Some y /\ y <= x.
Proof.
  unfold date_ge. split.
  - destruct a as [x|], b as [y|]; try discriminate.
    intros Hle. exists x, y. repeat split. lia.
  - intros [x [y [-> [-> Hle]]]]. apply Z.leb_le. exact Hle.
Qed.

(** The heart of idempotence: after a first pass through any
    pre-filter [p] and the window computed from [D], a second pass
    with the window computed from the result keeps everything. *)
Lemma window_second_pass (p : CycleRecord -> bool) (range : string)
    (D : list CycleRecord) :
  let F := List.filter (inWindow range D) (List.filter p D) in
  List.filter (inWindow range F) (List.filter p F) = F.
Proof.
  intros F.
  assert (HFD : forall x, In x F -> In x D /\ inWindow range D x = true).
  { intros x Hx. unfold F in Hx.
    apply filter_In in Hx as [Hx Hw]. apply filter_In in Hx as [Hx _].
    auto. }
  assert (HFp : List.filter p F = F).
  { apply filter_all. intros x Hx. unfold F in Hx.
    apply filter_In in Hx as [Hx _]. apply filter_In in Hx as [_ Hx].
    exact Hx. }
  rewrite HFp. apply filter_all. intros x Hx.
  destruct (HFD x Hx) as [HxD Hw].
  unfold inWindow in *. rewrite startDate_width in *.
  destruct (windowWidth range) as [w|] eqn:Ew; [|exact Hw].
  apply windowWidth_nonneg in Ew.
  apply date_ge_Some in Hw as [t [c [Et [Ec Hct]]]].
  destruct (Math_max (map startedAt D)) as [n|] eqn:En; [|discriminate].
  injection Ec as <-.
  destruct (Math_max (map startedAt F)) as [n'|] eqn:En'.
  - apply date_ge_Some. exists t, (n' - w). repeat split; [exact Et|].
    destruct (Math_max_Some _ _ En') as [Hin' _].
    apply in_map_iff in Hin' as [y [Ey Hy]].
    destruct (HFD y Hy) as [HyD _].
    destruct (Math_max_Some _ _ En) as [_ Hub].
    destruct (Hub (startedAt y) (in_map _ _ _ HyD)) as [v [Ev Hv]].
    rewrite Ey in Ev. injection Ev as <-. lia.
  - exfalso. destruct (Math_max_None _ En') as [E|Hn].
    + destruct F; [destruct Hx | discriminate].
    + apply in_map_iff in Hn as [y [Ey Hy]].
      destruct (HFD y Hy) as [_ Hwy].
      apply date_ge_Some in Hwy as [? [? [Ety _]]]. congruence.
Qed.
End WideFilter.

(** ** Filtering, long shape *)

Section LongFilter.
Context `{Host}.

Lemma long_applyFilters_eq (data : list TimeSeriesPoint)
    (dateRange : DateRange) (timeRange : string) :
  TimeSeriesDashboard.applyFilters data dateRange timeRange =
  let G := List.filter (inRange dateRange) data in
  if negb (String.eqb timeRange "all") && (0 <? length G)%nat then
    List.filter
      (fun d => date_ge (timestamp d)
                  (cutoffOf timeRange (Math_max (map timestamp G)))) G
  else G.
Proof.
  unfold TimeSeriesDashboard.applyFilters, inRange, cutoffOf, cutoffWidth.
  cbv zeta.
  assert (E : (if negb (String.eqb (start dateRange) "")
                  && negb (String.eqb (end_ dateRange) "")
               then List.filter
                      (fun d => date_ge (timestamp d)
                                  (Date_parse (start dateRange))
                                && date_ge (Date_parse (end_ dateRange))
                                     (timestamp d)) data
               else data) =
              List.filter
                (fun d => String.eqb (start dateRange) ""
                          || String.eqb (end_ dateRange) ""
                          || (date_ge (timestamp d)
                                (Date_parse (start dateRange))
                              && date_ge (Date_parse (end_ dateRange))
                                   (timestamp d))) data).
  { destruct (String.eqb (start dateRange) ""); simpl;
      [symmetry; apply filter_all; reflexivity|].
    destruct (String.eqb (end_ dateRange) ""); simpl;
      [symmetry; apply filter_all; reflexivity | reflexivity]. }
  rewrite E.
  repeat match goal with
         | |- context [String.eqb timeRange ?b] =>
             destruct (String.eqb timeRange b)
         end; reflexivity.
Qed.

Lemma cutoffWidth_nonneg (timeRange : string) (w : Z) :
  cutoffWidth timeRange = Some w -> 0 <= w.
Proof.
  unfold cutoffWidth.
  repeat match goal with
         | |- context [String.eqb ?a ?b] => destruct (String.eqb a b)
         end; intros [= <-]; lia.
Qed.

Lemma long_cutoff_second_pass (timeRange : string)
    (G : list TimeSeriesPoint) :
  let F := List.filter
             (fun d => date_ge (timestamp d)
                         (cutoffOf timeRange (Math_max (map timestamp G))))
             G in
  forall x, In x F ->
    date_ge (timestamp x)
      (cutoffOf timeRange (Math_max (map timestamp F))) = true.
Proof.
  intros F x Hx. assert (HxF := Hx).
  unfold F in Hx. apply filter_In in Hx as [HxG Hc].
  unfold cutoffOf in *.
  destruct (cutoffWidth timeRange) as [w|] eqn:Ew; [|exact Hc].
  apply cutoffWidth_nonneg in Ew.
  destruct (Math_max (map timestamp G)) as [n|] eqn:En;
    [|apply date_ge_Some in Hc as [? [? [_ [? _]]]]; discriminate].
  destruct (Math_max_Some _ _ En) as [Hin Hub].
  assert (En' : Math_max (map timestamp F) = Some n).
  { apply Math_max_intro.
    - apply in_map_iff in Hin as [y [Ey Hy]].
      apply in_map_iff. exists y. split; [exact Ey|].
      apply filter_In. split; [exact Hy|].
      rewrite Ey. simpl. apply Z.leb_le. lia.
    - intros t Ht. apply in_map_iff in Ht as [y [<- Hy]].
      apply filter_In in Hy as [Hy _].
      apply Hub. apply in_map. exact Hy. }
  rewrite En'. exact Hc.
Qed.

Lemma long_applyFilters_idem (data : list TimeSeriesPoint)
    (dateRange : DateRange) (timeRange : string) :
  TimeSeriesDashboard.applyFilters
    (TimeSeriesDashboard.applyFilters data dateRange timeRange)
    dateRange timeRange =
  TimeSeriesDashboard.applyFilters data dateRange timeRange.
Proof.
  rewrite (long_applyFilters_eq data). cbv zeta.
  set (G := List.filter (inRange dateRange) data).
  assert (HG : forall F, (forall x, In x F -> In x G) ->
               List.filter (inRange dateRange) F = F).
  { intros F HF. apply filter_all. intros x Hx. apply HF in Hx.
    unfold G in Hx. apply filter_In in Hx as [_ Hx]. exact Hx. }
  destruct (negb (String.eqb timeRange "all")) eqn:Eall; simpl.
  - destruct (0 <? length G)%nat eqn:Elen.
    + rewrite long_applyFilters_eq. cbv zeta.
      rewrite HG by (intros x Hx; apply filter_In in Hx as [Hx _]; exact Hx).
      rewrite Eall. simpl.
      match goal with
      | |- (if ?c then _ else _) = _ => destruct c
      end; [|reflexivity].
      apply filter_all. apply long_cutoff_second_pass.
    + rewrite long_applyFilters_eq. cbv zeta.
      rewrite HG by auto. rewrite Eall, Elen. reflexivity.
  - rewrite long_applyFilters_eq. cbv zeta.
    rewrite HG by auto. rewrite Eall. reflexivity.
Qed.
End LongFilter.

(** ** Idempotence of filtering *)

(** C1.  Filtering is idempotent.  For the two wide-shape dashboards the
    filter is run on the state an upload of [D] installs and its result
    is installed and filtered again under the same device, location and
    time-range selections; for the long-shape dashboard
    [DataProcessor.applyFilters] is applied to its own output under the
    same date range and time range.  In each case the second pass
    returns the result of the first. *)
Theorem filter_idempotent `{Host} :
  (forall (s : State) (D : list CycleRecord),
     let F := data (Dashboard.applyFilters (installed D s)) in
     data (Dashboard.applyFilters (installed F s)) = F) /\
  (forall (s : State) (D : list CycleRecord),
     let F := data (DashboardLoc.applyFilters (installed D s)) in
     data (DashboardLoc.applyFilters (installed F s)) = F) /\
  (forall (D : list TimeSeriesPoint) (dateRange : DateRange)
          (timeRange : string),
     let F := TimeSeriesDashboard.applyFilters D dateRange timeRange in
     TimeSeriesDashboard.applyFilters F dateRange timeRange = F).
Proof.
  split; [|split].
  - intros s D F.
    assert (HF : F = List.filter (inWindow (selectedTimeRange s) D)
                       (List.filter (deviceOk (selectedDevice s)) D)).
    { destruct D as [|d D]; [reflexivity|].
      unfold F. rewrite Dashboard_applyFilters_data by discriminate.
      reflexivity. }
    destruct F as [|x F'] eqn:EF; [reflexivity|].
    rewrite Dashboard_applyFilters_data by discriminate.
    simpl originalData. simpl selectedTimeRange. simpl selectedDevice.
    rewrite HF. apply window_second_pass.
  - intros s D F.
    assert (HF : F = List.filter (inWindow (selectedTimeRange s) D)
                       (List.filter
                          (fun d => deviceOk (selectedDevice s) d
                                    && locationOk (selectedLocation s) d)
                          D)).
    { rewrite <- (filter_filter_and (locationOk (selectedLocation s))
                    (deviceOk (selectedDevice s))).
      destruct D as [|d D]; [reflexivity|].
      unfold F. rewrite DashboardLoc_applyFilters_data by discriminate.
      reflexivity. }
    destruct F as [|x F'] eqn:EF; [reflexivity|].
    rewrite DashboardLoc_applyFilters_data by discriminate.
    simpl originalData. simpl selectedTimeRange. simpl selectedDevice.
    simpl selectedLocation.
    rewrite (filter_filter_and (locationOk (selectedLocation s))
               (deviceOk (selectedDevice s))).
    rewrite HF. apply window_second_pass.
  - intros D dateRange timeRange F. apply long_applyFilters_idem.
Qed.

(** ** The time window *)

Lemma Math_max_valid {A : Type} (ts : A -> option Z) (D : list A) :
  D <> [] ->
  (forall d, In d D -> valid (ts d) = true) ->
  exists now, Math_max (map ts D) = Some now.
Proof.
  intros Hne Hvalid. destruct (Math_max (map ts D)) as [n|] eqn:E; [eauto|].
  exfalso. destruct (Math_max_None _ E) as [E0|Hn].
  - destruct D; [congruence | discriminate].
  - apply in_map_iff in Hn as [d [Ed Hd]].
    specialize (Hvalid d Hd). rewrite Ed in Hvalid. discriminate.
Qed.


Lemma filter_ext_all {A : Type} (f g : A -> bool) (l : list A) :
  (forall x, f x = g x) -> List.filter f l = List.filter g l.
Proof. intros E. apply filter_ext. exact E. Qed.




(** ** Ordered objects *)

Section Objects.
Context {V : Type}.
Implicit Types (o : jsobj V) (k : string) (v : V).

Lemma obj_get_None_keys o k :
  obj_get o k = None <-> ~ In k (map fst o).
Proof.
  induction o as [|[k' v'] o IH]; simpl; [tauto|].
  destruct (String.eqb_spec k' k) as [->|Hne].
  - split; [discriminate | intros Hn; exfalso; apply Hn; auto].
  - rewrite IH. split; [intros Hn [?|?]; [congruence | tauto] | tauto].
Qed.

Lemma obj_get_In o k v :
  obj_get o k = Some v -> In (k, v) o.
Proof.
  induction o as [|[k' v'] o IH]; simpl; [discriminate|].
  destruct (String.eqb_spec k' k) as [->|Hne].
  - intros [= ->]. auto.
  - auto.
Qed.

Lemma obj_get_update o k k' v :
  obj_get (obj_update k v o) k' =
  if String.eqb k k' then option_map (fun _ => v) (obj_get o k)
  else obj_get o k'.
Proof.
  induction o as [|[k0 v0] o IH]; simpl.
  - destruct (String.eqb k k'); reflexivity.
  - destruct (String.eqb_spec k0 k) as [->|Hne]; simpl.
    + destruct (String.eqb k k'); reflexivity.
    + destruct (String.eqb_spec k0 k') as [->|Hne'].
      * apply not_eq_sym in Hne. apply String.eqb_neq in Hne.
        rewrite Hne. reflexivity.
      * exact IH.
Qed.

Lemma obj_keys_update o k v :
  map fst (obj_update k v o) = map fst o.
Proof.
  induction o as [|[k0 v0] o IH]; simpl; [reflexivity|].
  destruct (String.eqb k0 k); simpl; [|rewrite IH]; reflexivity.
Qed.

Lemma obj_get_insert_index n o k k' v :
  obj_get o k = None ->
  obj_get (obj_insert_index n k v o) k' =
  if String.eqb k k' then Some v else obj_get o k'.
Proof.
  induction o as [|[k0 v0] o IH]; simpl; [reflexivity|].
  destruct (String.eqb_spec k0 k) as [->|Hne]; [discriminate|].
  intros Hk.
  destruct (array_index k0) as [n'|]; [destruct (n <? n')|]; simpl;
    try reflexivity.
  destruct (String.eqb_spec k0 k') as [->|Hne'].
  - apply not_eq_sym in Hne. apply String.eqb_neq in Hne.
    rewrite Hne. reflexivity.
  - apply IH. exact Hk.
Qed.

Lemma obj_keys_insert_index n o k v :
  Permutation (map fst (obj_insert_index n k v o)) (k :: map fst o).
Proof.
  induction o as [|[k0 v0] o IH]; simpl; [reflexivity|].
  destruct (array_index k0) as [n'|]; [destruct (n <? n')|]; simpl;
    try reflexivity.
  rewrite IH. apply perm_swap.
Qed.

Lemma obj_get_app o k k' v :
  obj_get o k = None ->
  obj_get (o ++ [(k, v)]) k' =
  if String.eqb k k' then Some v else obj_get o k'.
Proof.
  induction o as [|[k0 v0] o IH]; simpl; [reflexivity|].
  destruct (String.eqb_spec k0 k) as [->|Hne]; [discriminate|].
  intros Hk. destruct (String.eqb_spec k0 k') as [->|Hne'].
  - apply not_eq_sym in Hne. apply String.eqb_neq in Hne.
    rewrite Hne. reflexivity.
  - apply IH. exact Hk.
Qed.

(** Reading after a write. *)
Lemma obj_get_set o k k' v :
  obj_get (obj_set k v o) k' =
  if String.eqb k k' then Some v else obj_get o k'.
Proof.
  unfold obj_set. destruct (obj_get o k) as [v0|] eqn:E.
  - rewrite obj_get_update, E. reflexivity.
  - destruct (array_index k).
    + apply obj_get_insert_index. exact E.
    + apply obj_get_app. exact E.
Qed.

Lemma obj_keys_set o k v :
  Permutation (map fst (obj_set k v o))
    (match obj_get o k with
     | Some _ => map fst o
     | None => k :: map fst o
     end).
Proof.
  unfold obj_set. destruct (obj_get o k) as [v0|] eqn:E.
  - rewrite obj_keys_update. reflexivity.
  - destruct (array_index k).
    + apply obj_keys_insert_index.
    + rewrite map_app. simpl. symmetry. apply Permutation_cons_append.
Qed.

Lemma obj_set_NoDup o k v :
  NoDup (map fst o) -> NoDup (map fst (obj_set k v o)).
Proof.
  intros Hnd. pose proof (obj_keys_set o k v) as Hp.
  destruct (obj_get o k) eqn:E; rewrite Hp; [exact Hnd|].
  apply NoDup_cons. split; [|exact Hnd].
  rewrite list_elem_of_In. apply obj_get_None_keys. exact E.
Qed.

End Objects.

(** ** Grouping *)

Section Grouping.
Context {A : Type} (key : A -> string).

Lemma groupBy_go (xs done : list A) (acc : jsobj (list A)) :
  (forall k, obj_get acc k = nonempty (List.filter (keyIs key k) done)) ->
  NoDup (map fst acc) ->
  (forall k, obj_get (fold_left (groupStep key) xs acc) k =
             nonempty (List.filter (keyIs key k) (done ++ xs))) /\
  NoDup (map fst (fold_left (groupStep key) xs acc)).
Proof.
  revert done acc. induction xs as [|x xs IH]; intros done acc Hacc Hnd.
  - rewrite app_nil_r. auto.
  - simpl fold_left.
    replace (done ++ x :: xs) with ((done ++ [x]) ++ xs)
      by (rewrite <- app_assoc; reflexivity).
    apply IH.
    + intros k. rewrite List.filter_app.
      assert (Hstep : obj_get (groupStep key acc x) k =
                      if String.eqb (key x) k
                      then Some (default [] (obj_get acc (key x)) ++ [x])
                      else obj_get acc k).
      { unfold groupStep. destruct (obj_get acc (key x));
          rewrite obj_get_set; reflexivity. }
      rewrite Hstep. clear Hstep. simpl List.filter. unfold keyIs at 2.
      destruct (String.eqb_spec (key x) k) as [E|Hne]; [subst k|].
      * rewrite Hacc.
        destruct (List.filter (keyIs key (key x)) done); reflexivity.
      * rewrite Hacc, app_nil_r. reflexivity.
    + unfold groupStep. destruct (obj_get acc (key x));
        apply obj_set_NoDup; exact Hnd.
Qed.

(** The group of a key holds the elements with that key, in input
    order; keys are not repeated. *)
Lemma groupBy_get (xs : list A) (k : string) :
  obj_get (groupBy key xs) k = nonempty (List.filter (keyIs key k) xs).
Proof.
  apply (groupBy_go xs [] []); [reflexivity | constructor].
Qed.

Lemma groupBy_NoDup (xs : list A) : NoDup (map fst (groupBy key xs)).
Proof.
  apply (groupBy_go xs [] []); [reflexivity | constructor].
Qed.


End Grouping.

(** ** Pivoting *)

Lemma sort_insert_perm {A : Type} (cmp : A -> A -> Z) (x : A) (l : list A) :
  Permutation (sort_insert cmp x l) (x :: l).
Proof.
  induction l as [|y l IH]; simpl; [reflexivity|].
  destruct (cmp x y <=? 0); [reflexivity|].
  rewrite IH. apply perm_swap.
Qed.

Lemma sortBy_perm {A : Type} (cmp : A -> A -> Z) (l : list A) :
  Permutation (sortBy cmp l) l.
Proof.
  induction l as [|x l IH]; simpl; [reflexivity|].
  rewrite sort_insert_perm, IH. reflexivity.
Qed.

Lemma fold_set_get {A V : Type} (f : string -> A -> V)
    (entries : jsobj A) (acc : jsobj V) (k : string) :
  NoDup (map fst entries) ->
  obj_get
    (fold_left (fun processed '(id, x) => obj_set id (f id x) processed)
       entries acc) k =
  match obj_get entries k with
  | Some x => Some (f k x)
  | None => obj_get acc k
  end.
Proof.
  revert acc. induction entries as [|[k0 x0] entries IH]; intros acc Hnd.
  - reflexivity.
  - apply NoDup_cons in Hnd as [Hk0 Hnd]. simpl fold_left.
    rewrite IH by exact Hnd. simpl obj_get. rewrite obj_get_set.
    destruct (String.eqb_spec k0 k) as [<-|Hne]; [|reflexivity].
    assert (E : obj_get entries k0 = None).
    { apply obj_get_None_keys. rewrite <- list_elem_of_In. exact Hk0. }
    rewrite E. reflexivity.
Qed.

Lemma fold_set_NoDup {A V : Type} (f : string -> A -> V)
    (entries : jsobj A) (acc : jsobj V) :
  NoDup (map fst acc) ->
  NoDup (map fst
           (fold_left (fun processed '(id, x) => obj_set id (f id x) processed)
              entries acc)).
Proof.
  revert acc. induction entries as [|[k x] entries IH]; intros acc Hnd;
    [exact Hnd|].
  simpl fold_left. apply IH. apply obj_set_NoDup. exact Hnd.
Qed.

(** The last write of a measure name decides the field; a measure
    called [__proto__] leaves no field. *)
Lemma fold_insert_lookup `{Host} (measures : list MeasurementPoint)
    (point : gmap string Q) (name : string) :
  name <> protoName ->
  fold_left setMeasure measures point !! name =
  match last (List.filter (keyIs measure_name name) measures) with
  | Some m => Some (measure_value m)
  | None => point !! name
  end.
Proof.
  intros Hname. revert point.
  induction measures as [|m ms IH]; intros point; [reflexivity|].
  simpl fold_left. rewrite IH. simpl List.filter. unfold keyIs at 2.
  unfold setMeasure.
  destruct (String.eqb_spec (measure_name m) name) as [E|Hne].
  - rewrite last_cons.
    destruct (last (List.filter (keyIs measure_name name) ms));
      [reflexivity|].
    destruct (String.eqb_spec (measure_name m) protoName) as [Ep|_];
      [congruence|].
    rewrite E. apply lookup_insert_eq.
  - destruct (last (List.filter (keyIs measure_name name) ms));
      [reflexivity|].
    destruct (String.eqb (measure_name m) protoName); [reflexivity|].
    apply lookup_insert_ne. exact Hne.
Qed.

Lemma fold_setMeasure_proto `{Host} (measures : list MeasurementPoint)
    (point : gmap string Q) :
  fold_left setMeasure measures point !! protoName = point !! protoName.
Proof.
  revert point. induction measures as [|m ms IH]; intros point;
    [reflexivity|].
  simpl fold_left. rewrite IH. unfold setMeasure.
  destruct (String.eqb_spec (measure_name m) protoName) as [E|Hne];
    [reflexivity|].
  apply lookup_insert_ne. exact Hne.
Qed.

(** ** Entries under chosen keys *)

Section KeptKeys.
Context {A : Type} (keep : string -> bool).

Lemma obj_get_kept (entries : jsobj A) (k : string) :
  obj_get (List.filter (fun e => keep (fst e)) entries) k
  = if keep k then obj_get entries k else None.
Proof.
  induction entries as [|[k0 x0] entries IH]; simpl.
  - destruct (keep k); reflexivity.
  - destruct (keep k0) eqn:E0; simpl; rewrite IH;
      destruct (String.eqb_spec k0 k) as [->|Hne]; try reflexivity.
    + rewrite E0. reflexivity.
    + rewrite E0. reflexivity.
Qed.

Lemma kept_NoDup (entries : jsobj A) :
  NoDup (map fst entries) ->
  NoDup (map fst (List.filter (fun e => keep (fst e)) entries)).
Proof.
  induction entries as [|[k0 x0] entries IH]; simpl; [auto|].
  intros Hnd. apply NoDup_cons in Hnd as [Hk0 Hnd].
  destruct (keep k0); simpl; [|apply IH; exact Hnd].
  apply NoDup_cons. split; [|apply IH; exact Hnd].
  intros Hin. apply Hk0. apply list_elem_of_In.
  apply list_elem_of_In, in_map_iff in Hin as [[k x] [E Hin]].
  apply filter_In in Hin as [Hin _]. simpl in E. subst k.
  apply in_map_iff. exists (k0, x). split; [reflexivity | exact Hin].
Qed.
End KeptKeys.

Section PivotProps.
Context `{Host}.

(** The loop sets the devices that are not called [__proto__], and
    keeps the last one that is as the prototype. *)
Lemma pivotLoop_fold (entries : jsobj (list MeasurementPoint))
    (acc : jsobj DeviceDataset * option DeviceDataset) :
  fst (fold_left setDevice entries acc)
  = fold_left
      (fun processed '(id, x) => obj_set id (makeDevice id x) processed)
      (List.filter (fun e => negb (String.eqb (fst e) protoName)) entries)
      (fst acc)
  /\ (NoDup (map fst entries) ->
      snd (fold_left setDevice entries acc)
      = match obj_get entries protoName with
        | Some x => Some (makeDevice protoName x)
        | None => snd acc
        end).
Proof.
  revert acc. induction entries as [|[k x] entries IH]; intros acc.
  - split; reflexivity.
  - simpl fold_left. destruct (IH (setDevice acc (k, x))) as [IH1 IH2].
    simpl List.filter. simpl obj_get. unfold setDevice in *.
    destruct (String.eqb_spec k protoName) as [E|Hne]; simpl negb.
    + split; [exact IH1|]. intros Hnd. apply NoDup_cons in Hnd as [Hk Hnd].
      rewrite (IH2 Hnd). subst k.
      assert (E : obj_get entries protoName = None).
      { apply obj_get_None_keys. rewrite <- list_elem_of_In. exact Hk. }
      rewrite E. reflexivity.
    + split; [exact IH1|]. intros Hnd. apply NoDup_cons in Hnd as [_ Hnd].
      rewrite (IH2 Hnd). reflexivity.
Qed.

(** The dataset of a device is built from the rows of that device
    alone; a device called [__proto__] has none. *)
Lemma pivot_get (rows : list MeasurementPoint) (dev : string) :
  obj_get (pivotLongToWide rows) dev =
  if String.eqb dev protoName then None
  else option_map (makeDevice dev) (nonempty (rowsOf dev rows)).
Proof.
  unfold pivotLongToWide, pivotLoop, Object_entries. cbv zeta.
  rewrite (proj1 (pivotLoop_fold _ _)). simpl fst.
  rewrite (fold_set_get makeDevice)
    by (apply (kept_NoDup (fun k => negb (String.eqb k protoName))),
        groupBy_NoDup).
  rewrite (obj_get_kept (fun k => negb (String.eqb k protoName))).
  destruct (String.eqb dev protoName); [reflexivity|]. simpl negb.
  rewrite groupBy_get. unfold rowsOf.
  destruct (nonempty (List.filter (keyIs deviceId dev) rows)); reflexivity.
Qed.

Lemma pivot_prototype (rows : list MeasurementPoint) :
  pivotPrototype rows
  = option_map (makeDevice protoName) (nonempty (rowsOf protoName rows)).
Proof.
  unfold pivotPrototype, pivotLoop, Object_entries. cbv zeta.
  rewrite (proj2 (pivotLoop_fold _ _)) by apply groupBy_NoDup.
  rewrite groupBy_get. unfold rowsOf.
  destruct (nonempty (List.filter (keyIs deviceId protoName) rows));
    reflexivity.
Qed.

Lemma pivot_NoDup (rows : list MeasurementPoint) :
  NoDup (map fst (pivotLongToWide rows)).
Proof.
  unfold pivotLongToWide, pivotLoop, Object_entries. cbv zeta.
  rewrite (proj1 (pivotLoop_fold _ _)).
  apply (fold_set_NoDup makeDevice). constructor.
Qed.

Lemma timeSeries_perm (dev : string) (deviceRows : list MeasurementPoint) :
  Permutation (timeSeries (makeDevice dev deviceRows))
    (map (fun '(t, measures) => makePoint t measures)
       (groupBy Time deviceRows)).
Proof. unfold makeDevice. simpl. apply sortBy_perm. Qed.

Lemma filter_last_app {A : Type} (f : A -> bool) (pre post : list A)
    (x : A) :
  f x = true ->
  (forall y, In y post -> f y = false) ->
  last (List.filter f (pre ++ x :: post)) = Some x.
Proof.
  intros Hx Hpost. rewrite List.filter_app. simpl. rewrite Hx.
  rewrite (filter_none f post Hpost).
  rewrite last_app. reflexivity.
Qed.
End PivotProps.

(** C8, as amended.  Last write wins, for a device and a measure that
    are not called [__proto__].  Let [r] be the last row of the input
    with its device, time and measure name; any number of earlier rows
    may carry the same three with other values.  Then the pivot has a
    dataset for the device; its time series has one point per distinct
    [Time] string of the device's rows; and the point of [r]'s time
    group carries under [r]'s measure name the value of [r]. *)
Theorem pivot_last_write_wins `{Host} (pre post : list MeasurementPoint)
    (r : MeasurementPoint) :
  deviceId r <> protoName ->
  measure_name r <> protoName ->
  (forall r', In r' post ->
     sameTriple (deviceId r) (Time r) (measure_name r) r' = false) ->
  let rows := pre ++ r :: post in
  let groups := groupBy Time (rowsOf (deviceId r) rows) in
  exists ds group,
    obj_get (pivotLongToWide rows) (deviceId r) = Some ds /\
    NoDup (map fst groups) /\
    Permutation (timeSeries ds)
      (map (fun '(t, measures) => makePoint t measures) groups) /\
    obj_get groups (Time r) = Some group /\
    field (makePoint (Time r) group) (measure_name r)
      = Some (measure_value r).
Proof.
  intros Hdev Hname Hlast rows groups.
  assert (Hrows : rowsOf (deviceId r) rows =
                  rowsOf (deviceId r) pre ++ r :: rowsOf (deviceId r) post).
  { unfold rows, rowsOf. rewrite List.filter_app. simpl.
    unfold keyIs at 2. rewrite String.eqb_refl. reflexivity. }
  set (devRows := rowsOf (deviceId r) rows) in *.
  assert (Hne : nonempty devRows = Some devRows).
  { rewrite Hrows. destruct (rowsOf (deviceId r) pre); reflexivity. }
  set (timeRows := List.filter (keyIs Time (Time r)) devRows).
  assert (Htime : timeRows =
                  List.filter (keyIs Time (Time r)) (rowsOf (deviceId r) pre)
                  ++ r :: List.filter (keyIs Time (Time r))
                            (rowsOf (deviceId r) post)).
  { unfold timeRows. rewrite Hrows, List.filter_app. simpl.
    unfold keyIs at 2. rewrite String.eqb_refl. reflexivity. }
  exists (makeDevice (deviceId r) devRows), timeRows.
  split; [|split; [|split; [|split]]].
  - rewrite pivot_get. fold devRows. rewrite Hne.
    destruct (String.eqb_spec (deviceId r) protoName) as [E|_];
      [contradiction | reflexivity].
  - apply groupBy_NoDup.
  - apply timeSeries_perm.
  - unfold groups. rewrite groupBy_get. fold timeRows.
    rewrite Htime.
    destruct (List.filter (keyIs Time (Time r)) (rowsOf (deviceId r) pre));
      reflexivity.
  - unfold field, makePoint. simpl fields.
    rewrite fold_insert_lookup by exact Hname.
    rewrite Htime, filter_last_app; [reflexivity | apply String.eqb_refl |].
    intros y Hy. apply filter_In in Hy as [Hy Ht].
    apply filter_In in Hy as [Hy Hd].
    specialize (Hlast y Hy). unfold sameTriple in Hlast.
    unfold keyIs in *. rewrite Hd, Ht in Hlast. exact Hlast.
Qed.

(** Two rows of device B1 at one instant with the measure
    [cycle.durationS], first 5 and then 7, between rows of another
    device and another measure: the point carries 7. *)
Lemma pivot_last_write_wins_witness :
  let r1 := {| Time := "2025-10-09T08:00:00Z"; deviceId := "B1";
               measure_name := "cycle.durationS"; measure_value := 5 |} in
  let r2 := {| Time := "2025-10-09T08:00:00Z"; deviceId := "B1";
               measure_name := "cycle.durationS"; measure_value := 7 |} in
  let other := {| Time := "2025-10-09T08:00:00Z"; deviceId := "B2";
                  measure_name := "cycle.durationS"; measure_value := 9 |} in
  let km := {| Time := "2025-10-09T08:00:00Z"; deviceId := "B1";
               measure_name := "DI1_KM"; measure_value := 1 |} in
  let rows := [r1; other; r2; km] in
  map (fun ds => map (fun p => field p "cycle.durationS") (timeSeries ds))
    (Object_values (@pivotLongToWide refHost rows))
  = [[Some 7%Q]; [Some 9%Q]] /\
  exists ds group,
    obj_get (@pivotLongToWide refHost rows) "B1" = Some ds /\
    NoDup (map fst (groupBy Time (rowsOf "B1" rows))) /\
    Permutation (timeSeries ds)
      (map (fun '(t, measures) => @makePoint refHost t measures)
         (groupBy Time (rowsOf "B1" rows))) /\
    obj_get (groupBy Time (rowsOf "B1" rows)) "2025-10-09T08:00:00Z"
      = Some group /\
    field (@makePoint refHost "2025-10-09T08:00:00Z" group) "cycle.durationS"
      = Some 7%Q.
Proof.
  intros r1 r2 other km rows. split; [vm_compute; reflexivity|].
  apply (@pivot_last_write_wins refHost [r1; other] [km] r2).
  - discriminate.
  - discriminate.
  - intros r' [<-|[]]. reflexivity.
Defined.

(** The name [__proto__] is not stored.  Two rows of a device
    called so, with one time and one measure: the pivot has no dataset
    for the device, and no key at all.  Two rows of device B1 with a
    measure called so: the point of their time has no field of that
    name. *)
Lemma pivot_proto_counterexample :
  let d1 := {| Time := "2025-10-09T08:00:00Z"; deviceId := "__proto__";
               measure_name := "cycle.durationS"; measure_value := 5 |} in
  let d2 := {| Time := "2025-10-09T08:00:00Z"; deviceId := "__proto__";
               measure_name := "cycle.durationS"; measure_value := 7 |} in
  let m1 := {| Time := "2025-10-09T08:00:00Z"; deviceId := "B1";
               measure_name := "__proto__"; measure_value := 5 |} in
  let m2 := {| Time := "2025-10-09T08:00:00Z"; deviceId := "B1";
               measure_name := "__proto__"; measure_value := 7 |} in
  (@pivotLongToWide refHost [d1; d2] = [] /\
   ~ exists ds,
       obj_get (@pivotLongToWide refHost [d1; d2]) (deviceId d2) = Some ds)
  /\
  (map (fun ds => map (fun p => field p "__proto__") (timeSeries ds))
     (Object_values (@pivotLongToWide refHost [m1; m2])) = [[None]] /\
   ~ exists group,
       obj_get (groupBy Time (rowsOf "B1" [m1; m2])) (Time m2) = Some group
       /\ field (@makePoint refHost (Time m2) group) (measure_name m2)
          = Some (measure_value m2)).
Proof.
  intros d1 d2 m1 m2. split; split.
  - vm_compute. reflexivity.
  - intros [ds Hds]. vm_compute in Hds. discriminate.
  - vm_compute. reflexivity.
  - intros [group [Hg Hf]]. vm_compute in Hg. injection Hg as <-.
    vm_compute in Hf. discriminate.
Qed.

(** ** The device behind the metrics *)

Section FirstDevice.
Context `{Host}.



End FirstDevice.




(** ** Empty input *)

(** C4, as amended.  On an empty cycle list or an empty sample list
    every function of both metrics calculators, and every metric memo
    of the wide-shape dashboards, returns the fixed structure written
    below, whatever its other arguments, and the report built from such
    results is produced without an exception.  The structures are empty
    arrays and zero counters except for the constants [mttr] = 2.5,
    [mtbf] = 20, [remaining] = 100 and [remainingCycles] = 50000. *)
Theorem empty_input_defaults `{Host} `{Collation} :
  (forall realTime thresholds,
     TimeSeriesMetrics.calculateFleetKPIs [] realTime thresholds = JObj []) /\
  TimeSeriesMetrics.calculateCycleMetrics []
    = JObj [("trends", JArr []); ("distribution", JArr []);
            ("driftAnalysis", JArr []); ("baseline", JQ 0)] /\
  (forall thresholds,
     TimeSeriesMetrics.calculateElectricalMetrics [] thresholds
     = JObj [("inrush", JArr []); ("voltage", JArr []);
             ("current", JArr []); ("startDelay", JArr [])]) /\
  TimeSeriesMetrics.calculateVoltageMonitoring [] = JArr [] /\
  (forall thresholds,
     TimeSeriesMetrics.calculateAnomalies [] thresholds
     = JObj [("anomalies", JArr []); ("count", JNat 0);
             ("recentAnomalies", JArr []); ("severity", JObj [])]) /\
  TimeSeriesMetrics.calculateSafetyMetrics []
    = JObj [("events", JArr []); ("timeline", JArr [])] /\
  TimeSeriesMetrics.calculateEnergyMetrics []
    = JObj [("efficiency", JArr []); ("hourly", JArr []);
            ("composite", JArr [])] /\
  TimeSeriesMetrics.calculateVoltageSagAnalysis []
    = JObj [("sags", JArr []); ("severity", JObj [])] /\
  TimeSeriesMetrics.calculateUtilizationHeatmap []
    = JObj [("days", JArr []); ("hours", JArr []); ("data", JArr [])] /\
  TimeSeriesMetrics.calculateIdleActiveAnalysis []
    = JObj [("activeHours", JNat 0); ("idleHours", JNat 0);
            ("activePercent", JNat 0); ("totalHours", JNat 0)] /\
  (forall thresholds,
     TimeSeriesMetrics.calculateLifetimeMetrics [] thresholds
     = JObj [("lifetimeCycles", JNat 0); ("rul", JNat 0);
             ("rulDays", JNat 0); ("mtbf", JNat 0);
             ("mttr", JQ (5 # 2)); ("remainingCycles", JNat 0)]) /\
  TimeSeriesMetrics.calculateDIStateTimeline [] = JArr [] /\
  (forall now deviceId thresholds realTime,
     exists report,
       TimeSeriesMetrics.generateReport now deviceId
         (TimeSeriesMetrics.calculateFleetKPIs [] realTime thresholds)
         (TimeSeriesMetrics.calculateAnomalies [] thresholds)
         (TimeSeriesMetrics.calculateSafetyMetrics [])
         (TimeSeriesMetrics.calculateVoltageSagAnalysis [])
         (TimeSeriesMetrics.calculateLifetimeMetrics [] thresholds)
       = Ok report) /\
  KomarMetrics.calculateUtilization [] = JQ 0 /\
  KomarMetrics.calculateCycleMetrics []
    = JObj [("trends", JArr []); ("total", JNat 0); ("avgPerDay", JNat 0)] /\
  KomarMetrics.calculateDailyData [] = [] /\
  (forall drawn,
     KomarMetrics.calculateElectricalMetrics drawn []
     = JObj [("inrush", JArr []); ("voltage", JArr [])]) /\
  (forall cycles,
     KomarMetrics.calculateIdleActiveTime [] cycles
     = JObj [("data", JArr []); ("activeHours", JNat 0);
             ("idleHours", JNat 0); ("activePercent", JNat 0)]) /\
  (forall realTime,
     KomarMetrics.calculateIdleActiveTime realTime []
     = JObj [("data", JArr []); ("activeHours", JNat 0);
             ("idleHours", JNat 0); ("activePercent", JNat 0)]) /\
  KomarMetrics.calculateUtilizationHeatmap [] = JObj [] /\
  KomarMetrics.calculateEnergyHeatmap [] = JObj [] /\
  (forall cycles,
     KomarMetrics.calculateChamberFullness [] cycles
     = JObj [("percent", JNat 0); ("color", JStr "bg-green-600");
             ("level", JStr "Low")]) /\
  (forall drawn,
     KomarMetrics.calculateEnergyMetrics drawn []
     = JObj [("efficiency", JArr [])]) /\
  (forall drawn,
     KomarMetrics.calculateAnomalyMetrics drawn []
     = JObj [("score", JNat 0); ("breakdown", JArr []);
             ("recent", JArr [])]) /\
  KomarMetrics.calculateSafetyMetrics []
    = JObj [("eStop", JNat 0); ("door", JNat 0); ("errors", JNat 0);
            ("mtbf", JNat 20); ("events", JArr [])] /\
  KomarMetrics.calculateEOLMetrics []
    = JObj [("lifetimeCycles", JNat 0); ("remaining", JNat 100);
            ("remainingCycles", JQ 50000); ("rulDays", JNat 0);
            ("forecast", JArr [])] /\
  DashboardKPIs.fleetMetrics [] = Ok None /\
  DashboardLocKPIs.kpis [] = Ok None /\
  DashboardHeatmap.heatmapData []
    = JObj [("days", JArr []); ("hours", JArr []); ("data", JArr [])].
Proof.
  repeat match goal with
         | |- _ /\ _ => split
         end;
    try reflexivity.
  - intros now deviceId thresholds realTime. eexists. reflexivity.
  - intros [|r realTime]; reflexivity.
Qed.

(** C4 fails as stated: four of the structures returned on empty input
    are not zeroed, since they carry constants other than zero. *)
Lemma empty_input_not_zeroed :
  ~ (zeroed (@TimeSeriesMetrics.calculateLifetimeMetrics []
               defaultThresholds) = true
     /\ zeroed (@KomarMetrics.calculateSafetyMetrics refHost []) = true
     /\ zeroed (@KomarMetrics.calculateEOLMetrics []) = true) /\
  prop (@TimeSeriesMetrics.calculateLifetimeMetrics [] defaultThresholds)
    "mttr" = JQ (5 # 2) /\
  prop (@KomarMetrics.calculateSafetyMetrics refHost []) "mtbf" = JNat 20 /\
  prop (@KomarMetrics.calculateEOLMetrics []) "remaining" = JNat 100 /\
  prop (@KomarMetrics.calculateEOLMetrics []) "remainingCycles" = JQ 50000.
Proof.
  split; [|repeat split; reflexivity].
  intros [Hz _]. vm_compute in Hz. discriminate Hz.
Qed.

(** ** Cycle-time drift *)

(** The scenario of the specification: five cycles of 10, 10, 10, 10 and
    20 seconds.  The baseline is 10, the fifth cycle drifts by 100
    percent and is the only one flagged. *)
Example drift_scenario :
  let cycles := [cycleAt 0 10; cycleAt 1 10; cycleAt 2 10; cycleAt 3 10;
                 cycleAt 4 20] in
  let metrics := TimeSeriesMetrics.calculateCycleMetrics cycles in
  prop metrics "baseline" = JQ 10 /\
  (driftOf 10 20 == 100)%Q /\
  driftingFlags metrics
  = [JBool false; JBool false; JBool false; JBool false; JBool true].
Proof. cbv zeta. repeat split. Qed.

(** The flag of an entry is the test [|drift| > 10] on the unrounded
    drift, and the drift is the stated quotient when the baseline is
    positive. *)
Lemma trendEntry_flag (baseline : Q) (idx : nat) (c : TimeSeriesPoint) :
  prop (TimeSeriesMetrics.trendEntry baseline idx c) "isDrifting"
  = JBool (gtQ (Qabs (driftOf baseline (field0 c "cycle.durationS"))) 10).
Proof. reflexivity. Qed.

Lemma driftOf_positive (baseline duration : Q) :
  (0 < baseline)%Q ->
  (driftOf baseline duration == (duration - baseline) / baseline * 100)%Q.
Proof.
  intros Hpos. unfold driftOf, gtQ.
  destruct (Qle_bool baseline 0) eqn:E; [|reflexivity].
  apply Qle_bool_iff in E. exfalso. apply (Qlt_not_le _ _ Hpos E).
Qed.

(** C6: the code at the failing input.  For the durations 9, 10 and 11
    seconds the array is sorted by the printed strings, "10" < "11" <
    "9", so the baseline is 11 and not the numeric middle element 10;
    the first cycle is then flagged as drifting (-18.18 percent), which
    it is not against the baseline 10 (-10 percent).  The health memo of
    the wide shape sorts the same way. *)
Theorem baseline_sorted_as_strings :
  let durations := [9; 10; 11]%Q in
  let cycles := [cycleAt 0 9; cycleAt 1 10; cycleAt 2 11] in
  let metrics := TimeSeriesMetrics.calculateCycleMetrics cycles in
  sortBy defaultCompare durations = [10; 11; 9]%Q /\
  baselineOf durations = 11%Q /\
  specBaseline durations = 10%Q /\
  prop metrics "baseline" = JQ 11 /\
  driftingFlags metrics = [JBool true; JBool false; JBool false] /\
  map (fun d => gtQ (Qabs (driftOf (specBaseline durations) d)) 10) durations
  = [false; false; false] /\
  (let data :=
     map (fun ms =>
            @processRow refHost
              [("device_id", VStr "M1");
               ("cycle_started_at", VStr "2024-01-01T00:00:00Z");
               ("cycle_duration_ms", VNum ms)]%string)
       [900000; 1000000; 1100000]%Q in
   DashboardHealth.baselineCycleTime data = VNum 1100000).
Proof. cbv zeta. repeat split; vm_compute; reflexivity. Qed.

(** ** Utilization of the long shape *)

(** C3: the code at the failing input.  Two cycles of one hour each,
    started one hour apart: the fleet KPIs of the long-shape dashboard
    report a utilization of 200 percent; the rate is not clamped
    there. *)
Theorem long_utilization_not_clamped :
  let cycles := [cycleAt 0 3600; cycleAt 3600000 3600] in
  option_map Qred (TimeSeriesMetrics.utilizationRateOf cycles)
  = Some 200%Q /\
  prop (TimeSeriesMetrics.calculateFleetKPIs cycles [] defaultThresholds)
    "utilizationRate" = JQ 200.
Proof. cbv zeta. split; vm_compute; reflexivity. Qed.

(** ** Ingestion errors *)

Lemma includes_false (col : string) (columns : list string) :
  ~ In col columns -> includes col columns = false.
Proof.
  intros Hn. unfold includes.
  destruct (existsb (String.eqb col) columns) eqn:E; [|reflexivity].
  apply existsb_exists in E as [c [Hc Ec]].
  apply String.eqb_eq in Ec. subst c. contradiction.
Qed.

(** C5, as amended.  In the dashboard that checks the required columns,
    text whose first parsed row has no [cycle_duration_ms] key (so there
    is at least one data row, and the header lacks the column) fails
    with the message "Missing required columns: ..." naming that
    column; the failure sets both the displayed and the original dataset
    to the empty list and ends loading, and leaves the selections as
    they were. *)
Theorem missing_column_resets `{Host} (csvContent : string) (s : State)
    (first : RawRow) (rest : list RawRow) :
  Papa_parse csvContent = first :: rest ->
  ~ In "cycle_duration_ms"%string (Object_keys first) ->
  let s' := DashboardLocIngest.processCSVData csvContent s in
  (exists missing,
     In "cycle_duration_ms"%string missing /\
     errorMessage s' = "Missing required columns: " +:+ join ", " missing) /\
  data s' = [] /\
  originalData s' = [] /\
  loading s' = false /\
  selectedDevice s' = selectedDevice s /\
  selectedLocation s' = selectedLocation s /\
  selectedTimeRange s' = selectedTimeRange s.
Proof.
  intros Hparse Hmissing s'.
  unfold s', DashboardLocIngest.processCSVData, DashboardLocIngest.tryProcess.
  rewrite Hparse. cbv zeta.
  set (missingColumns :=
         List.filter (fun col => negb (includes col (Object_keys first)))
           requiredColumns).
  assert (Hin : In "cycle_duration_ms"%string missingColumns).
  { apply filter_In. split; [simpl; tauto|].
    rewrite includes_false by exact Hmissing. reflexivity. }
  destruct missingColumns as [|c cs] eqn:E; [destruct Hin|].
  repeat split. exists (c :: cs). split; [exact Hin | reflexivity].
Qed.

(** A state showing one cycle of device M1, and the upload of a file
    without the duration column. *)
Lemma missing_column_resets_witness :
  let shown := @processRows refHost
                 [[("device_id", VStr "M1");
                   ("cycle_started_at", VStr "2024-01-01T00:00:00Z");
                   ("cycle_duration_ms", VNum 3600000)]]%string in
  let s := installed shown initialState in
  let s' := @DashboardLocIngest.processCSVData refHost missingDurationCSV s in
  (exists missing,
     In "cycle_duration_ms"%string missing /\
     errorMessage s' = "Missing required columns: " +:+ join ", " missing) /\
  errorMessage s' = "Missing required columns: cycle_duration_ms"%string /\
  data s' = [].
Proof.
  intros shown s s'.
  assert (Hparse : @Papa_parse refHost missingDurationCSV
                   = [("device_id", VStr "M2");
                      ("cycle_started_at", VStr "2024-02-01T00:00:00Z")]%string
                     :: []) by (vm_compute; reflexivity).
  assert (Hmissing : ~ In "cycle_duration_ms"%string
                       (Object_keys
                          [("device_id", VStr "M2");
                           ("cycle_started_at",
                            VStr "2024-02-01T00:00:00Z")]%string)).
  { simpl. intros [E|[E|[]]]; discriminate E. }
  pose proof (@missing_column_resets refHost missingDurationCSV s _ _
                Hparse Hmissing) as Hthm.
  split; [exact (proj1 Hthm)|].
  split; [vm_compute; reflexivity | exact (proj1 (proj2 Hthm))].
Defined.

(** C5 fails as stated: the failed upload does not leave the displayed
    dataset as it was.  The dashboard that checks the columns reports
    the missing column and clears the dataset; the other wide-shape
    dashboard has no such check, reports nothing and installs the new
    rows, whose runtime is not a number. *)
Lemma missing_column_counterexample :
  let shown := @processRows refHost
                 [[("device_id", VStr "M1");
                   ("cycle_started_at", VStr "2024-01-01T00:00:00Z");
                   ("cycle_duration_ms", VNum 3600000)]]%string in
  let s := installed shown initialState in
  let s1 := @DashboardLocIngest.processCSVData refHost missingDurationCSV s in
  let s2 := @DashboardIngest.processCSVData refHost missingDurationCSV s in
  length (data s) = 1%nat /\
  errorMessage s1 = "Missing required columns: cycle_duration_ms"%string /\
  ~ (data s1 = data s /\ originalData s1 = originalData s) /\
  errorMessage s2 = ""%string /\
  map runtime_hours (data s2) = [None] /\
  ~ (data s2 = data s).
Proof.
  cbv zeta. repeat split; try (vm_compute; reflexivity).
  - intros [E _]. vm_compute in E. discriminate E.
  - intros E. vm_compute in E. discriminate E.
Qed.

(** ** The round-trip scenario *)

(** C9: the code at the failing input.  For the text of the scenario
    the upload installs both cycles, the total runtime is 3 hours, the
    window is one hour and the raw utilization is 300 percent; but the
    file has no [energy_active_kwh] column, the sum over that column
    is [undefined], and both KPI memos throw on its [toFixed] call, so
    no KPI object exists.  With the energy column present the KPIs are
    those of the claim: 3.0 hours, 2 cycles, 100 percent. *)
Theorem round_trip_kpis_throw :
  let s := @DashboardLocRun.afterUpload refHost roundTripCSV initialState in
  length (data s) = 2%nat /\
  option_map Qred (totalRuntimeOf (data s)) = Some 3%Q /\
  option_map Qred (@hoursInWindowOf refHost (data s)) = Some 1%Q /\
  option_map Qred (@rawUtilization refHost (data s)) = Some 300%Q /\
  sumBy (fun d => row_get (row d) "energy_active_kwh") (data s) = VUndef /\
  @DashboardLocRun.kpisAfterUpload refHost roundTripCSV initialState
  = Throw "TypeError: Cannot read properties of undefined (reading 'toFixed')" /\
  @DashboardRun.fleetMetricsAfterUpload refHost roundTripCSV initialState
  = Throw "TypeError: Cannot read properties of undefined (reading 'toFixed')" /\
  (exists k,
     @DashboardLocRun.kpisAfterUpload refHost roundTripWithEnergyCSV
       initialState = Ok (Some k) /\
     DashboardLocKPIs.totalRuntime k = Some 3%Q /\
     DashboardLocKPIs.totalCycles k = 2%nat /\
     DashboardLocKPIs.utilizationRate k = Some 100%Q) /\
  (exists k,
     @DashboardRun.fleetMetricsAfterUpload refHost roundTripWithEnergyCSV
       initialState = Ok (Some k) /\
     DashboardKPIs.totalRuntime k = Some 3%Q /\
     DashboardKPIs.totalCycles k = 2%nat /\
     DashboardKPIs.utilizationRate k = Some 100%Q).
Proof.
  cbv zeta. repeat split; try (vm_compute; reflexivity).
  - eexists. split; [vm_compute; reflexivity|].
    repeat split; vm_compute; reflexivity.
  - eexists. split; [vm_compute; reflexivity|].
    repeat split; vm_compute; reflexivity.
Qed.

(** ** Numbers that may be [NaN] *)

Lemma neq_refl (a : num) : neq a a.
Proof. destruct a; simpl; [reflexivity | exact I]. Qed.

Lemma neq_sym (a b : num) : neq a b -> neq b a.
Proof. destruct a, b; simpl; auto. intros E. symmetry. exact E. Qed.

Lemma neq_trans (a b c : num) : neq a b -> neq b c -> neq a c.
Proof.
  destruct a, b, c; simpl; try tauto. intros E1 E2. rewrite E1. exact E2.
Qed.

Lemma nadd_neq (a a' b b' : num) :
  neq a a' -> neq b b' -> neq (nadd a b) (nadd a' b').
Proof.
  destruct a, a', b, b'; simpl; try tauto. intros E1 E2.
  rewrite E1, E2. reflexivity.
Qed.

Lemma nadd_comm (a b : num) : neq (nadd a b) (nadd b a).
Proof. destruct a, b; simpl; try exact I. apply Qplus_comm. Qed.

Lemma nadd_assoc (a b c : num) :
  neq (nadd a (nadd b c)) (nadd (nadd a b) c).
Proof. destruct a, b, c; simpl; try exact I. apply Qplus_assoc. Qed.

Lemma nadd_0_l (a : num) : neq (nadd (Some 0%Q) a) a.
Proof. destruct a; simpl; [apply Qplus_0_l | exact I]. Qed.

(** ** The grid *)

Lemma gridKeys_NoDup : NoDup gridKeys.
Proof. apply (bool_decide_unpack _). vm_compute. reflexivity. Qed.

Lemma NaN_key_outside : ~ In "NaN-NaN"%string gridKeys.
Proof.
  rewrite <- list_elem_of_In. apply (bool_decide_unpack _).
  vm_compute. reflexivity.
Qed.

Lemma cell_in_grid (day hr : Z) :
  0 <= day < 7 -> 0 <= hr < 24 -> In (cellKey day hr) gridKeys.
Proof.
  intros Hd Hh. unfold gridKeys. apply in_map_iff. exists (day, hr).
  split; [reflexivity|]. unfold gridCells. apply in_flat_map.
  exists day. split.
  - unfold days7. apply in_map_iff. exists (Z.to_nat day).
    split; [lia|]. apply in_seq. lia.
  - apply in_map_iff. exists hr. split; [reflexivity|].
    unfold hours24. apply in_map_iff. exists (Z.to_nat hr).
    split; [lia|]. apply in_seq. lia.
Qed.

Lemma getDay_range `{Host} (t : Z) : 0 <= getDay t < 7.
Proof. unfold getDay. apply Z.mod_pos_bound. lia. Qed.

Lemma getHours_range `{Host} (t : Z) : 0 <= getHours t < 24.
Proof. unfold getHours. apply Z.mod_pos_bound. lia. Qed.

(** ** Writing one cell *)

Lemma sumAt_insert_out (m : gmap string Q) (ks : list string) (k : string)
    (v : Q) :
  ~ In k ks -> sumAt (<[k := v]> m) ks = sumAt m ks.
Proof.
  unfold sumAt. induction ks as [|k0 ks IH]; intros Hn; [reflexivity|].
  simpl. rewrite lookup_insert_ne by (intros ->; apply Hn; left; reflexivity).
  rewrite IH by (intros Hin; apply Hn; right; exact Hin). reflexivity.
Qed.

Lemma sumAt_insert_in (m : gmap string Q) (ks : list string) (k : string)
    (v : Q) :
  NoDup ks -> In k ks ->
  (sumAt (<[k := v]> m) ks == sumAt m ks - default 0 (m !! k) + v)%Q.
Proof.
  induction ks as [|k0 ks IH]; intros Hnd Hin; [destruct Hin|].
  apply NoDup_cons in Hnd as [Hk0 Hnd]. rewrite list_elem_of_In in Hk0.
  change (sumAt (<[k := v]> m) (k0 :: ks))
    with (default 0 (<[k := v]> m !! k0) + sumAt (<[k := v]> m) ks)%Q.
  change (sumAt m (k0 :: ks)) with (default 0 (m !! k0) + sumAt m ks)%Q.
  destruct (String.eqb_spec k k0) as [->|Hne].
  - rewrite lookup_insert_eq, sumAt_insert_out by exact Hk0. simpl. ring.
  - destruct Hin as [E|Hin]; [congruence|].
    rewrite lookup_insert_ne by exact Hne. rewrite IH by assumption. ring.
Qed.

Lemma nsumAt_insert_out (m : gmap string num) (ks : list string) (k : string)
    (v : num) :
  ~ In k ks -> nsumAt (<[k := v]> m) ks = nsumAt m ks.
Proof.
  unfold nsumAt. induction ks as [|k0 ks IH]; intros Hn; [reflexivity|].
  simpl. rewrite lookup_insert_ne by (intros ->; apply Hn; left; reflexivity).
  rewrite IH by (intros Hin; apply Hn; right; exact Hin). reflexivity.
Qed.

(** [heatmap[k] += v] adds [v] to the sum of the cells. *)
Lemma nsumAt_add_in (m : gmap string num) (ks : list string) (k : string)
    (v : num) :
  NoDup ks -> In k ks ->
  neq (nsumAt (<[k := nadd (default None (m !! k)) v]> m) ks)
      (nadd (nsumAt m ks) v).
Proof.
  induction ks as [|k0 ks IH]; intros Hnd Hin; [destruct Hin|].
  apply NoDup_cons in Hnd as [Hk0 Hnd]. rewrite list_elem_of_In in Hk0.
  set (w := nadd (default None (m !! k)) v).
  change (nsumAt (<[k := w]> m) (k0 :: ks))
    with (nadd (default None (<[k := w]> m !! k0)) (nsumAt (<[k := w]> m) ks)).
  change (nsumAt m (k0 :: ks))
    with (nadd (default None (m !! k0)) (nsumAt m ks)).
  destruct (String.eqb_spec k k0) as [->|Hne].
  - rewrite lookup_insert_eq, nsumAt_insert_out by exact Hk0. simpl.
    unfold w. destruct (default None (m !! k0)), v, (nsumAt m ks); simpl;
      try exact I. ring.
  - destruct Hin as [E|Hin]; [congruence|].
    rewrite lookup_insert_ne by exact Hne.
    eapply neq_trans.
    + apply nadd_neq; [apply neq_refl | apply IH; assumption].
    + apply nadd_assoc.
Qed.

Lemma nsum_Some (qs : list Q) : nsum (map Some qs) = Some (Qsum qs).
Proof.
  induction qs as [|q qs IH]; [reflexivity|].
  simpl. rewrite IH. reflexivity.
Qed.

(** ** Heatmap conservation *)

Lemma ofnat_S (n : nat) : (ofnat (S n) == ofnat n + 1)%Q.
Proof.
  unfold ofnat. rewrite Nat2Z.inj_succ. unfold Z.succ.
  rewrite inject_Z_plus. reflexivity.
Qed.

Section LongHeatmap.
Context `{Host}.

Lemma recordKey_valid (record : TimeSeriesPoint) (t : Z) :
  time record = Some t ->
  In (TimeSeriesMetrics.recordKey record) gridKeys.
Proof.
  intros E. unfold TimeSeriesMetrics.recordKey. rewrite E. simpl.
  apply cell_in_grid; [apply getDay_range | apply getHours_range].
Qed.

Lemma recordKey_invalid (record : TimeSeriesPoint) :
  time record = None ->
  ~ In (TimeSeriesMetrics.recordKey record) gridKeys.
Proof.
  intros E. unfold TimeSeriesMetrics.recordKey. rewrite E.
  exact NaN_key_outside.
Qed.

Lemma countStep_sum (m : gmap string Q) (record : TimeSeriesPoint) :
  (sumAt (TimeSeriesMetrics.countStep m record) gridKeys
   == sumAt m gridKeys + (if activeValid record then 1 else 0))%Q.
Proof.
  unfold TimeSeriesMetrics.countStep, activeValid.
  destruct (is1 record "DI1_KM"); simpl; [|ring].
  destruct (time record) as [t|] eqn:E; simpl.
  - rewrite sumAt_insert_in;
      [ring | exact gridKeys_NoDup | exact (recordKey_valid record t E)].
  - rewrite sumAt_insert_out by exact (recordKey_invalid record E). ring.
Qed.

Lemma countActive_sum (data : list TimeSeriesPoint) (m : gmap string Q) :
  (sumAt (fold_left TimeSeriesMetrics.countStep data m) gridKeys
   == sumAt m gridKeys + ofnat (count activeValid data))%Q.
Proof.
  revert m. induction data as [|r data IH]; intros m.
  - change (ofnat (count activeValid [])) with 0%Q.
    simpl fold_left. ring.
  - simpl fold_left. rewrite IH, countStep_sum.
    unfold count. simpl List.filter.
    destruct (activeValid r); simpl length; [rewrite ofnat_S|]; ring.
Qed.

Lemma long_heatValues (realTimeData : list TimeSeriesPoint) :
  realTimeData <> [] ->
  heatValues (TimeSeriesMetrics.calculateUtilizationHeatmap realTimeData)
  = map Some
      (map (fun k => default 0%Q
                       (TimeSeriesMetrics.countActive realTimeData !! k))
         gridKeys).
Proof.
  intros Hne. destruct realTimeData as [|r rs]; [congruence|].
  unfold TimeSeriesMetrics.calculateUtilizationHeatmap, heatValues,
    DashboardHeatmap.cellValues, gridKeys.
  cbv zeta.
  set (m := TimeSeriesMetrics.countActive (r :: rs)).
  set (mx := fold_left Qmax (mapValues m) 1%Q).
  change (prop (JObj _) "data")
    with (JArr (map (TimeSeriesMetrics.heatCell m mx) gridCells)).
  rewrite !map_map. apply map_ext. intros [d h]. reflexivity.
Qed.
End LongHeatmap.

Section WideHeatmap.

Lemma wide_recordKey (d : CycleRecord) :
  inGrid d -> In (DashboardHeatmap.recordKey d) gridKeys.
Proof.
  intros [day [hr [Ed [Eh [Hd Hh]]]]].
  unfold DashboardHeatmap.recordKey. rewrite Ed, Eh.
  apply cell_in_grid; assumption.
Qed.

Lemma fold_nadd_neq (data : list CycleRecord) (a a' : num) :
  neq a a' ->
  neq (fold_left (fun acc d => nadd acc (runtime_hours d)) data a)
      (fold_left (fun acc d => nadd acc (runtime_hours d)) data a').
Proof.
  revert a a'. induction data as [|d data IH]; intros a a' E; [exact E|].
  simpl. apply IH. apply nadd_neq; [exact E | apply neq_refl].
Qed.

Lemma accumulate_sum (data : list CycleRecord) (m : gmap string num) :
  (forall d, In d data -> inGrid d) ->
  neq (nsumAt (fold_left DashboardHeatmap.addStep data m) gridKeys)
      (fold_left (fun acc d => nadd acc (runtime_hours d)) data
         (nsumAt m gridKeys)).
Proof.
  revert m. induction data as [|d data IH]; intros m Hall;
    [apply neq_refl|].
  simpl fold_left. eapply neq_trans.
  - apply IH. intros x Hx. apply Hall. right. exact Hx.
  - apply fold_nadd_neq. unfold DashboardHeatmap.addStep.
    apply nsumAt_add_in; [exact gridKeys_NoDup|].
    apply wide_recordKey. apply Hall. left. reflexivity.
Qed.

(** The sum of lodash over a derived numeric field is the plain sum. *)
Lemma baseSum_num {A : Type} (f : A -> num) (xs : list A) (a : num) :
  fold_left
    (fun acc x =>
       match of_num (f x) with
       | VUndef => acc
       | v => match acc with
              | VUndef => v
              | _ => js_add acc v
              end
       end) xs (of_num a)
  = of_num (fold_left (fun acc x => nadd acc (f x)) xs a).
Proof.
  revert a. induction xs as [|x xs IH]; intros a; [reflexivity|].
  simpl fold_left. rewrite <- IH. f_equal.
  destruct a, (f x); reflexivity.
Qed.

Lemma baseSum_cons {A : Type} (f : A -> num) (x : A) (xs : list A) :
  baseSum (fun d => of_num (f d)) (x :: xs)
  = of_num (fold_left (fun acc d => nadd acc (f d)) xs (f x)).
Proof.
  unfold baseSum. simpl fold_left. rewrite <- baseSum_num.
  destruct (f x); reflexivity.
Qed.

Lemma to_number_of_num (a : num) : to_number (of_num a) = a.
Proof. destruct a; reflexivity. Qed.

Lemma totalRuntimeOf_cons (x : CycleRecord) (xs : list CycleRecord) :
  totalRuntimeOf (x :: xs)
  = fold_left (fun acc d => nadd acc (runtime_hours d)) xs (runtime_hours x).
Proof.
  unfold totalRuntimeOf, sumBy.
  rewrite (baseSum_cons runtime_hours). apply to_number_of_num.
Qed.

Lemma wide_cellValues (data : list CycleRecord) :
  data <> [] ->
  DashboardHeatmap.cellValues (DashboardHeatmap.heatmapData data)
  = map (fun k => default None (DashboardHeatmap.accumulate data !! k))
      gridKeys.
Proof.
  intros Hne. destruct data as [|r rs]; [congruence|].
  unfold DashboardHeatmap.heatmapData, DashboardHeatmap.cellValues, gridKeys.
  cbv zeta.
  set (m := DashboardHeatmap.accumulate (r :: rs)).
  set (mx := Math_maxQ (mapValues m)).
  change (prop (JObj _) "data")
    with (JArr (map (DashboardHeatmap.heatCell m mx) gridCells)).
  rewrite !map_map. apply map_ext. intros [d h]. reflexivity.
Qed.

Lemma emptyGrid_sum : neq (nsumAt (emptyGrid (Some 0%Q)) gridKeys) (Some 0%Q).
Proof. vm_compute. reflexivity. Qed.
End WideHeatmap.

Lemma processRows_inGrid `{Host} (rows : list RawRow) (d : CycleRecord) :
  In d (processRows rows) -> inGrid d.
Proof.
  unfold processRows. intros Hd. apply filter_In in Hd as [Hd Hv].
  apply in_map_iff in Hd as [r [<- _]]. unfold processRow in *. simpl in *.
  destruct (new_Date (row_get r "cycle_started_at")) as [t|];
    [|discriminate].
  exists (getDay t), (getHours t).
  repeat split; try apply getDay_range; apply getHours_range.
Qed.

(** C7, as amended.  In the 7 x 24 heatmaps the raw cell values sum to
    the contributing metric: for the wide shape, over records whose day
    and hour fall in the grid (every record with a valid date), the sum
    of the 168 cells is the total of [runtime_hours] (both are [NaN]
    together); for the long shape, the sum of the 168 cells is the
    number of samples that have the contactor signal at 1 and a valid
    instant. *)
Theorem heatmap_conservation `{Host} (data : list CycleRecord)
    (realTimeData : list TimeSeriesPoint) :
  (forall d, In d data -> inGrid d) ->
  neq (nsum (DashboardHeatmap.cellValues (DashboardHeatmap.heatmapData data)))
      (totalRuntimeOf data) /\
  exists total,
    nsum (heatValues
            (TimeSeriesMetrics.calculateUtilizationHeatmap realTimeData))
    = Some total /\
    (total == ofnat (count activeValid realTimeData))%Q.
Proof.
  intros Hgrid. split.
  - destruct data as [|x xs]; [simpl; reflexivity|].
    rewrite wide_cellValues by discriminate.
    fold (nsumAt (DashboardHeatmap.accumulate (x :: xs)) gridKeys).
    rewrite totalRuntimeOf_cons. unfold DashboardHeatmap.accumulate.
    eapply neq_trans; [apply accumulate_sum; exact Hgrid|].
    cbn [fold_left]. apply fold_nadd_neq.
    eapply neq_trans; [|apply nadd_0_l].
    apply nadd_neq; [exact emptyGrid_sum | apply neq_refl].
  - destruct realTimeData as [|r rs].
    + exists 0%Q. split; reflexivity.
    + rewrite long_heatValues by discriminate. rewrite nsum_Some.
      eexists. split; [reflexivity|].
      fold (sumAt (TimeSeriesMetrics.countActive (r :: rs)) gridKeys).
      unfold TimeSeriesMetrics.countActive. rewrite countActive_sum.
      assert (E : (sumAt (emptyGrid 0%Q) gridKeys == 0)%Q)
        by (vm_compute; reflexivity).
      rewrite E. ring.
Qed.

(** Two cycles on a Monday, at midnight and at one o'clock, and three
    samples of which two are active. *)
Lemma heatmap_conservation_witness :
  let data := @processRows refHost
                [[("device_id", VStr "M1");
                  ("cycle_started_at", VStr "2024-01-01T00:00:00Z");
                  ("cycle_duration_ms", VNum 3600000)];
                 [("device_id", VStr "M1");
                  ("cycle_started_at", VStr "2024-01-01T01:00:00Z");
                  ("cycle_duration_ms", VNum 7200000)]]%string in
  let samples := [sampleAt 0 1; sampleAt 25000 0; sampleAt 3600000 1] in
  option_map Qred
    (nsum (DashboardHeatmap.cellValues (DashboardHeatmap.heatmapData data)))
  = Some 3%Q /\
  neq (nsum (DashboardHeatmap.cellValues (DashboardHeatmap.heatmapData data)))
      (totalRuntimeOf data) /\
  exists total,
    nsum (heatValues
            (@TimeSeriesMetrics.calculateUtilizationHeatmap refHost samples))
    = Some total /\
    (total == 2)%Q.
Proof.
  intros data samples. split; [vm_compute; reflexivity|].
  exact (@heatmap_conservation refHost data samples
           (@processRows_inGrid refHost _)).
Defined.

(** C7 fails as stated on the heatmap of the dashboard without
    filters: its cells are keyed by date and hour, only the hours 8 to
    19 are tracked, and a cell holds the percentage of active samples.
    Two active samples at nine o'clock give one cell of 100, and an
    active sample at three o'clock gives none. *)
Lemma heatmap_percentage_counterexample :
  let morning := [sampleAt 32400000 1; sampleAt 32425000 1] in
  let night := [sampleAt 10800000 1] in
  count activeValid morning = 2%nat /\
  objectValues
    (@KomarMetrics.calculateUtilizationHeatmap refHost refCollation morning)
  = [Some 100%Q] /\
  ~ neq (nsum (objectValues
                 (@KomarMetrics.calculateUtilizationHeatmap refHost
                    refCollation morning)))
        (Some (ofnat (count activeValid morning))) /\
  count activeValid night = 1%nat /\
  @KomarMetrics.calculateUtilizationHeatmap refHost refCollation night
  = JObj [] /\
  ~ neq (nsum (objectValues
                 (@KomarMetrics.calculateUtilizationHeatmap refHost
                    refCollation night)))
        (Some (ofnat (count activeValid night))).
Proof.
  cbv zeta. repeat split; try (vm_compute; reflexivity).
  - intros E. vm_compute in E. discriminate E.
  - intros E. vm_compute in E. discriminate E.
Qed.

(** ** Utilization of the wide shape is clamped *)

(** Rounding to a fixed number of decimals keeps a number between zero
    and an integer bound. *)
Lemma toFixed_bounds (d : nat) (x : Q) (hi : Z) :
  (0 <= x)%Q -> (x <= inject_Z hi)%Q ->
  (0 <= toFixed d x)%Q /\ (toFixed d x <= inject_Z hi)%Q.
Proof.
  intros H0 Hhi. unfold toFixed. rewrite Qred_correct.
  set (p := 10 ^ Z.of_nat d).
  assert (Hp : 0 < p) by (apply Z.pow_pos_nonneg; lia).
  assert (HpQ : (0 < inject_Z p)%Q)
    by (change 0%Q with (inject_Z 0); rewrite <- Zlt_Qlt; exact Hp).
  set (y := (x * inject_Z p)%Q).
  assert (Hy0 : (0 <= y)%Q).
  { unfold y. apply Qmult_le_0_compat;
      [exact H0 | apply Qlt_le_weak; exact HpQ]. }
  assert (Hyhi : (y <= inject_Z (hi * p))%Q).
  { unfold y. rewrite inject_Z_mult.
    apply Qmult_le_compat_r; [exact Hhi | apply Qlt_le_weak; exact HpQ]. }
  unfold round_half_away.
  destruct (Qle_bool 0 y) eqn:E;
    [|apply Qle_bool_iff in Hy0; congruence].
  set (n := Qfloor (y + (1 # 2))).
  pose proof (Qfloor_le (y + (1 # 2))) as Hfl. fold n in Hfl.
  pose proof (Qlt_floor (y + (1 # 2))) as Hlt. fold n in Hlt.
  assert (Hn0 : 0 <= n).
  { assert (Hq : (inject_Z 0 < inject_Z (n + 1))%Q)
      by (change (inject_Z 0) with 0%Q; lra).
    rewrite <- Zlt_Qlt in Hq. lia. }
  assert (Hnhi : n <= hi * p).
  { assert (Hq : (inject_Z n < inject_Z (hi * p + 1))%Q).
    { rewrite (inject_Z_plus (hi * p) 1).
      change (inject_Z 1) with 1%Q. lra. }
    rewrite <- Zlt_Qlt in Hq. lia. }
  rewrite Zle_Qle in Hn0, Hnhi. change (inject_Z 0) with 0%Q in Hn0.
  rewrite inject_Z_mult in Hnhi.
  split.
  - apply Qle_shift_div_l; [exact HpQ|]. lra.
  - apply Qle_shift_div_r; [exact HpQ | exact Hnhi].
Qed.

Lemma Math_min_valid {A : Type} (ts : A -> option Z) (D : list A) :
  D <> [] ->
  (forall d, In d D -> valid (ts d) = true) ->
  exists m, Math_min (map ts D) = Some m.
Proof.
  induction D as [|x D IH]; [congruence|]. intros _ Hvalid.
  assert (Hx : exists a, ts x = Some a).
  { specialize (Hvalid x (or_introl eq_refl)).
    destruct (ts x); [eauto | discriminate]. }
  destruct Hx as [a Ea]. destruct D as [|y D].
  - simpl. rewrite Ea. eauto.
  - change (map ts (x :: y :: D)) with (ts x :: map ts (y :: D)).
    rewrite Math_min_cons by discriminate.
    destruct IH as [b Eb]; [discriminate | |].
    + intros d Hd. apply Hvalid. right. exact Hd.
    + rewrite Ea, Eb. eauto.
Qed.

Lemma Math_max_ge_min (xs : list (option Z)) (a b : Z) :
  Math_max xs = Some a -> Math_min xs = Some b -> b <= a.
Proof.
  revert a b. induction xs as [|x xs IH]; intros a b; [discriminate|].
  destruct xs as [|y ys].
  - simpl. intros -> [= <-]. lia.
  - rewrite Math_max_cons, Math_min_cons by discriminate.
    destruct x as [v|]; [|discriminate].
    destruct (Math_max (y :: ys)) as [a'|]; [|discriminate].
    destruct (Math_min (y :: ys)) as [b'|]; [|discriminate].
    intros [= <-] [= <-]. specialize (IH a' b' eq_refl eq_refl). lia.
Qed.

Lemma fold_nadd_nonneg (data : list CycleRecord) (a : Q) :
  (0 <= a)%Q ->
  (forall d, In d data -> exists q, runtime_hours d = Some q /\ (0 <= q)%Q) ->
  exists t,
    fold_left (fun acc d => nadd acc (runtime_hours d)) data (Some a)
    = Some t /\ (0 <= t)%Q.
Proof.
  revert a. induction data as [|d data IH]; intros a Ha Hall.
  - exists a. split; [reflexivity | exact Ha].
  - destruct (Hall d (or_introl eq_refl)) as [q [Eq Hq]].
    simpl fold_left. rewrite Eq. simpl nadd. apply IH; [lra|].
    intros x Hx. apply Hall. right. exact Hx.
Qed.

Lemma uniqBy_nonempty {A : Type} (f : A -> jsval) (x : A) (xs : list A) :
  (1 <= length (uniqBy f (x :: xs)))%nat.
Proof. unfold uniqBy. simpl. lia. Qed.

Lemma Qmax_ge_r (x y : Q) : (y <= Qmax x y)%Q.
Proof.
  unfold Qmax. destruct (Qle_bool x y) eqn:E; [lra|].
  assert (Hn : ~ (x <= y)%Q) by (rewrite <- Qle_bool_iff; congruence).
  lra.
Qed.

Lemma Qmin_bounds (x hi : Q) :
  (0 <= x)%Q -> (0 <= hi)%Q -> (0 <= Qmin x hi)%Q /\ (Qmin x hi <= hi)%Q.
Proof.
  intros Hx Hhi. unfold Qmin. destruct (Qle_bool x hi) eqn:E.
  - apply Qle_bool_iff in E. split; assumption.
  - split; lra.
Qed.

Section WideUtilization.
Context `{Host}.

Lemma hoursInWindow_ge_1 (data : list CycleRecord) :
  data <> [] ->
  (forall d, In d data -> valid (startedAt d) = true) ->
  exists h, hoursInWindowOf data = Some h /\ (1 <= h)%Q.
Proof.
  intros Hne Hvalid. unfold hoursInWindowOf.
  destruct (Math_max_valid startedAt data Hne Hvalid) as [a Ea].
  destruct (Math_min_valid startedAt data Hne Hvalid) as [b Eb].
  rewrite Ea, Eb. cbv zeta. simpl ndiv.
  eexists. split; [reflexivity | apply Qmax_ge_r].
Qed.

Lemma rawUtilization_nonneg (data : list CycleRecord) :
  data <> [] ->
  (forall d, In d data -> exists q, runtime_hours d = Some q /\ (0 <= q)%Q) ->
  (forall d, In d data -> valid (startedAt d) = true) ->
  exists r, rawUtilization data = Some r /\ (0 <= r)%Q.
Proof.
  intros Hne Hrt Hvalid. unfold rawUtilization.
  destruct (hoursInWindow_ge_1 data Hne Hvalid) as [h [Eh Hh]].
  destruct data as [|x xs]; [congruence|].
  rewrite totalRuntimeOf_cons, Eh.
  destruct (Hrt x (or_introl eq_refl)) as [q [Eq Hq]]. rewrite Eq.
  destruct (fold_nadd_nonneg xs q Hq) as [t [Et Ht]];
    [intros d Hd; apply Hrt; right; exact Hd|].
  rewrite Et. cbv zeta.
  set (n := ofnat (length (uniqBy device_id (x :: xs)))).
  assert (Hn : (1 <= n)%Q).
  { unfold n, ofnat. change 1%Q with (inject_Z 1). rewrite <- Zle_Qle.
    pose proof (uniqBy_nonempty device_id x xs). lia. }
  assert (Hprod : (0 < n * h)%Q) by nra.
  simpl nmul. unfold ndiv.
  destruct (Qeq_bool (n * h) 0) eqn:E.
  - apply Qeq_bool_iff in E. lra.
  - simpl. eexists. split; [reflexivity|].
    apply Qmult_le_0_compat; [|discriminate].
    apply Qle_shift_div_l; [exact Hprod | lra].
Qed.

(** X20.  The utilization shown by the two wide-shape dashboards lies
    between 0 and 100, for records with valid dates and non-negative
    runtimes. *)
Lemma wide_utilization_bounded (data : list CycleRecord) :
  (forall d, In d data -> exists q, runtime_hours d = Some q /\ (0 <= q)%Q) ->
  (forall d, In d data -> valid (startedAt d) = true) ->
  (forall k, DashboardLocKPIs.kpis data = Ok (Some k) ->
     exists u, DashboardLocKPIs.utilizationRate k = Some u /\
               (0 <= u)%Q /\ (u <= 100)%Q) /\
  (forall k, DashboardKPIs.fleetMetrics data = Ok (Some k) ->
     exists u, DashboardKPIs.utilizationRate k = Some u /\
               (0 <= u)%Q /\ (u <= 100)%Q).
Proof.
  intros Hrt Hvalid.
  assert (Hclamp : data <> [] ->
            exists u, ntoFixed 1 (nmin (rawUtilization data) (Some 100%Q))
                      = Some u /\ (0 <= u)%Q /\ (u <= 100)%Q).
  { intros Hne.
    destruct (rawUtilization_nonneg data Hne Hrt Hvalid) as [r [Er Hr]].
    rewrite Er. simpl. eexists. split; [reflexivity|].
    destruct (Qmin_bounds r 100 Hr) as [Hlo Hhi]; [discriminate|].
    apply (toFixed_bounds 1 (Qmin r 100) 100 Hlo Hhi). }
  split; intros k Hk.
  - unfold DashboardLocKPIs.kpis in Hk.
    destruct data as [|x xs]; [discriminate|]. cbv zeta in Hk.
    destruct (val_toFixed 1 _) as [e|msg] in Hk; simpl in Hk;
      [|discriminate].
    injection Hk as <-. simpl. apply Hclamp. discriminate.
  - unfold DashboardKPIs.fleetMetrics in Hk.
    destruct data as [|x xs]; [discriminate|]. cbv zeta in Hk.
    destruct (val_toFixed 1 _) as [e|msg] in Hk; simpl in Hk;
      [|discriminate].
    injection Hk as <-. simpl. apply Hclamp. discriminate.
Qed.
End WideUtilization.

(** The two cycles of the round-trip file with its energy column: the
    KPI memo returns, and its utilization is within the bounds. *)
Lemma wide_utilization_bounded_witness :
  let data := @processRows refHost (@Papa_parse refHost roundTripWithEnergyCSV) in
  exists k u,
    @DashboardKPIs.fleetMetrics refHost data = Ok (Some k) /\
    DashboardKPIs.utilizationRate k = Some u /\
    (0 <= u)%Q /\ (u <= 100)%Q.
Proof.
  intros data.
  assert (Hrt : forall d, In d data ->
            exists q, runtime_hours d = Some q /\ (0 <= q)%Q).
  { intros d Hd. vm_compute in Hd. destruct Hd as [<-|[<-|[]]];
      eexists; (split; [vm_compute; reflexivity | discriminate]). }
  assert (Hvalid : forall d, In d data ->
            valid (@startedAt refHost d) = true).
  { intros d Hd. vm_compute in Hd. destruct Hd as [<-|[<-|[]]];
      vm_compute; reflexivity. }
  assert (Hk : exists k, @DashboardKPIs.fleetMetrics refHost data
                         = Ok (Some k))
    by (eexists; vm_compute; reflexivity).
  destruct Hk as [k Hk]. exists k.
  destruct (proj2 (@wide_utilization_bounded refHost data Hrt Hvalid) k Hk)
    as [u [Eu [Hlo Hhi]]].
  exists u. repeat split; assumption.
Defined.

(** In the dashboard with a location selector the rows of the heatmap
    are keyed by the day letters, of which S and T occur twice: a cycle
    of one hour on a Sunday is accumulated in the grid but is in no row
    of the result, whose S column shows Saturday. *)
Example heatmap_day_letters :
  let data := @processRows refHost
                [[("device_id", VStr "M1");
                  ("cycle_started_at", VStr "2024-01-07T00:00:00Z");
                  ("cycle_duration_ms", VNum 3600000)]]%string in
  map dayOfWeek data = [Some 0] /\
  option_map Qred (totalRuntimeOf data) = Some 1%Q /\
  exists rows,
    DashboardLocHeatmap.heatmapData data = Ok rows /\
    length (DashboardLocHeatmap.rowValues rows) = 120%nat /\
    option_map Qred (nsum (DashboardLocHeatmap.rowValues rows)) = Some 0%Q.
Proof.
  cbv zeta. split; [vm_compute; reflexivity|].
  split; [vm_compute; reflexivity|].
  eexists. split; [vm_compute; reflexivity|].
  split; vm_compute; reflexivity.
Qed.

(** ** The wide-shape dashboard: what it shows in every state *)

Lemma filter_sublist_mono {A : Type} (f g : A -> bool) (l : list A) :
  (forall x, In x l -> f x = true -> g x = true) ->
  sublist (List.filter f l) (List.filter g l).
Proof.
  induction l as [|a l IH]; intros Hfg; simpl; [constructor|].
  assert (IH' : sublist (List.filter f l) (List.filter g l))
    by (apply IH; intros x Hx; apply Hfg; right; exact Hx).
  destruct (f a) eqn:Ef.
  - rewrite (Hfg a (or_introl eq_refl) Ef). constructor. exact IH'.
  - destruct (g a); [constructor|]; exact IH'.
Qed.

Lemma filter_sublist {A : Type} (f : A -> bool) (l : list A) :
  sublist (List.filter f l) l.
Proof.
  induction l as [|a l IH]; simpl; [constructor|].
  destruct (f a); constructor; exact IH.
Qed.

Lemma processRows_valid `{Host} (rows : list RawRow) :
  Forall (fun d => valid (date d) = true) (processRows rows).
Proof.
  apply Forall_forall. intros d Hd. unfold processRows in Hd.
  apply list_elem_of_In, filter_In in Hd as [_ Hd]. exact Hd.
Qed.

Section Machine.
Context `{Host}.

Lemma applyFilters_visible (s : State) :
  (originalData s = [] -> data s = []) ->
  originalData (Dashboard.applyFilters s) = originalData s /\
  data (Dashboard.applyFilters s)
  = DashboardMachine.visible (Dashboard.applyFilters s).
Proof.
  intros Hempty. unfold DashboardMachine.visible.
  destruct (originalData s) as [|d D] eqn:E.
  - unfold Dashboard.applyFilters. rewrite E. rewrite E.
    split; [reflexivity | apply Hempty; reflexivity].
  - assert (Hne : originalData s <> []) by congruence.
    rewrite (Dashboard_applyFilters_data s Hne).
    unfold Dashboard.applyFilters. rewrite E. cbv zeta. simpl.
    rewrite E. split; reflexivity.
Qed.

Lemma visible_sublist (s : State) :
  sublist (DashboardMachine.visible s) (originalData s).
Proof.
  unfold DashboardMachine.visible.
  transitivity (List.filter (deviceOk (selectedDevice s)) (originalData s));
    apply filter_sublist.
Qed.

Lemma processCSVData_loaded (csvContent : string) (s : State) :
  let s' := DashboardIngest.processCSVData csvContent s in
  data s' = originalData s' /\
  Forall (fun d => valid (date d) = true) (originalData s').
Proof.
  unfold DashboardIngest.processCSVData, DashboardIngest.tryProcess.
  destruct (Papa_parse csvContent) as [|r rows]; simpl.
  - split; [reflexivity | constructor].
  - split; [reflexivity | apply processRows_valid].
Qed.

Lemma machine_step (e : DashboardMachine.Event)
    (r : DashboardMachine.Rendered) :
  DashboardMachine.invariant r ->
  DashboardMachine.invariant (DashboardMachine.step e r).
Proof.
  intros (Hvalid & Hsub & Hrest). unfold DashboardMachine.invariant.
  destruct e as [|response|[text|]|value|value|]; simpl.
  - repeat split; assumption.
  - destruct response as [csvContent| |message]; simpl.
    + destruct (processCSVData_loaded csvContent (DashboardMachine.shown r))
        as [Hd Hv].
      cbv zeta in Hd, Hv. rewrite Hd.
      split; [exact Hv|]. split; [reflexivity | discriminate].
    + split; [constructor|]. split; [constructor | discriminate].
    + split; [constructor|]. split; [constructor | discriminate].
  - destruct (processCSVData_loaded text (DashboardMachine.shown r))
      as [Hd Hv].
    cbv zeta in Hd, Hv. rewrite Hd.
    split; [exact Hv|]. split; [reflexivity | discriminate].
  - repeat split; assumption.
  - destruct (String.eqb value (selectedDevice (DashboardMachine.shown r)));
      simpl; [repeat split; assumption|].
    split; [exact Hvalid|]. split; [exact Hsub | discriminate].
  - destruct (String.eqb value
                (selectedTimeRange (DashboardMachine.shown r)));
      simpl; [repeat split; assumption|].
    split; [exact Hvalid|]. split; [exact Hsub | discriminate].
  - destruct (DashboardMachine.pending r) eqn:Ep; simpl;
      [|rewrite Ep; repeat split; assumption].
    destruct (applyFilters_visible (DashboardMachine.shown r)) as [Ho Hd].
    { intros E. rewrite E in Hsub. apply sublist_nil_r in Hsub.
      exact Hsub. }
    split; [rewrite Ho; exact Hvalid|]. split; [|intros _; exact Hd].
    rewrite Hd. apply visible_sublist.
Qed.
End Machine.

(** X1.  The dashboard of [Dashboard.js], through the initial load,
    uploads and changes of the device and time-range selectors: in
    every state it renders, every loaded record has a valid date; and
    in every rendered state for which the filter effect has run, the
    displayed records are exactly the records of the loaded dataset
    that pass the current selections.  In the render before the effect
    runs they need not be: after an upload the whole file is
    displayed, after a change of a selector the previous selection. *)
Theorem displayed_data_invariant `{Host} (r : DashboardMachine.Rendered) :
  DashboardMachine.reachable r ->
  Forall (fun d => valid (date d) = true)
    (originalData (DashboardMachine.shown r)) /\
  (DashboardMachine.pending r = false ->
   data (DashboardMachine.shown r)
   = DashboardMachine.visible (DashboardMachine.shown r)).
Proof.
  intros Hr.
  assert (Hinv : DashboardMachine.invariant r).
  { induction Hr as [|e r Hr IH].
    - split; [constructor|]. split; [constructor | discriminate].
    - apply machine_step. exact IH. }
  destruct Hinv as (Hvalid & _ & Hrest). split; assumption.
Qed.

(** An upload of two cycles an hour apart, then the choice of the
    24-hour window: both cycles are displayed once the effect has
    run. *)
Lemma displayed_data_invariant_witness :
  let run events :=
    fold_left (fun r e => @DashboardMachine.step refHost e r) events
      DashboardMachine.mounted in
  let r :=
    run [DashboardMachine.Effect; DashboardMachine.Begin;
         DashboardMachine.FileRead (Some roundTripWithEnergyCSV);
         DashboardMachine.Effect;
         DashboardMachine.TimeRangeChange "24h";
         DashboardMachine.Effect] in
  length (data (DashboardMachine.shown r)) = 2%nat /\
  DashboardMachine.pending r = false /\
  Forall (fun d => valid (date d) = true)
    (originalData (DashboardMachine.shown r)) /\
  data (DashboardMachine.shown r)
  = @DashboardMachine.visible refHost (DashboardMachine.shown r).
Proof.
  intros run r. split; [vm_compute; reflexivity|].
  split; [reflexivity|].
  assert (Hr : @DashboardMachine.reachable refHost r).
  { subst r run. simpl fold_left.
    repeat apply DashboardMachine.reachable_step.
    apply DashboardMachine.reachable_mounted. }
  destruct (@displayed_data_invariant refHost r Hr) as [Hvalid Hdata].
  split; [exact Hvalid | apply Hdata; reflexivity].
Defined.

(** ** Nested time windows *)

Lemma inWindow_24h_7d `{Host} (D : list CycleRecord) (d : CycleRecord) :
  inWindow "24h" D d = true -> inWindow "7d" D d = true.
Proof.
  unfold inWindow, startDate. simpl.
  destruct (Math_max (map startedAt D)) as [now|], (startedAt d) as [t|];
    simpl; try discriminate.
  rewrite !Z.leb_le. lia.
Qed.

Lemma inWindow_7d_30d `{Host} (D : list CycleRecord) (d : CycleRecord) :
  inWindow "7d" D d = true -> inWindow "30d" D d = true.
Proof.
  unfold inWindow, startDate. simpl.
  destruct (Math_max (map startedAt D)) as [now|], (startedAt d) as [t|];
    simpl; try discriminate.
  rewrite !Z.leb_le. lia.
Qed.

Lemma Dashboard_view (s : State) `{Host} (r : string) :
  data (Dashboard.applyFilters (setSelectedTimeRange r s)) =
  match originalData s with
  | [] => data s
  | _ => List.filter (inWindow r (originalData s))
           (List.filter (deviceOk (selectedDevice s)) (originalData s))
  end.
Proof.
  destruct (originalData s) as [|d D] eqn:E.
  - unfold Dashboard.applyFilters. simpl. rewrite E. reflexivity.
  - rewrite Dashboard_applyFilters_data by (simpl; congruence).
    simpl. rewrite E. reflexivity.
Qed.

Lemma DashboardLoc_view (s : State) `{Host} (r : string) :
  data (DashboardLoc.applyFilters (setSelectedTimeRange r s)) =
  match originalData s with
  | [] => data s
  | _ => List.filter (inWindow r (originalData s))
           (List.filter (locationOk (selectedLocation s))
              (List.filter (deviceOk (selectedDevice s)) (originalData s)))
  end.
Proof.
  destruct (originalData s) as [|d D] eqn:E.
  - unfold DashboardLoc.applyFilters. simpl. rewrite E. reflexivity.
  - rewrite DashboardLoc_applyFilters_data by (simpl; congruence).
    simpl. rewrite E. reflexivity.
Qed.

(** X2.  In both wide-shape dashboards the time windows are nested:
    under the same device (and location) selection, what the 24-hour
    window shows is a sub-list of what the 7-day window shows, which is
    a sub-list of what the 30-day window shows. *)
Theorem wide_windows_nested `{Host} (s : State) :
  let view r := data (Dashboard.applyFilters (setSelectedTimeRange r s)) in
  let viewLoc r :=
    data (DashboardLoc.applyFilters (setSelectedTimeRange r s)) in
  sublist (view "24h") (view "7d") /\
  sublist (view "7d") (view "30d") /\
  sublist (viewLoc "24h") (viewLoc "7d") /\
  sublist (viewLoc "7d") (viewLoc "30d").
Proof.
  cbv beta zeta. rewrite !Dashboard_view, !DashboardLoc_view.
  destruct (originalData s) as [|d D]; [repeat split; reflexivity|].
  repeat split; apply filter_sublist_mono; intros x _;
    first [apply inWindow_24h_7d | apply inWindow_7d_30d].
Qed.

(** X3.  With no device selected and one of the windows 24h, 7d or 30d,
    the wide-shape filter of [Dashboard.js] never empties a dataset
    whose dates are all valid: the newest record is always shown. *)
Theorem wide_window_keeps_latest `{Host} (s : State) (now : Z) :
  Math_max (map startedAt (originalData s)) = Some now ->
  selectedDevice s = "all"%string ->
  In (selectedTimeRange s) ["24h"; "7d"; "30d"]%string ->
  exists d, In d (data (Dashboard.applyFilters s)) /\ startedAt d = Some now.
Proof.
  intros Enow Edev Hrange.
  destruct (Math_max_Some _ _ Enow) as [Hin _].
  apply in_map_iff in Hin as [d [Ed Hd]]. exists d. split; [|exact Ed].
  assert (Hne : originalData s <> []) by (intros E; rewrite E in Hd; exact Hd).
  rewrite (Dashboard_applyFilters_data s Hne).
  apply filter_In. split.
  - apply filter_In. split; [exact Hd|].
    unfold deviceOk. rewrite Edev. reflexivity.
  - unfold inWindow. rewrite Enow, Ed, startDate_width.
    destruct (windowWidth (selectedTimeRange s)) as [w|] eqn:Ew.
    + apply windowWidth_nonneg in Ew. simpl. apply Z.leb_le. lia.
    + exfalso. simpl in Hrange.
      destruct Hrange as [E|[E|[E|[]]]]; rewrite <- E in Ew; discriminate.
Qed.

(** Two cycles a day and a half apart under the 24-hour window. *)
Lemma wide_window_keeps_latest_witness :
  let r1 := @processRow refHost
              [("device_id", VStr "M1");
               ("cycle_started_at", VStr "2024-01-01T00:00:00Z");
               ("cycle_duration_ms", VNum 3600000)]%string in
  let r2 := @processRow refHost
              [("device_id", VStr "M2");
               ("cycle_started_at", VStr "2024-01-02T12:00:00Z");
               ("cycle_duration_ms", VNum 7200000)]%string in
  let s := {| data := []; originalData := [r1; r2]; loading := false;
              selectedDevice := "all"; selectedLocation := "all";
              selectedTimeRange := "24h"; errorMessage := "" |} in
  exists d, In d (data (@Dashboard.applyFilters refHost s)) /\
            @startedAt refHost d = Some 1704196800000.
Proof.
  intros r1 r2 s.
  assert (Enow : Math_max (map (@startedAt refHost) (originalData s))
                 = Some 1704196800000) by (vm_compute; reflexivity).
  assert (Edev : selectedDevice s = "all"%string) by reflexivity.
  assert (Hrange : In (selectedTimeRange s) ["24h"; "7d"; "30d"]%string)
    by (left; reflexivity).
  exact (@wide_window_keeps_latest refHost s _ Enow Edev Hrange).
Defined.

(** ** The outcome of an upload *)

(** X4.  In the wide-shape dashboard that checks the required columns,
    [processCSVData] ends the loading state and leaves either a dataset
    or an error, never both and never neither: with an empty error
    message the displayed and the original dataset are the same
    non-empty list of records with valid dates; otherwise both are
    empty and the message is not. *)
Theorem upload_dataset_or_error `{Host} (csvContent : string) (s : State) :
  let s' := DashboardLocIngest.processCSVData csvContent s in
  loading s' = false /\
  ((errorMessage s' = ""%string /\ originalData s' <> [] /\
    data s' = originalData s' /\
    Forall (fun d => valid (date d) = true) (originalData s')) \/
   (errorMessage s' <> ""%string /\ originalData s' = [] /\ data s' = [])).
Proof.
  cbv zeta.
  unfold DashboardLocIngest.processCSVData, DashboardLocIngest.tryProcess.
  destruct (Papa_parse csvContent) as [|first rest] eqn:Eparsed.
  - simpl. split; [reflexivity|]. right. repeat split. discriminate.
  - cbv zeta.
    destruct (List.filter _ requiredColumns) as [|c cs].
    + destruct (processRows (first :: rest)) as [|d D] eqn:Erows.
      * simpl. split; [reflexivity|]. right. repeat split. discriminate.
      * simpl. split; [reflexivity|]. left.
        repeat split; [discriminate|].
        rewrite <- Erows. apply processRows_valid.
    + simpl. split; [reflexivity|]. right. repeat split. discriminate.
Qed.

(** X5.  [processCSVData] of [Dashboard.js] drops the rows whose
    [cycle_started_at] is not a date without reporting anything: when
    the file has rows and none of them has a valid date, the upload
    succeeds with an empty error message and an empty dataset. *)
Theorem upload_without_valid_dates `{Host} (csvContent : string)
    (s : State) :
  Papa_parse csvContent <> [] ->
  (forall r, In r (Papa_parse csvContent) ->
     new_Date (row_get r "cycle_started_at") = None) ->
  let s' := DashboardIngest.processCSVData csvContent s in
  errorMessage s' = ""%string /\ loading s' = false /\
  data s' = [] /\ originalData s' = [].
Proof.
  intros Hne Hinvalid. cbv zeta.
  unfold DashboardIngest.processCSVData, DashboardIngest.tryProcess.
  destruct (Papa_parse csvContent) as [|first rest] eqn:Eparsed;
    [congruence|].
  assert (E : processRows (first :: rest) = []).
  { unfold processRows. apply filter_none. intros d Hd.
    apply in_map_iff in Hd as [r [<- Hr]]. simpl.
    rewrite (Hinvalid r Hr). reflexivity. }
  rewrite E. simpl. repeat split.
Qed.

(** A file whose only row carries text in the date column. *)
Lemma upload_without_valid_dates_witness :
  let csvContent :=
    ("device_id,cycle_started_at,cycle_duration_ms" +:+ LF
     +:+ "M1,yesterday,3600000")%string in
  let s' := @DashboardIngest.processCSVData refHost csvContent
              initialState in
  length (@Papa_parse refHost csvContent) = 1%nat /\
  errorMessage s' = ""%string /\ loading s' = false /\
  data s' = [] /\ originalData s' = [].
Proof.
  intros csvContent s'. split; [vm_compute; reflexivity|].
  assert (Hne : @Papa_parse refHost csvContent <> [])
    by (vm_compute; discriminate).
  assert (Hinvalid : forall r, In r (@Papa_parse refHost csvContent) ->
            @new_Date refHost (row_get r "cycle_started_at") = None).
  { intros r Hr. vm_compute in Hr. destruct Hr as [<-|[]].
    vm_compute. reflexivity. }
  exact (@upload_without_valid_dates refHost csvContent initialState
           Hne Hinvalid).
Defined.

(** ** Nested windows of the long-shape filter *)

Lemma cutoff_mono (r1 r2 : string) (w1 w2 : Z) (now t : option Z) :
  cutoffWidth r1 = Some w1 -> cutoffWidth r2 = Some w2 -> w1 <= w2 ->
  date_ge t (cutoffOf r1 now) = true -> date_ge t (cutoffOf r2 now) = true.
Proof.
  intros E1 E2 Hw. unfold cutoffOf. rewrite E1, E2.
  destruct now as [n|], t as [x|]; simpl; try discriminate.
  rewrite !Z.leb_le. lia.
Qed.

(** X6.  The trailing windows of [DataProcessor.applyFilters] are
    nested and the filter only removes points: under the same date
    range, what "1h" returns is a sub-list of what "3h" returns, then
    "6h", "12h" and "all", and the latter is a sub-list of the input. *)
Theorem long_windows_nested `{Host} (D : list TimeSeriesPoint)
    (dateRange : DateRange) :
  let view r := TimeSeriesDashboard.applyFilters D dateRange r in
  sublist (view "1h") (view "3h") /\
  sublist (view "3h") (view "6h") /\
  sublist (view "6h") (view "12h") /\
  sublist (view "12h") (view "all") /\
  sublist (view "all") D.
Proof.
  cbv beta zeta. rewrite !long_applyFilters_eq. cbv zeta.
  set (G := List.filter (inRange dateRange) D). simpl.
  destruct (0 <? length G)%nat.
  - repeat split;
      try (apply filter_sublist_mono; intros x _;
           eapply cutoff_mono; [reflexivity | reflexivity | lia]).
    + apply filter_sublist.
    + apply filter_sublist.
  - repeat split; try reflexivity. apply filter_sublist.
Qed.

(** ** The pivot: order and devices *)

Lemma StronglySorted_filter {A : Type} (R : A -> A -> Prop)
    (f : A -> bool) (l : list A) :
  StronglySorted R l -> StronglySorted R (List.filter f l).
Proof.
  induction 1 as [|a l Hs IH Hall]; simpl; [constructor|].
  destruct (f a); [|exact IH].
  constructor; [exact IH|].
  rewrite List.Forall_forall in *. intros x Hx.
  apply filter_In in Hx as [Hx _]. apply Hall. exact Hx.
Qed.

Lemma chronological_trans (a b c : TimeSeriesPoint) :
  chronological a b -> chronological b c -> chronological a c.
Proof.
  unfold chronological.
  destruct (timestamp a), (timestamp b), (timestamp c); try tauto. lia.
Qed.

Lemma sort_insert_chronological (x : TimeSeriesPoint)
    (l : list TimeSeriesPoint) :
  valid (timestamp x) = true ->
  (forall y, In y l -> valid (timestamp y) = true) ->
  StronglySorted chronological l ->
  StronglySorted chronological (sort_insert byTimestamp x l).
Proof.
  intros Hx Hl Hs. induction Hs as [|y l Hs IH Hall]; simpl.
  - repeat constructor.
  - assert (Hy : valid (timestamp y) = true) by (apply Hl; left; reflexivity).
    unfold byTimestamp at 1.
    destruct (timestamp x) as [tx|] eqn:Ex; [|discriminate].
    destruct (timestamp y) as [ty|] eqn:Ey; [|discriminate].
    destruct (tx - ty <=? 0) eqn:E.
    + apply Z.leb_le in E.
      assert (Hxy : chronological x y)
        by (unfold chronological; rewrite Ex, Ey; lia).
      constructor; [constructor; assumption|].
      constructor; [exact Hxy|].
      rewrite List.Forall_forall in *. intros z Hz.
      apply (chronological_trans x y z Hxy). apply Hall. exact Hz.
    + apply Z.leb_gt in E.
      constructor.
      * apply IH. intros z Hz. apply Hl. right. exact Hz.
      * rewrite List.Forall_forall in *. intros z Hz.
        apply (Permutation_in _ (sort_insert_perm byTimestamp x l)) in Hz.
        destruct Hz as [<-|Hz]; [|apply Hall; exact Hz].
        unfold chronological. rewrite Ex, Ey. lia.
Qed.

Lemma sortBy_chronological (l : list TimeSeriesPoint) :
  (forall y, In y l -> valid (timestamp y) = true) ->
  StronglySorted chronological (sortBy byTimestamp l).
Proof.
  induction l as [|x l IH]; intros Hl; simpl; [constructor|].
  apply sort_insert_chronological.
  - apply Hl. left. reflexivity.
  - intros y Hy. apply (Permutation_in _ (sortBy_perm byTimestamp l)) in Hy.
    apply Hl. right. exact Hy.
  - apply IH. intros y Hy. apply Hl. right. exact Hy.
Qed.

Lemma groupBy_keys {A : Type} (key : A -> string) (xs : list A)
    (k : string) :
  In k (map fst (groupBy key xs)) <-> exists x, In x xs /\ key x = k.
Proof.
  split.
  - intros Hk.
    destruct (obj_get (groupBy key xs) k) as [g|] eqn:E.
    + rewrite groupBy_get in E.
      destruct (List.filter (keyIs key k) xs) as [|x g'] eqn:Ef;
        [discriminate|].
      assert (Hx : In x (List.filter (keyIs key k) xs))
        by (rewrite Ef; left; reflexivity).
      apply filter_In in Hx as [Hx Hkx]. exists x.
      split; [exact Hx | apply String.eqb_eq; exact Hkx].
    + apply obj_get_None_keys in E. contradiction.
  - intros [x [Hx Ek]].
    destruct (obj_get (groupBy key xs) k) as [g|] eqn:E.
    + destruct (in_dec string_dec k (map fst (groupBy key xs)))
        as [Hin|Hnin]; [exact Hin|].
      apply obj_get_None_keys in Hnin. congruence.
    + exfalso. rewrite groupBy_get in E.
      assert (Hin : In x (List.filter (keyIs key k) xs)).
      { apply filter_In. split; [exact Hx|].
        unfold keyIs. apply String.eqb_eq. exact Ek. }
      destruct (List.filter (keyIs key k) xs); [destruct Hin | discriminate].
Qed.

(** X7.  The pivot orders every device chronologically.  When the
    [Time] of every row is a valid date and no measure is named like
    one of the three properties a point starts with, the time series of
    each device, and with it the cycle summaries and the real-time
    data, is sorted by ascending timestamp. *)
Theorem pivot_chronological `{Host} (rows : list MeasurementPoint)
    (id : string) (ds : DeviceDataset) :
  (forall r, In r rows -> valid (Date_parse (Time r)) = true) ->
  (forall r, In r rows -> ~ In (measure_name r) pointKeys) ->
  obj_get (pivotLongToWide rows) id = Some ds ->
  StronglySorted chronological (timeSeries ds) /\
  StronglySorted chronological (cycleSummaries ds) /\
  StronglySorted chronological (realTimeData ds).
Proof.
  intros Hvalid _ Hds. rewrite pivot_get in Hds.
  destruct (String.eqb id protoName); [discriminate|].
  destruct (nonempty (rowsOf id rows)) as [deviceRows|] eqn:E;
    [|discriminate].
  injection Hds as <-.
  assert (Hrows : forall r, In r deviceRows -> In r rows).
  { intros r Hr. unfold nonempty in E.
    destruct (rowsOf id rows) eqn:Er; [discriminate|].
    injection E as <-. rewrite <- Er in Hr. unfold rowsOf in Hr.
    apply filter_In in Hr as [Hr _]. exact Hr. }
  assert (Hts : StronglySorted chronological
                  (timeSeries (makeDevice id deviceRows))).
  { unfold makeDevice. simpl. apply sortBy_chronological.
    intros p Hp. apply in_map_iff in Hp as [[t measures] [<- Hp]]. simpl.
    assert (Ht : In t (map fst (groupBy Time deviceRows)))
      by (apply in_map_iff; exists (t, measures); split;
          [reflexivity | exact Hp]).
    apply groupBy_keys in Ht as [r [Hr <-]].
    apply Hvalid, Hrows. exact Hr. }
  split; [exact Hts|].
  split; apply StronglySorted_filter; exact Hts.
Qed.

(** Three rows of one device, given out of order. *)
Lemma pivot_chronological_witness :
  let rows :=
    [{| Time := "2024-01-01T02:00:00Z"; deviceId := "B1";
        measure_name := "cycle.durationS"; measure_value := 12 |};
     {| Time := "2024-01-01T00:00:00Z"; deviceId := "B1";
        measure_name := "DI1_KM"; measure_value := 1 |};
     {| Time := "2024-01-01T01:00:00Z"; deviceId := "B1";
        measure_name := "cycle.durationS"; measure_value := 10 |}]%string in
  exists ds,
    obj_get (@pivotLongToWide refHost rows) "B1" = Some ds /\
    map timestamp (timeSeries ds)
    = [Some 1704067200000; Some 1704070800000; Some 1704074400000] /\
    StronglySorted chronological (timeSeries ds).
Proof.
  intros rows.
  destruct (obj_get (@pivotLongToWide refHost rows) "B1") as [ds|] eqn:E;
    [|vm_compute in E; discriminate].
  exists ds. split; [reflexivity|].
  split; [vm_compute in E; injection E as <-; vm_compute; reflexivity|].
  assert (Hvalid : forall r, In r rows ->
            valid (@Date_parse refHost (Time r)) = true)
    by (intros r [<-|[<-|[<-|[]]]]; vm_compute; reflexivity).
  assert (Hnames : forall r, In r rows -> ~ In (measure_name r) pointKeys).
  { intros r [<-|[<-|[<-|[]]]]; simpl;
      intros [E'|[E'|[E'|[]]]]; discriminate E'. }
  exact (proj1 (@pivot_chronological refHost rows "B1" ds Hvalid Hnames E)).
Defined.

(** X8.  The device list of the long-shape dashboards is the set of
    device ids of the rows, but for a device called [__proto__], which
    gets no entry: the pivot has one entry per other distinct
    [deviceId], no key is repeated, and the dataset stored under a key
    carries that key as its [deviceId] and is non-empty. *)
Theorem pivot_devices `{Host} (rows : list MeasurementPoint) :
  NoDup (map fst (pivotLongToWide rows)) /\
  (forall id, In id (map fst (pivotLongToWide rows)) <->
              id <> protoName /\ exists r, In r rows /\ deviceId r = id) /\
  (forall id ds, obj_get (pivotLongToWide rows) id = Some ds ->
                 dsDeviceId ds = id /\ timeSeries ds <> []).
Proof.
  split; [|split].
  - apply pivot_NoDup.
  - intros id.
    assert (Hiff : In id (map fst (pivotLongToWide rows)) <->
                   id <> protoName /\ rowsOf id rows <> []).
    { pose proof (pivot_get rows id) as Hg.
      pose proof (obj_get_None_keys (pivotLongToWide rows) id) as Hk.
      destruct (String.eqb_spec id protoName) as [Ep|Hne].
      - split; [intros Hin; apply Hk in Hg; contradiction | tauto].
      - destruct (rowsOf id rows) as [|x xs]; simpl in Hg.
        + split; [intros Hin; apply Hk in Hg; contradiction | tauto].
        + split; [intros _; split; [exact Hne | discriminate]|].
          intros _.
          destruct (in_dec string_dec id (map fst (pivotLongToWide rows)))
            as [Hin|Hnin]; [exact Hin|].
          apply Hk in Hnin. congruence. }
    rewrite Hiff. unfold rowsOf.
    assert (Hrows : List.filter (keyIs deviceId id) rows <> [] <->
                    exists r, In r rows /\ deviceId r = id).
    { split.
      - intros Hne.
        destruct (List.filter (keyIs deviceId id) rows) as [|r l] eqn:E;
          [congruence|].
        assert (Hr : In r (List.filter (keyIs deviceId id) rows))
          by (rewrite E; left; reflexivity).
        apply filter_In in Hr as [Hr Hk]. exists r.
        split; [exact Hr | apply String.eqb_eq; exact Hk].
      - intros [r [Hr Ek]] E.
        assert (Hin : In r (List.filter (keyIs deviceId id) rows)).
        { apply filter_In. split; [exact Hr|].
          unfold keyIs. apply String.eqb_eq. exact Ek. }
        rewrite E in Hin. exact Hin. }
    rewrite Hrows. reflexivity.
  - intros id ds Hds. rewrite pivot_get in Hds.
    destruct (String.eqb id protoName); [discriminate|].
    destruct (rowsOf id rows) as [|x xs] eqn:E; [discriminate|].
    simpl in Hds. injection Hds as <-. split; [reflexivity|].
    intros Hnil.
    pose proof (timeSeries_perm id (x :: xs)) as Hp.
    rewrite Hnil in Hp. apply Permutation_nil in Hp.
    apply map_eq_nil in Hp.
    assert (Hk : In (Time x) (map fst (groupBy Time (x :: xs))))
      by (apply groupBy_keys; exists x; split; [left|]; reflexivity).
    rewrite Hp in Hk. exact Hk.
Qed.

(** ** Rounding *)

Lemma Qfloor_nonneg (q : Q) : (0 <= q)%Q -> 0 <= Qfloor q.
Proof.
  intros Hq. change 0 with (Qfloor 0). apply Qfloor_resp_le. exact Hq.
Qed.

Lemma round_half_away_mono (x y : Q) :
  (x <= y)%Q -> round_half_away x <= round_half_away y.
Proof.
  intros Hxy. unfold round_half_away.
  destruct (Qle_bool 0 x) eqn:Ex, (Qle_bool 0 y) eqn:Ey.
  - apply Qfloor_resp_le. lra.
  - apply Qle_bool_iff in Ex.
    assert (Hn : ~ (0 <= y)%Q) by (rewrite <- Qle_bool_iff; congruence).
    lra.
  - assert (Hn : ~ (0 <= x)%Q) by (rewrite <- Qle_bool_iff; congruence).
    apply Qle_bool_iff in Ey.
    assert (H1 : 0 <= Qfloor (- x + (1 # 2)))
      by (apply Qfloor_nonneg; lra).
    assert (H2 : 0 <= Qfloor (y + (1 # 2)))
      by (apply Qfloor_nonneg; lra).
    lia.
  - assert (Hle : Qfloor (- y + (1 # 2)) <= Qfloor (- x + (1 # 2)))
      by (apply Qfloor_resp_le; lra).
    lia.
Qed.

Lemma pow10_pos (d : nat) : (0 < inject_Z (10 ^ Z.of_nat d))%Q.
Proof.
  change 0%Q with (inject_Z 0). rewrite <- Zlt_Qlt.
  apply Z.pow_pos_nonneg; lia.
Qed.

(** [toFixed] is monotone. *)
Lemma toFixed_mono (d : nat) (x y : Q) :
  (x <= y)%Q -> (toFixed d x <= toFixed d y)%Q.
Proof.
  intros Hxy. unfold toFixed. rewrite !Qred_correct.
  pose proof (pow10_pos d) as Hp.
  set (p := inject_Z (10 ^ Z.of_nat d)) in *.
  apply Qmult_le_compat_r.
  - rewrite <- Zle_Qle. apply round_half_away_mono.
    apply Qmult_le_compat_r; [exact Hxy | lra].
  - apply Qlt_le_weak, Qinv_lt_0_compat. exact Hp.
Qed.

(** ** Counting *)

Lemma count_imap {A B : Type} (f : B -> bool) (h : A -> bool)
    (g : nat -> A -> B) (l : list A) :
  (forall i x, f (g i x) = h x) ->
  count f (imap g l) = count h l.
Proof.
  revert g. induction l as [|x l IH]; intros g Hg; [reflexivity|].
  unfold count in *. simpl. rewrite Hg.
  specialize (IH (g ∘ S) (fun i y => Hg (S i) y)).
  destruct (h x); simpl; rewrite IH; reflexivity.
Qed.

Lemma count_le_length {A : Type} (f : A -> bool) (l : list A) :
  (count f l <= length l)%nat.
Proof. unfold count. apply List.filter_length_le. Qed.

(** Three disjoint classes that cover a fourth. *)
Lemma count_split3 {A : Type} (f a b c : A -> bool) (l : list A) :
  (forall x, f x = a x || b x || c x) ->
  (forall x, a x && b x = false) ->
  (forall x, a x && c x = false) ->
  (forall x, b x && c x = false) ->
  count f l = (count a l + count b l + count c l)%nat.
Proof.
  intros Hf Hab Hac Hbc. unfold count.
  induction l as [|x l IH]; [reflexivity|]. simpl.
  specialize (Hf x). specialize (Hab x). specialize (Hac x).
  specialize (Hbc x).
  destruct (f x), (a x), (b x), (c x); simpl in *; try discriminate;
    rewrite IH; lia.
Qed.

Lemma slice_last_length {A : Type} (n : nat) (l : list A) :
  length (slice_last n l) = Nat.min n (length l).
Proof. unfold slice_last. rewrite length_skipn. lia. Qed.

Lemma Qfloor_ofnat (n : nat) : Z.to_nat (Qfloor (ofnat n)) = n.
Proof. unfold ofnat. rewrite Qfloor_Z. lia. Qed.

(** ** Anomalies and voltage sags *)

Section LongMetrics.
Context `{Host}.

Lemma anomalyScore_le (thresholds : AlertThresholds) (c : TimeSeriesPoint) :
  (TimeSeriesMetrics.anomalyScore thresholds c <= 5)%nat.
Proof.
  unfold TimeSeriesMetrics.anomalyScore.
  etransitivity; [apply count_le_length | reflexivity].
Qed.

Lemma scoreOf_entry (thresholds : AlertThresholds) (idx : nat)
    (c : TimeSeriesPoint) :
  TimeSeriesMetrics.scoreOf (TimeSeriesMetrics.anomalyEntry thresholds idx c)
  = TimeSeriesMetrics.anomalyScore thresholds c.
Proof.
  unfold TimeSeriesMetrics.scoreOf, TimeSeriesMetrics.anomalyEntry.
  cbv zeta. change (prop (JObj ?fs) "score") with
    (JNat (TimeSeriesMetrics.anomalyScore thresholds c)).
  simpl vnum. apply Qfloor_ofnat.
Qed.

Lemma isAnomaly_entry (thresholds : AlertThresholds) (idx : nat)
    (c : TimeSeriesPoint) :
  TimeSeriesMetrics.isAnomaly (TimeSeriesMetrics.anomalyEntry thresholds idx c)
  = (2 <=? TimeSeriesMetrics.anomalyScore thresholds c)%nat.
Proof. reflexivity. Qed.
End LongMetrics.

Lemma count_ext {A : Type} (f g : A -> bool) (l : list A) :
  (forall x, f x = g x) -> count f l = count g l.
Proof. intros E. unfold count. rewrite (filter_ext_all f g l E). reflexivity. Qed.

Lemma count_filter {A : Type} (f g : A -> bool) (l : list A) :
  count f (List.filter g l) = count (fun x => g x && f x) l.
Proof. unfold count. rewrite filter_filter_and. reflexivity. Qed.

Lemma gtQ_spec (a b : Q) : reflect (b < a)%Q (gtQ a b).
Proof.
  unfold gtQ. destruct (Qle_bool a b) eqn:E; constructor.
  - apply Qle_bool_iff in E. lra.
  - assert (Hn : ~ (a <= b)%Q) by (rewrite <- Qle_bool_iff; congruence).
    lra.
Qed.

(** X9.  In [calculateAnomalies] of the long-shape dashboard the count
    of anomalies is the sum of the three severity counts (a cycle is an
    anomaly when at least two of its five checks fail, critical with
    four or five, high with three, medium with two); there is one entry
    per cycle, and [recentAnomalies] holds the last ten anomalies at
    most. *)
Theorem anomaly_count_by_severity (cycles : list TimeSeriesPoint)
    (thresholds : AlertThresholds) :
  cycles <> [] ->
  let result := TimeSeriesMetrics.calculateAnomalies cycles thresholds in
  let severity := prop result "severity" in
  exists count critical high medium : nat,
    prop result "count" = JNat count /\
    prop severity "critical" = JNat critical /\
    prop severity "high" = JNat high /\
    prop severity "medium" = JNat medium /\
    count = (critical + high + medium)%nat /\
    (count <= length cycles)%nat /\
    length (elements (prop result "anomalies")) = length cycles /\
    length (elements (prop result "recentAnomalies")) = Nat.min 10 count.
Proof.
  intros Hne. destruct cycles as [|c0 cs]; [congruence|]. clear Hne.
  set (cycles := c0 :: cs).
  unfold TimeSeriesMetrics.calculateAnomalies. fold cycles. cbv zeta.
  set (anomalies := imap (TimeSeriesMetrics.anomalyEntry thresholds) cycles).
  set (score := TimeSeriesMetrics.anomalyScore thresholds).
  assert (E2 : count TimeSeriesMetrics.isAnomaly anomalies
               = count (fun c => (2 <=? score c)%nat) cycles)
    by (apply count_imap; intros i x; apply isAnomaly_entry).
  assert (Ec : count (fun a => (4 <=? TimeSeriesMetrics.scoreOf a)%nat)
                 anomalies
               = count (fun c => (4 <=? score c)%nat) cycles)
    by (apply count_imap; intros i x; rewrite scoreOf_entry; reflexivity).
  assert (Eh : count (fun a => (TimeSeriesMetrics.scoreOf a =? 3)%nat)
                 anomalies
               = count (fun c => (score c =? 3)%nat) cycles)
    by (apply count_imap; intros i x; rewrite scoreOf_entry; reflexivity).
  assert (Em : count (fun a => (TimeSeriesMetrics.scoreOf a =? 2)%nat)
                 anomalies
               = count (fun c => (score c =? 2)%nat) cycles)
    by (apply count_imap; intros i x; rewrite scoreOf_entry; reflexivity).
  do 4 eexists.
  split; [reflexivity|]. split; [reflexivity|].
  split; [reflexivity|]. split; [reflexivity|].
  split; [|split; [|split]].
  - rewrite E2, Ec, Eh, Em. apply count_split3; intros x.
    + destruct (Nat.leb_spec 2 (score x)), (Nat.leb_spec 4 (score x)),
        (Nat.eqb_spec (score x) 3), (Nat.eqb_spec (score x) 2);
        simpl; try reflexivity; lia.
    + destruct (Nat.leb_spec 4 (score x)), (Nat.eqb_spec (score x) 3);
        simpl; try reflexivity; lia.
    + destruct (Nat.leb_spec 4 (score x)), (Nat.eqb_spec (score x) 2);
        simpl; try reflexivity; lia.
    + destruct (Nat.eqb_spec (score x) 3), (Nat.eqb_spec (score x) 2);
        simpl; try reflexivity; lia.
  - rewrite E2. apply count_le_length.
  - change (length anomalies = length cycles). unfold anomalies.
    apply length_imap.
  - change (length (slice_last 10
                      (List.filter TimeSeriesMetrics.isAnomaly anomalies))
            = Nat.min 10 (count TimeSeriesMetrics.isAnomaly anomalies)).
    apply slice_last_length.
Qed.

(** Three cycles: one failing four checks, one failing two, one
    failing none. *)
Lemma anomaly_count_by_severity_witness :
  let bad (t : Z) (inrush sag unbalance overall : Q) :=
    {| time := Some t; timeStr := ""; timestamp := Some t;
       fields := {[ "inrush.multiple"%string := inrush;
                    "voltageSag.sagDepthPct"%string := sag;
                    "workCurrent.unbalancePct"%string := unbalance;
                    "cycle.overall"%string := overall ]} |} in
  let cycles := [bad 0 9%Q 61%Q 16%Q 1%Q; bad 1000 9%Q 0%Q 0%Q 1%Q;
                 bad 2000 1%Q 0%Q 0%Q 0%Q] in
  let result :=
    TimeSeriesMetrics.calculateAnomalies cycles defaultThresholds in
  prop result "count" = JNat 2 /\
  prop (prop result "severity") "critical" = JNat 1 /\
  prop (prop result "severity") "medium" = JNat 1 /\
  exists count critical high medium : nat,
    prop result "count" = JNat count /\
    prop (prop result "severity") "critical" = JNat critical /\
    prop (prop result "severity") "high" = JNat high /\
    prop (prop result "severity") "medium" = JNat medium /\
    count = (critical + high + medium)%nat /\
    (count <= length cycles)%nat /\
    length (elements (prop result "anomalies")) = length cycles /\
    length (elements (prop result "recentAnomalies")) = Nat.min 10 count.
Proof.
  intros bad cycles result.
  split; [vm_compute; reflexivity|].
  split; [vm_compute; reflexivity|].
  split; [vm_compute; reflexivity|].
  assert (Hne : cycles <> []) by discriminate.
  exact (anomaly_count_by_severity cycles defaultThresholds Hne).
Defined.

(** X10.  In [calculateVoltageSagAnalysis] the severity counts
    classify every cycle with a positive sag depth: critical above 60
    percent, high above 40 up to 60, medium up to 40; they are counted
    over all such cycles, while the returned list holds the last thirty
    of them at most. *)
Theorem sag_severity_counts (cycles : list TimeSeriesPoint) :
  cycles <> [] ->
  let depth c := field0 c "voltageSag.sagDepthPct" in
  let result := TimeSeriesMetrics.calculateVoltageSagAnalysis cycles in
  let severity := prop result "severity" in
  prop severity "critical" = JNat (count (fun c => gtQ (depth c) 60) cycles) /\
  prop severity "high"
  = JNat (count (fun c => gtQ (depth c) 40 && negb (gtQ (depth c) 60))
            cycles) /\
  prop severity "medium"
  = JNat (count (fun c => gtQ (depth c) 0 && negb (gtQ (depth c) 40))
            cycles) /\
  length (elements (prop result "sags"))
  = Nat.min 30 (count (fun c => gtQ (depth c) 0) cycles).
Proof.
  intros Hne. destruct cycles as [|c0 cs]; [congruence|]. clear Hne.
  set (cycles := c0 :: cs). cbv zeta.
  unfold TimeSeriesMetrics.calculateVoltageSagAnalysis. fold cycles.
  cbv zeta.
  set (hit := List.filter
                (fun c => gtQ (field0 c "voltageSag.sagDepthPct") 0) cycles).
  match goal with
  | |- context [imap ?g hit] => set (entry := g)
  end.
  assert (Hsev : forall sev idx c,
            TimeSeriesMetrics.hasSeverity sev (entry idx c)
            = String.eqb (TimeSeriesMetrics.sagSeverity c) sev)
    by reflexivity.
  assert (Hcount : forall sev,
            count (TimeSeriesMetrics.hasSeverity sev) (imap entry hit)
            = count (fun c => gtQ (field0 c "voltageSag.sagDepthPct") 0
                              && String.eqb (TimeSeriesMetrics.sagSeverity c)
                                   sev) cycles).
  { intros sev.
    rewrite (count_imap _ (fun c => String.eqb
                                      (TimeSeriesMetrics.sagSeverity c) sev))
      by (intros i x; apply Hsev).
    unfold hit. apply count_filter. }
  assert (Hclass : forall c : TimeSeriesPoint,
            let d := field0 c "voltageSag.sagDepthPct" in
            (gtQ d 0 && String.eqb (TimeSeriesMetrics.sagSeverity c) "critical"
             = gtQ d 60) /\
            (gtQ d 0 && String.eqb (TimeSeriesMetrics.sagSeverity c) "high"
             = gtQ d 40 && negb (gtQ d 60)) /\
            (gtQ d 0 && String.eqb (TimeSeriesMetrics.sagSeverity c) "medium"
             = gtQ d 0 && negb (gtQ d 40))).
  { intros c d. unfold TimeSeriesMetrics.sagSeverity. fold d.
    destruct (gtQ_spec d 0), (gtQ_spec d 40), (gtQ_spec d 60);
      simpl; repeat split; try reflexivity; lra. }
  split; [|split; [|split]].
  - change (JNat (count (TimeSeriesMetrics.hasSeverity "critical")
                    (imap entry hit)) = JNat
              (count (fun c => gtQ (field0 c "voltageSag.sagDepthPct") 60)
                 cycles)).
    rewrite Hcount. f_equal. apply count_ext. intros c. apply Hclass.
  - change (JNat (count (TimeSeriesMetrics.hasSeverity "high")
                    (imap entry hit)) = JNat
              (count (fun c => gtQ (field0 c "voltageSag.sagDepthPct") 40
                               && negb (gtQ (field0 c "voltageSag.sagDepthPct")
                                          60)) cycles)).
    rewrite Hcount. f_equal. apply count_ext. intros c. apply Hclass.
  - change (JNat (count (TimeSeriesMetrics.hasSeverity "medium")
                    (imap entry hit)) = JNat
              (count (fun c => gtQ (field0 c "voltageSag.sagDepthPct") 0
                               && negb (gtQ (field0 c "voltageSag.sagDepthPct")
                                          40)) cycles)).
    rewrite Hcount. f_equal. apply count_ext. intros c. apply Hclass.
  - change (length (slice_last 30 (imap entry hit))
            = Nat.min 30
                (count (fun c => gtQ (field0 c "voltageSag.sagDepthPct") 0)
                   cycles)).
    rewrite slice_last_length, length_imap. reflexivity.
Qed.

(** Sag depths of 70, 50, 10 and 0 percent. *)
Lemma sag_severity_counts_witness :
  let sag (t : Z) (depth : Q) :=
    {| time := Some t; timeStr := ""; timestamp := Some t;
       fields := {[ "voltageSag.sagDepthPct"%string := depth ]} |} in
  let cycles := [sag 0 70%Q; sag 1000 50%Q; sag 2000 10%Q; sag 3000 0%Q] in
  let result := TimeSeriesMetrics.calculateVoltageSagAnalysis cycles in
  prop (prop result "severity") "critical" = JNat 1 /\
  prop (prop result "severity") "high" = JNat 1 /\
  prop (prop result "severity") "medium" = JNat 1 /\
  length (elements (prop result "sags")) = 3%nat.
Proof.
  intros sag cycles result.
  assert (Hne : cycles <> []) by discriminate.
  pose proof (sag_severity_counts cycles Hne) as Hs.
  cbv zeta in Hs. destruct Hs as [Hc [Hh [Hm Hl]]]. unfold result.
  split; [rewrite Hc; vm_compute; reflexivity|].
  split; [rewrite Hh; vm_compute; reflexivity|].
  split; [rewrite Hm; vm_compute; reflexivity|].
  rewrite Hl. vm_compute. reflexivity.
Defined.

(** ** Bounds of the long-shape metrics *)

Lemma toFixed_nonneg (d : nat) (x : Q) : (0 <= x)%Q -> (0 <= toFixed d x)%Q.
Proof.
  intros Hx.
  apply (toFixed_bounds d x (Qceiling x) Hx (Qle_ceiling x)).
Qed.

Lemma ofnat_nonneg (n : nat) : (0 <= ofnat n)%Q.
Proof.
  unfold ofnat. change 0%Q with (inject_Z 0). rewrite <- Zle_Qle. lia.
Qed.

Lemma ofnat_le (n m : nat) : (n <= m)%nat -> (ofnat n <= ofnat m)%Q.
Proof. intros Hnm. unfold ofnat. rewrite <- Zle_Qle. lia. Qed.

Lemma ofnat_pos (n : nat) : (0 < n)%nat -> (0 < ofnat n)%Q.
Proof.
  intros Hn. unfold ofnat. change 0%Q with (inject_Z 0).
  rewrite <- Zlt_Qlt. lia.
Qed.

(** A share of a positive whole, in percent. *)
Lemma percent_bounds (a t : Q) :
  (0 <= a)%Q -> (a <= t)%Q -> (0 < t)%Q ->
  (0 <= a / t * 100)%Q /\ (a / t * 100 <= 100)%Q.
Proof.
  intros Ha Hat Ht.
  assert (H0 : (0 <= a / t)%Q) by (apply Qle_shift_div_l; lra).
  assert (H1 : (a / t <= 1)%Q) by (apply Qle_shift_div_r; lra).
  split; lra.
Qed.

(** X11.  [calculateIdleActiveAnalysis] on a non-empty list of readings
    returns numbers that are consistent with each other: the active
    share lies between 0 and 100 percent, and the active and the idle
    hours lie between zero and the total hours. *)
Theorem idle_active_bounds (realTimeData : list TimeSeriesPoint) :
  realTimeData <> [] ->
  let result :=
    TimeSeriesMetrics.calculateIdleActiveAnalysis realTimeData in
  exists activeHours idleHours totalHours activePercent : Q,
    prop result "activeHours" = JQ activeHours /\
    prop result "idleHours" = JQ idleHours /\
    prop result "totalHours" = JQ totalHours /\
    prop result "activePercent" = JQ activePercent /\
    (0 <= activeHours)%Q /\ (activeHours <= totalHours)%Q /\
    (0 <= idleHours)%Q /\ (idleHours <= totalHours)%Q /\
    (0 <= activePercent)%Q /\ (activePercent <= 100)%Q.
Proof.
  intros Hne. destruct realTimeData as [|r0 rs]; [congruence|]. clear Hne.
  set (data := r0 :: rs). cbv zeta.
  unfold TimeSeriesMetrics.calculateIdleActiveAnalysis. fold data.
  cbv zeta.
  set (a := ofnat (count (fun r => is1 r "DI1_KM") data)).
  set (t := ofnat (length data)).
  assert (Ha : (0 <= a)%Q) by apply ofnat_nonneg.
  assert (Hat : (a <= t)%Q) by (apply ofnat_le, count_le_length).
  assert (Ht : (0 < t)%Q) by (apply ofnat_pos; simpl; lia).
  replace (0 <? length data)%nat with true by reflexivity.
  assert (Hc : (0 < 25 / 3600)%Q) by reflexivity.
  set (c := (25 / 3600)%Q) in *.
  do 4 eexists.
  split; [reflexivity|]. split; [reflexivity|].
  split; [reflexivity|]. split; [reflexivity|].
  repeat split.
  - apply toFixed_nonneg. nra.
  - apply toFixed_mono. nra.
  - apply toFixed_nonneg. nra.
  - apply toFixed_mono. nra.
  - apply (toFixed_bounds 1 (a / t * 100) 100);
      apply percent_bounds; assumption.
  - apply (toFixed_bounds 1 (a / t * 100) 100);
      apply percent_bounds; assumption.
Qed.

(** Four readings, the contactor on in one of them. *)
Lemma idle_active_bounds_witness :
  let data := [sampleAt 0 1; sampleAt 25000 0; sampleAt 50000 0;
               sampleAt 75000 0] in
  let result := TimeSeriesMetrics.calculateIdleActiveAnalysis data in
  prop result "activePercent" = JQ 25 /\
  exists activeHours idleHours totalHours activePercent : Q,
    prop result "activeHours" = JQ activeHours /\
    prop result "idleHours" = JQ idleHours /\
    prop result "totalHours" = JQ totalHours /\
    prop result "activePercent" = JQ activePercent /\
    (0 <= activeHours)%Q /\ (activeHours <= totalHours)%Q /\
    (0 <= idleHours)%Q /\ (idleHours <= totalHours)%Q /\
    (0 <= activePercent)%Q /\ (activePercent <= 100)%Q.
Proof.
  intros data result. split; [vm_compute; reflexivity|].
  assert (Hne : data <> []) by discriminate.
  exact (idle_active_bounds data Hne).
Defined.

(** ** The intensities of the long-shape heatmap *)

Lemma fold_Qmax_ge (l : list Q) (a : Q) :
  (a <= fold_left Qmax l a)%Q /\
  forall x, In x l -> (x <= fold_left Qmax l a)%Q.
Proof.
  revert a. induction l as [|y l IH]; intros a; simpl.
  - split; [lra | intros x []].
  - destruct (IH (Qmax a y)) as [Hacc Hall].
    assert (Hm : (a <= Qmax a y)%Q /\ (y <= Qmax a y)%Q).
    { unfold Qmax. destruct (Qle_bool a y) eqn:E.
      - apply Qle_bool_iff in E. split; lra.
      - assert (Hn : ~ (a <= y)%Q) by (rewrite <- Qle_bool_iff; congruence).
        split; lra. }
    split; [lra|]. intros x [<-|Hx]; [lra | apply Hall; exact Hx].
Qed.

Lemma mapValues_In {V : Type} (m : gmap string V) (k : string) (v : V) :
  m !! k = Some v -> In v (mapValues m).
Proof.
  intros E. unfold mapValues. apply in_map_iff. exists (k, v).
  split; [reflexivity|]. apply list_elem_of_In, elem_of_map_to_list.
  exact E.
Qed.

Lemma emptyGrid_Forall {V : Type} (P : V -> Prop) (zero : V) :
  P zero -> map_Forall (fun _ v => P v) (emptyGrid zero).
Proof.
  intros Hz. unfold emptyGrid.
  assert (Hgen : forall cells (m : gmap string V),
            map_Forall (fun _ v => P v) m ->
            map_Forall (fun _ v => P v)
              (fold_left (fun heatmap '(d, h) => <[cellKey d h := zero]> heatmap)
                 cells m)).
  { induction cells as [|[d h] cells IH]; intros m Hm; [exact Hm|].
    simpl. apply IH. apply map_Forall_insert_2; assumption. }
  apply Hgen. apply map_Forall_empty.
Qed.

Lemma countActive_nonneg `{Host} (realTimeData : list TimeSeriesPoint) :
  map_Forall (fun _ v => (0 <= v)%Q)
    (TimeSeriesMetrics.countActive realTimeData).
Proof.
  unfold TimeSeriesMetrics.countActive.
  assert (Hgen : forall (rs : list TimeSeriesPoint) (m : gmap string Q),
            map_Forall (fun _ v => (0 <= v)%Q) m ->
            map_Forall (fun _ v => (0 <= v)%Q)
              (fold_left TimeSeriesMetrics.countStep rs m)).
  { induction rs as [|r rs IH]; intros m Hm; [exact Hm|].
    simpl. apply IH. unfold TimeSeriesMetrics.countStep.
    destruct (is1 r "DI1_KM"); [|exact Hm].
    apply map_Forall_insert_2; [|exact Hm].
    destruct (m !! TimeSeriesMetrics.recordKey r) as [v|] eqn:E; simpl.
    - specialize (Hm _ _ E). simpl in Hm. lra.
    - lra. }
  apply Hgen. apply (emptyGrid_Forall (fun v => (0 <= v)%Q)). lra.
Qed.

(** X12.  The heatmap of the long-shape dashboard always has its 168
    cells, and in each of them the count is not negative and the
    intensity lies between 0 and 100. *)
Theorem long_heatmap_intensity `{Host} (realTimeData : list TimeSeriesPoint) :
  realTimeData <> [] ->
  let cells :=
    elements
      (prop (TimeSeriesMetrics.calculateUtilizationHeatmap realTimeData)
         "data") in
  length cells = 168%nat /\
  Forall (fun c => exists v i : Q,
            prop c "value" = JQ v /\ prop c "intensity" = JQ i /\
            (0 <= v)%Q /\ (0 <= i)%Q /\ (i <= 100)%Q) cells.
Proof.
  intros Hne. destruct realTimeData as [|r0 rs]; [congruence|]. clear Hne.
  cbv zeta. unfold TimeSeriesMetrics.calculateUtilizationHeatmap.
  cbv zeta. set (data := r0 :: rs).
  set (m := TimeSeriesMetrics.countActive data).
  set (mx := fold_left Qmax (mapValues m) 1%Q).
  change (prop (JObj _) "data")
    with (JArr (map (TimeSeriesMetrics.heatCell m mx) gridCells)).
  unfold elements. split; [rewrite length_map; reflexivity|].
  apply List.Forall_forall. intros c Hc.
  apply in_map_iff in Hc as [[d h] [<- _]].
  unfold TimeSeriesMetrics.heatCell.
  set (v := default 0%Q (m !! cellKey d h)).
  exists v, (v / mx * 100)%Q.
  split; [reflexivity|]. split; [reflexivity|].
  destruct (fold_Qmax_ge (mapValues m) 1) as [H1 Hall]. fold mx in H1, Hall.
  assert (Hv : (0 <= v)%Q /\ (v <= mx)%Q).
  { unfold v. destruct (m !! cellKey d h) as [x|] eqn:E; simpl.
    - split; [exact (countActive_nonneg data _ _ E)|].
      apply Hall. apply (mapValues_In m (cellKey d h)). exact E.
    - split; lra. }
  destruct Hv as [Hv0 Hvm].
  split; [exact Hv0|]. apply percent_bounds; lra.
Qed.

(** Two active readings in the same hour and an idle one. *)
Lemma long_heatmap_intensity_witness :
  let data := [sampleAt 0 1; sampleAt 25000 1; sampleAt 7200000 0] in
  let cells :=
    elements
      (prop (@TimeSeriesMetrics.calculateUtilizationHeatmap refHost data)
         "data") in
  length cells = 168%nat /\
  Forall (fun c => exists v i : Q,
            prop c "value" = JQ v /\ prop c "intensity" = JQ i /\
            (0 <= v)%Q /\ (0 <= i)%Q /\ (i <= 100)%Q) cells.
Proof.
  intros data.
  assert (Hne : data <> []) by discriminate.
  exact (@long_heatmap_intensity refHost data Hne).
Defined.

(** ** Remaining useful life *)

(** X13.  For a positive lifetime threshold, [calculateLifetimeMetrics]
    on a non-empty list of cycles returns a remaining useful life
    between 0 and 100 percent and a number of remaining cycles between
    zero and the threshold, which is zero exactly when the number of
    cycles has reached the threshold. *)
Theorem lifetime_rul_bounds (allCycles : list TimeSeriesPoint)
    (thresholds : AlertThresholds) :
  allCycles <> [] ->
  (0 < lifetimeCycleThreshold thresholds)%Q ->
  let result :=
    TimeSeriesMetrics.calculateLifetimeMetrics allCycles thresholds in
  exists rul remainingCycles : Q,
    prop result "rul" = JQ rul /\
    prop result "remainingCycles" = JQ remainingCycles /\
    (0 <= rul)%Q /\ (rul <= 100)%Q /\
    (0 <= remainingCycles)%Q /\
    (remainingCycles <= lifetimeCycleThreshold thresholds)%Q /\
    ((remainingCycles == 0)%Q <->
     (lifetimeCycleThreshold thresholds <= ofnat (length allCycles))%Q).
Proof.
  intros Hne HT. destruct allCycles as [|c0 cs]; [congruence|]. clear Hne.
  set (cycles := c0 :: cs). cbv zeta.
  unfold TimeSeriesMetrics.calculateLifetimeMetrics. fold cycles.
  cbv zeta.
  set (T := lifetimeCycleThreshold thresholds) in *.
  set (n := ofnat (length cycles)).
  assert (Hn : (0 <= n)%Q) by apply ofnat_nonneg.
  set (r := Qmax 0 (T - n)).
  assert (Hr : (0 <= r)%Q /\ (r <= T)%Q /\ ((r == 0)%Q <-> (T <= n)%Q)).
  { unfold r, Qmax. destruct (Qle_bool 0 (T - n)) eqn:E.
    - apply Qle_bool_iff in E. repeat split; try lra.
    - assert (Hlt : ~ (0 <= T - n)%Q)
        by (rewrite <- Qle_bool_iff; congruence).
      repeat split; try lra. }
  destruct Hr as [Hr0 [HrT Hiff]].
  assert (Ediv : ndiv (Some r) (Some T) = Some (r / T)%Q).
  { unfold ndiv. destruct (Qeq_bool T 0) eqn:E; [|reflexivity].
    apply Qeq_bool_iff in E. lra. }
  exists (toFixed 1 (r / T * 100)), r.
  split.
  { change (prop (JObj _) "rul")
      with (nrounded 1 (nmul (ndiv (Some r) (Some T)) (Some 100%Q))).
    rewrite Ediv. reflexivity. }
  split; [reflexivity|].
  destruct (percent_bounds r T Hr0 HrT HT) as [Hp0 Hp1].
  destruct (toFixed_bounds 1 (r / T * 100) 100 Hp0 Hp1) as [Hf0 Hf1].
  repeat split; try assumption; apply Hiff.
Qed.

(** Three cycles against the default threshold of 50000. *)
Lemma lifetime_rul_bounds_witness :
  let cycles := [cycleAt 0 20; cycleAt 60000 22; cycleAt 120000 21] in
  let result :=
    TimeSeriesMetrics.calculateLifetimeMetrics cycles defaultThresholds in
  prop result "remainingCycles" = JQ 49997 /\
  exists rul remainingCycles : Q,
    prop result "rul" = JQ rul /\
    prop result "remainingCycles" = JQ remainingCycles /\
    (0 <= rul)%Q /\ (rul <= 100)%Q /\
    (0 <= remainingCycles)%Q /\
    (remainingCycles <= lifetimeCycleThreshold defaultThresholds)%Q /\
    ((remainingCycles == 0)%Q <->
     (lifetimeCycleThreshold defaultThresholds <= ofnat (length cycles))%Q).
Proof.
  intros cycles result. split; [vm_compute; reflexivity|].
  assert (Hne : cycles <> []) by discriminate.
  assert (HT : (0 < lifetimeCycleThreshold defaultThresholds)%Q)
    by reflexivity.
  exact (lifetime_rul_bounds cycles defaultThresholds Hne HT).
Defined.

(** ** The histogram of cycle durations *)

Lemma ltQ_spec (a b : Q) : reflect (a < b)%Q (ltQ a b).
Proof.
  unfold ltQ. destruct (Qle_bool b a) eqn:E; constructor.
  - apply Qle_bool_iff in E. lra.
  - assert (Hn : ~ (b <= a)%Q) by (rewrite <- Qle_bool_iff; congruence).
    lra.
Qed.

Lemma Qle_bool_spec (a b : Q) : reflect (a <= b)%Q (Qle_bool a b).
Proof.
  destruct (Qle_bool a b) eqn:E; constructor.
  - apply Qle_bool_iff. exact E.
  - rewrite <- Qle_bool_iff. congruence.
Qed.

Lemma between_split (a b c : Z) (d : Q) :
  a <= b -> b <= c ->
  between a c d = between a b d || between b c d /\
  between a b d && between b c d = false.
Proof.
  intros Hab Hbc. unfold between, ofZ.
  rewrite Zle_Qle in Hab, Hbc.
  destruct (Qle_bool_spec (inject_Z a) d), (Qle_bool_spec (inject_Z b) d),
    (ltQ_spec d (inject_Z b)), (ltQ_spec d (inject_Z c));
    simpl; split; try reflexivity; lra.
Qed.

Lemma count_ext_in {A : Type} (f g : A -> bool) (l : list A) :
  (forall x, In x l -> f x = g x) -> count f l = count g l.
Proof.
  intros E. unfold count. induction l as [|x l IH]; [reflexivity|].
  simpl. rewrite (E x (or_introl eq_refl)).
  assert (IH' : length (List.filter f l) = length (List.filter g l))
    by (apply IH; intros y Hy; apply E; right; exact Hy).
  destruct (g x); simpl; rewrite IH'; reflexivity.
Qed.

Lemma count_split2 {A : Type} (f a b : A -> bool) (l : list A) :
  (forall x, f x = a x || b x) ->
  (forall x, a x && b x = false) ->
  count f l = (count a l + count b l)%nat.
Proof.
  intros Hf Hab. unfold count.
  induction l as [|x l IH]; [reflexivity|]. simpl.
  specialize (Hf x). specialize (Hab x).
  destruct (f x), (a x), (b x); simpl in *; try discriminate;
    rewrite IH; lia.
Qed.

Lemma ofnat_plus (n m : nat) : (ofnat (n + m) == ofnat n + ofnat m)%Q.
Proof.
  unfold ofnat. rewrite Nat2Z.inj_add, inject_Z_plus. reflexivity.
Qed.

Lemma Qsum_app (xs ys : list Q) : (Qsum (xs ++ ys) == Qsum xs + Qsum ys)%Q.
Proof.
  induction xs as [|x xs IH]; simpl; [ring|]. rewrite IH. ring.
Qed.

(** The counts of the first [n] buckets of width two add up to the
    number of durations below [2 n]. *)
Lemma bucket_sum (durations : list Q) (n : nat) :
  (Qsum (map (fun bucket =>
                ofnat (count (between bucket (bucket + 2)%Z) durations))
           (map (fun i => (2 * Z.of_nat i)%Z) (seq 0 n)))
   == ofnat (count (between 0 (2 * Z.of_nat n)%Z) durations))%Q.
Proof.
  induction n as [|n IH].
  - simpl. assert (E : count (between 0 0) durations = 0%nat).
    { unfold count. rewrite filter_none; [reflexivity|].
      intros d _. unfold between.
      destruct (Qle_bool_spec (ofZ 0) d), (ltQ_spec d (ofZ 0));
        simpl; try reflexivity; lra. }
    change (2 * Z.of_nat 0) with 0. rewrite E. reflexivity.
  - rewrite seq_S, !map_app, Qsum_app, IH. simpl map. simpl Qsum.
    rewrite (count_split2 (between 0 (2 * Z.of_nat (S n)))
               (between 0 (2 * Z.of_nat n))
               (between (2 * Z.of_nat n) (2 * Z.of_nat (S n)))).
    + rewrite ofnat_plus.
      replace (2 * Z.of_nat n + 2) with (2 * Z.of_nat (S n)) by lia.
      ring.
    + intros d. apply between_split; lia.
    + intros d. apply between_split; lia.
Qed.

Lemma lodash_max_ge (xs : list Q) (m : Q) :
  lodash_max xs = Some m -> forall x, In x xs -> (x <= m)%Q.
Proof.
  destruct xs as [|x0 xs]; [discriminate|]. simpl. intros [= <-].
  destruct (fold_Qmax_ge xs x0) as [H0 Hall].
  intros x [<-|Hx]; [exact H0 | apply Hall; exact Hx].
Qed.

(** X14.  The duration histogram of [calculateCycleMetrics] has buckets
    of two seconds from zero up to the rounded-up maximum duration.
    When the maximum is positive and is not an even whole number, the
    bucket counts add up to the number of cycles with a non-negative
    duration.  When the maximum is an even whole number, the buckets
    stop at the maximum and the counts add up to the number of cycles
    with a duration from zero up to, but not including, the maximum:
    the longest cycles are in no bucket. *)
Theorem histogram_total (cycles : list TimeSeriesPoint) (m : Q) :
  let durations := map (fun c => field0 c "cycle.durationS") cycles in
  let distribution :=
    prop (TimeSeriesMetrics.calculateCycleMetrics cycles) "distribution" in
  lodash_max durations = Some m ->
  (0 < m)%Q ->
  ((~ exists k : Z, (m == ofZ (2 * k))%Q) ->
   neq (nsum (column "count" distribution))
       (Some (ofnat (count (Qle_bool 0) durations)))) /\
  ((exists k : Z, (m == ofZ (2 * k))%Q) ->
   neq (nsum (column "count" distribution))
       (Some (ofnat (count (fun d => Qle_bool 0 d && ltQ d m) durations)))).
Proof.
  intros durations distribution Hmax Hm.
  assert (Hne : cycles <> [])
    by (intros ->; discriminate Hmax).
  destruct cycles as [|c0 cs]; [congruence|]. clear Hne.
  unfold distribution, TimeSeriesMetrics.calculateCycleMetrics.
  cbv zeta. set (cycles := c0 :: cs) in *. fold durations.
  rewrite Hmax.
  assert (E0 : Qeq_bool m 0 = false).
  { destruct (Qeq_bool m 0) eqn:E; [|reflexivity].
    apply Qeq_bool_iff in E. lra. }
  rewrite E0.
  set (e := Qceiling m).
  set (nb := Z.to_nat ((e + 1) / 2)).
  set (width := 2 * Z.of_nat nb).
  change (prop (JObj _) "distribution") with
    (JArr (map (fun bucket =>
              JObj
                [("range",
                  JStr (pretty bucket +:+ "-" +:+ pretty (bucket + 2)
                        +:+ "s"));
                 ("count",
                  JNat (count (between bucket (bucket + 2)) durations))])
            (range2 e))).
  match goal with
  | |- context [column "count" ?d] => set (dist := d)
  end.
  assert (Hsum : neq (nsum (column "count" dist))
                   (Some (ofnat (count (between 0 width) durations)))).
  { unfold dist, column, elements. rewrite map_map.
    change (map _ (range2 e)) with
      (map (fun bucket =>
              Some (ofnat (count (between bucket (bucket + 2)) durations)))
         (range2 e)).
    rewrite <- (map_map
                  (fun bucket =>
                     ofnat (count (between bucket (bucket + 2)) durations))
                  Some).
    rewrite nsum_Some. simpl. unfold range2. fold nb.
    apply bucket_sum. }
  assert (Hle : (m <= inject_Z e)%Q) by apply Qle_ceiling.
  assert (Hlt : (inject_Z (e - 1) < m)%Q) by apply Qceiling_lt.
  assert (He : 1 <= e).
  { assert (Hq : (inject_Z 0 < inject_Z e)%Q)
      by (change (inject_Z 0) with 0%Q; lra).
    rewrite <- Zlt_Qlt in Hq. lia. }
  assert (Hnb : Z.of_nat nb = (e + 1) / 2)
    by (unfold nb; rewrite Z2Nat.id; [reflexivity | apply Z.div_pos; lia]).
  assert (Hall : forall d, In d durations -> (d <= m)%Q)
    by (apply lodash_max_ge; exact Hmax).
  split; intros Hk.
  - eapply neq_trans; [exact Hsum|]. simpl.
    assert (Hw : (m < ofZ width)%Q).
    { unfold ofZ, width. rewrite Hnb.
      assert (Hcases : 2 * ((e + 1) / 2) = e + 1 \/
                       (2 * ((e + 1) / 2) = e /\ e = 2 * (e / 2)))
        by (Z.div_mod_to_equations; lia).
      destruct Hcases as [->|[-> Heven]].
      - rewrite inject_Z_plus. change (inject_Z 1) with 1%Q. lra.
      - destruct (Qlt_le_dec m (inject_Z e)) as [Hlt'|Hge]; [exact Hlt'|].
        exfalso. apply Hk. exists (e / 2). unfold ofZ.
        rewrite <- Heven. lra. }
    rewrite (count_ext_in (between 0 width) (Qle_bool 0) durations);
      [reflexivity|].
    intros d Hd. specialize (Hall d Hd). unfold between.
    change (ofZ 0) with 0%Q.
    destruct (Qle_bool_spec 0 d), (ltQ_spec d (ofZ width));
      simpl; try reflexivity; lra.
  - eapply neq_trans; [exact Hsum|]. simpl.
    destruct Hk as [k Ek].
    assert (Hw : (ofZ width == m)%Q).
    { assert (Eek : e = 2 * k).
      { unfold e. rewrite (Qceiling_comp _ _ Ek). unfold ofZ.
        apply Qceiling_Z. }
      unfold ofZ, width. rewrite Hnb, Eek.
      replace (2 * ((2 * k + 1) / 2)) with (2 * k)
        by (Z.div_mod_to_equations; lia).
      symmetry. exact Ek. }
    rewrite (count_ext_in (between 0 width)
               (fun d => Qle_bool 0 d && ltQ d m) durations);
      [reflexivity|].
    intros d Hd. unfold between. change (ofZ 0) with 0%Q.
    destruct (Qle_bool_spec 0 d), (ltQ_spec d (ofZ width)), (ltQ_spec d m);
      simpl; try reflexivity; lra.
Qed.

(** Durations of 1, 3 and 4 seconds: the buckets are 0-2 and 2-4, and
    the cycle of 4 seconds is in neither. *)
Lemma histogram_total_witness :
  let cycles := [cycleAt 0 1; cycleAt 1000 3; cycleAt 2000 4] in
  let durations := map (fun c => field0 c "cycle.durationS") cycles in
  let distribution :=
    prop (TimeSeriesMetrics.calculateCycleMetrics cycles) "distribution" in
  length (elements distribution) = 2%nat /\
  count (fun d => Qle_bool 0 d && ltQ d 4) durations = 2%nat /\
  neq (nsum (column "count" distribution))
      (Some (ofnat (count (fun d => Qle_bool 0 d && ltQ d 4) durations))).
Proof.
  intros cycles durations distribution.
  split; [vm_compute; reflexivity|].
  split; [vm_compute; reflexivity|].
  assert (Hmax : lodash_max durations = Some 4%Q) by reflexivity.
  assert (Hm : (0 < 4)%Q) by reflexivity.
  assert (Hk : exists k : Z, (4 == ofZ (2 * k))%Q)
    by (exists 2; reflexivity).
  exact (proj2 (histogram_total cycles 4%Q Hmax Hm) Hk).
Defined.

(** ** The report *)

Lemma sag_severity_defined (cycles : list TimeSeriesPoint) :
  exists fs,
    prop (TimeSeriesMetrics.calculateVoltageSagAnalysis cycles) "severity"
    = JObj fs.
Proof. destruct cycles; eexists; reflexivity. Qed.

(** X15.  [generateReport] never throws on what the calculators of the
    long-shape dashboard return, whatever the cycles, readings and
    thresholds: it yields a report for the selected device that carries
    the fleet KPIs and the lifetime metrics unchanged and at most six
    recommendations.  For a device without cycle summaries the
    recommendations are exactly two: to plan a replacement within 0
    days, and the warning of a low MTBF. *)
Theorem report_from_metrics (now deviceId : string)
    (cycles realTime allCycles : list TimeSeriesPoint)
    (thresholds : AlertThresholds) :
  let report (cycles allCycles : list TimeSeriesPoint) :=
    TimeSeriesMetrics.generateReport now deviceId
      (TimeSeriesMetrics.calculateFleetKPIs cycles realTime thresholds)
      (TimeSeriesMetrics.calculateAnomalies cycles thresholds)
      (TimeSeriesMetrics.calculateSafetyMetrics realTime)
      (TimeSeriesMetrics.calculateVoltageSagAnalysis cycles)
      (TimeSeriesMetrics.calculateLifetimeMetrics allCycles thresholds) in
  (exists r,
     report cycles allCycles = Ok r /\
     prop r "device" = JStr deviceId /\
     prop r "summary"
     = TimeSeriesMetrics.calculateFleetKPIs cycles realTime thresholds /\
     prop r "lifetime"
     = TimeSeriesMetrics.calculateLifetimeMetrics allCycles thresholds /\
     (length (elements (prop r "recommendations")) <= 6)%nat) /\
  (exists r,
     report [] [] = Ok r /\
     prop r "recommendations"
     = JArr [JStr "Machine approaching end-of-life - plan replacement within 0 days";
             JStr "Low MTBF indicates poor reliability - investigate recurring failure modes"]).
Proof.
  cbv zeta. split.
  - destruct (sag_severity_defined cycles) as [fs Efs].
    unfold TimeSeriesMetrics.generateReport. rewrite Efs.
    eexists. split; [reflexivity|].
    split; [reflexivity|]. split; [reflexivity|]. split; [reflexivity|].
    change (prop (JObj _) "recommendations") with
      (JArr
         ((if ngt (vnum (prop (TimeSeriesMetrics.calculateAnomalies cycles
                                 thresholds) "count")) (Some 5%Q)
           then [JStr "High anomaly count detected - recommend maintenance inspection"]
           else [])
          ++ (if ngt (vnum (prop (TimeSeriesMetrics.calculateFleetKPIs cycles
                                    realTime thresholds) "eStopCount"))
                   (Some 3%Q)
              then [JStr "Multiple E-Stop events - investigate safety concerns"]
              else [])
          ++ (if ngt (Some (1 # 2)%Q)
                   (vnum (prop (TimeSeriesMetrics.calculateFleetKPIs cycles
                                  realTime thresholds) "avgLoadFactor"))
              then [JStr "Low load factor - check for underloading or inefficient operation"]
              else [])
          ++ (if ngt (vnum (prop (JObj fs) "critical")) (Some 0%Q)
              then [JStr "Critical voltage sags detected - check power supply quality"]
              else [])
          ++ (if ngt (Some 20%Q)
                   (vnum (prop (TimeSeriesMetrics.calculateLifetimeMetrics
                                  allCycles thresholds) "rul"))
              then [JStr ("Machine approaching end-of-life - plan replacement within "
                          +:+ show_num
                                (vnum (prop (TimeSeriesMetrics.calculateLifetimeMetrics
                                               allCycles thresholds) "rulDays"))
                          +:+ " days")]
              else [])
          ++ (if ngt (Some 100%Q)
                   (vnum (prop (TimeSeriesMetrics.calculateLifetimeMetrics
                                  allCycles thresholds) "mtbf"))
              then [JStr "Low MTBF indicates poor reliability - investigate recurring failure modes"]
              else []))).
    unfold elements.
    repeat match goal with
           | |- context [if ?c then [_] else []] => destruct c
           end; simpl; lia.
  - eexists. split; [reflexivity|]. vm_compute. reflexivity.
Qed.

(** ** The end-of-life forecast of the dashboard without filters *)

Lemma StronglySorted_map_seq {B : Type} (R : B -> B -> Prop) (g : nat -> B)
    (s len : nat) :
  (forall i j, (i <= j)%nat -> R (g i) (g j)) ->
  StronglySorted R (map g (seq s len)).
Proof.
  intros Hg. revert s. induction len as [|len IH]; intros s; simpl;
    [constructor|].
  constructor; [apply IH|].
  apply List.Forall_forall. intros y Hy.
  apply in_map_iff in Hy as [j [<- Hj]]. apply in_seq in Hj.
  apply Hg. lia.
Qed.

Lemma imap_seq {A B : Type} (f : nat -> A -> B) (l : list A) (d : A) :
  imap f l = map (fun i => f i (nth i l d)) (seq 0 (length l)).
Proof.
  revert f. induction l as [|x l IH]; intros f; [reflexivity|].
  simpl. f_equal. rewrite (IH (f ∘ S)), <- seq_shift, map_map.
  reflexivity.
Qed.

Lemma Qmax_mono_r (a x y : Q) : (x <= y)%Q -> (Qmax a x <= Qmax a y)%Q.
Proof.
  intros Hxy. unfold Qmax.
  destruct (Qle_bool_spec a x), (Qle_bool_spec a y); lra.
Qed.

Lemma Qmax_bounds (a x hi : Q) :
  (a <= hi)%Q -> (x <= hi)%Q -> (a <= Qmax a x)%Q /\ (Qmax a x <= hi)%Q.
Proof.
  intros Ha Hx. unfold Qmax. destruct (Qle_bool_spec a x); split; lra.
Qed.

(** The average number of cycles per day is a positive number. *)
Lemma avgCyclesPerDay_pos (n : Q) (dataSpanDays : num) :
  (0 < n)%Q ->
  exists a,
    (if ngt dataSpanDays (Some 0%Q) then ndiv (Some n) dataSpanDays
     else Some n) = Some a /\ (0 < a)%Q.
Proof.
  intros Hn. destruct dataSpanDays as [s|]; simpl; [|eauto].
  destruct (Qle_bool_spec s 0); simpl; [eauto|].
  destruct (Qeq_bool s 0) eqn:E; [apply Qeq_bool_iff in E; lra|].
  eexists. split; [reflexivity|]. apply Qlt_shift_div_l; lra.
Qed.

(** X16.  The end-of-life forecast of [calculateEOLMetrics] has nine
    entries; the projected remaining life lies between 0 and 100
    percent in each and never increases from one date to the next. *)
Theorem eol_forecast_decreasing (cycles : list TimeSeriesPoint) :
  cycles <> [] ->
  let forecast := prop (KomarMetrics.calculateEOLMetrics cycles) "forecast" in
  exists remaining : list Q,
    column "remaining" forecast = map Some remaining /\
    length remaining = 9%nat /\
    Forall (fun r => (0 <= r)%Q /\ (r <= 100)%Q) remaining /\
    StronglySorted (fun earlier later => (later <= earlier)%Q) remaining.
Proof.
  intros Hne. destruct cycles as [|c0 cs]; [congruence|]. clear Hne.
  cbv zeta. unfold KomarMetrics.calculateEOLMetrics. cbv zeta.
  set (cycles := c0 :: cs).
  set (n := ofnat (length cycles)).
  assert (Hn : (0 < n)%Q) by (apply ofnat_pos; simpl; lia).
  match goal with
  | |- context [if ngt ?d (Some 0%Q) then ndiv (Some n) ?d else Some n] =>
      destruct (avgCyclesPerDay_pos n d Hn) as [a [Ea Ha]]; rewrite Ea
  end.
  set (T := KomarMetrics.LIFETIME_THRESHOLD).
  assert (HT : (0 < T)%Q) by reflexivity.
  set (g := fun i : nat =>
              toFixed 2 (Qmax 0 ((T - (n + a * ofnat i)) / T * 100))).
  exists (map g (seq 0 9)).
  split.
  { change (prop (JObj _) "forecast") with
      (JArr
         (imap (fun idx date =>
                  JObj [("date", JStr date);
                        ("remaining",
                         nrounded 2
                           (nmax (Some 0%Q)
                              (nmul (ndiv (nsub (Some T)
                                             (nadd (Some n)
                                                (nmul (Some a)
                                                   (Some (ofnat idx)))))
                                       (Some T)) (Some 100%Q))))])
            KomarMetrics.forecastDates)).
    unfold column, elements.
    rewrite (imap_seq _ KomarMetrics.forecastDates ""%string), !map_map.
    apply map_ext. intros i. reflexivity. }
  split; [reflexivity|].
  assert (Hup : forall i, ((T - (n + a * ofnat i)) / T * 100 <= 100)%Q).
  { intros i. pose proof (ofnat_nonneg i) as Hi.
    assert (Hq : ((T - (n + a * ofnat i)) / T <= 1)%Q)
      by (apply Qle_shift_div_r; [exact HT|]; nra).
    lra. }
  split.
  - apply List.Forall_forall. intros r Hr.
    apply in_map_iff in Hr as [i [<- _]]. unfold g.
    destruct (Qmax_bounds 0 ((T - (n + a * ofnat i)) / T * 100) 100)
      as [Hlo Hhi]; [lra | apply Hup|].
    apply (toFixed_bounds 2 _ 100 Hlo Hhi).
  - apply StronglySorted_map_seq. intros i j Hij. unfold g.
    apply toFixed_mono, Qmax_mono_r.
    pose proof (ofnat_le i j Hij) as Hle.
    assert (Hq : ((T - (n + a * ofnat j)) / T
                  <= (T - (n + a * ofnat i)) / T)%Q).
    { apply Qmult_le_compat_r;
        [nra | apply Qlt_le_weak, Qinv_lt_0_compat; exact HT]. }
    lra.
Qed.

(** Twenty-five thousand cycles would be needed to move the forecast;
    three cycles over two minutes give a forecast that falls to zero. *)
Lemma eol_forecast_decreasing_witness :
  let cycles := [cycleAt 0 20; cycleAt 60000 22; cycleAt 120000 21] in
  let forecast :=
    prop (KomarMetrics.calculateEOLMetrics cycles) "forecast" in
  exists remaining : list Q,
    column "remaining" forecast = map Some remaining /\
    length remaining = 9%nat /\
    Forall (fun r => (0 <= r)%Q /\ (r <= 100)%Q) remaining /\
    StronglySorted (fun earlier later => (later <= earlier)%Q) remaining.
Proof.
  intros cycles.
  assert (Hne : cycles <> []) by discriminate.
  exact (eol_forecast_decreasing cycles Hne).
Defined.

(** ** Chamber fullness *)

(** X17.  [calculateChamberFullness] of the dashboard without filters
    decides the level by a number of cycles: none when there are no
    readings, whatever the cycles; otherwise the cycles since the last
    reading with the full-chamber error, and all cycles when no reading
    has it.  The level is Low up to 24 cycles, Medium from 25 to 50,
    High from 51 on, with the matching colour; the percentage it
    returns lies between 0 and 100. *)
Theorem chamber_level_by_cycles (realTimeData cycles : list TimeSeriesPoint) :
  let since :=
    match realTimeData with
    | [] => 0%nat
    | _ =>
        match KomarMetrics.lastFullError realTimeData with
        | Some r => KomarMetrics.cyclesAfter (timestamp r) cycles
        | None => length cycles
        end
    end in
  let result := KomarMetrics.calculateChamberFullness realTimeData cycles in
  prop result "level"
  = JStr (if (since <=? 24)%nat then "Low"
          else if (since <=? 50)%nat then "Medium" else "High") /\
  prop result "color"
  = JStr (if (since <=? 24)%nat then "bg-green-600"
          else if (since <=? 50)%nat then "bg-yellow-400"
               else "bg-rose-400") /\
  exists percent : Q,
    prop result "percent" = JQ percent /\
    (0 <= percent)%Q /\ (percent <= 100)%Q.
Proof.
  destruct realTimeData as [|r0 rs].
  { cbv zeta. simpl. split; [reflexivity|]. split; [reflexivity|].
    exists 0%Q. split; [reflexivity|]. split; lra. }
  cbv zeta. unfold KomarMetrics.calculateChamberFullness. cbv zeta.
  set (since := match KomarMetrics.lastFullError (r0 :: rs) with
                | Some r => KomarMetrics.cyclesAfter (timestamp r) cycles
                | None => length cycles
                end).
  set (x := (ofnat since / 75 * 100)%Q).
  assert (Ex : (x == ofnat since * (4 # 3))%Q) by (unfold x; field).
  assert (Hx0 : (0 <= x)%Q) by (pose proof (ofnat_nonneg since); lra).
  set (f := Qmin 100 x).
  assert (Hf : (0 <= f)%Q /\ (f <= 100)%Q /\
               ((f < 33)%Q <-> (x < 33)%Q) /\ ((f < 67)%Q <-> (x < 67)%Q)).
  { unfold f, Qmin. destruct (Qle_bool_spec 100 x); repeat split; lra. }
  destruct Hf as [Hf0 [Hf1 [H33 H67]]].
  assert (Hlevel : ltQ f 33 = (since <=? 24)%nat /\
                   ltQ f 67 = (since <=? 50)%nat).
  { split.
    - destruct (ltQ_spec f 33) as [Hlt|Hge], (Nat.leb_spec since 24)
        as [Hle|Hgt]; try reflexivity; exfalso.
      + apply H33 in Hlt. pose proof (ofnat_le 25 since Hgt) as Hq.
        change (ofnat 25) with 25%Q in Hq. lra.
      + apply Hge, H33. pose proof (ofnat_le since 24 Hle) as Hq.
        change (ofnat 24) with 24%Q in Hq. lra.
    - destruct (ltQ_spec f 67) as [Hlt|Hge], (Nat.leb_spec since 50)
        as [Hle|Hgt]; try reflexivity; exfalso.
      + apply H67 in Hlt. pose proof (ofnat_le 51 since Hgt) as Hq.
        change (ofnat 51) with 51%Q in Hq. lra.
      + apply Hge, H67. pose proof (ofnat_le since 50 Hle) as Hq.
        change (ofnat 50) with 50%Q in Hq. lra. }
  destruct Hlevel as [E33 E67]. rewrite E33, E67.
  assert (H2450 : (since <=? 24)%nat = true -> (since <=? 50)%nat = true).
  { rewrite !Nat.leb_le. lia. }
  split; [|split].
  - destruct (since <=? 24)%nat; [reflexivity|].
    destruct (since <=? 50)%nat; reflexivity.
  - destruct (since <=? 24)%nat; [reflexivity|].
    destruct (since <=? 50)%nat; reflexivity.
  - exists (Math_round f). split.
    + destruct (since <=? 24)%nat; [reflexivity|].
      destruct (since <=? 50)%nat; reflexivity.
    + unfold Math_round.
      assert (Hlo : 0 <= Qfloor (f + (1 # 2)))
        by (apply Qfloor_nonneg; lra).
      assert (Hhi : Qfloor (f + (1 # 2)) <= 100).
      { assert (Hq : (inject_Z (Qfloor (f + (1 # 2))) <= f + (1 # 2))%Q)
          by apply Qfloor_le.
        assert (Hq' : (inject_Z (Qfloor (f + (1 # 2))) < inject_Z 101)%Q)
          by (change (inject_Z 101) with 101%Q; lra).
        rewrite <- Zlt_Qlt in Hq'. lia. }
      rewrite Zle_Qle in Hlo, Hhi. change (inject_Z 0) with 0%Q in Hlo.
      change (inject_Z 100) with 100%Q in Hhi. split; assumption.
Qed.

(** Thirty cycles after the last full-chamber error. *)
Lemma chamber_level_by_cycles_witness :
  let full := {| time := Some 0; timeStr := ""; timestamp := Some 0;
                 fields := {[ "DI8_Full_Error"%string := 1%Q ]} |} in
  let cycles := map (fun i => cycleAt (1000 * Z.of_nat i) 20) (seq 0 31) in
  let result := KomarMetrics.calculateChamberFullness [full] cycles in
  prop result "level" = JStr "Medium" /\
  prop result "color" = JStr "bg-yellow-400" /\
  exists percent : Q,
    prop result "percent" = JQ percent /\
    (0 <= percent)%Q /\ (percent <= 100)%Q.
Proof.
  intros full cycles result.
  exact (chamber_level_by_cycles [full] cycles).
Defined.

(** ** The utilization heatmap of the dashboard without filters *)

Section ObjectMembers.
Context {V : Type}.
Implicit Types (o : jsobj V) (k : string) (v : V).

Lemma obj_update_In o k v k' v' :
  In (k', v') (obj_update k v o) -> (k' = k /\ v' = v) \/ In (k', v') o.
Proof.
  induction o as [|[k0 v0] o IH]; simpl; [tauto|].
  destruct (String.eqb_spec k0 k) as [->|Hne]; simpl.
  - intros [[= <- <-]|Hin]; [left; auto | right; right; exact Hin].
  - intros [E|Hin]; [right; left; exact E|].
    destruct (IH Hin) as [?|?]; [left | right; right]; assumption.
Qed.

Lemma obj_insert_index_In n o k v k' v' :
  In (k', v') (obj_insert_index n k v o) ->
  (k' = k /\ v' = v) \/ In (k', v') o.
Proof.
  induction o as [|[k0 v0] o IH]; simpl.
  - intros [[= <- <-]|[]]. left. auto.
  - destruct (array_index k0) as [n'|]; [destruct (n <? n')|]; simpl.
    + intros [[= <- <-]|Hin]; [left; auto | right; exact Hin].
    + intros [E|Hin]; [right; left; exact E|].
      destruct (IH Hin) as [?|?]; [left | right; right]; assumption.
    + intros [[= <- <-]|Hin]; [left; auto | right; exact Hin].
Qed.

(** After a write every member is the written one or an old one. *)
Lemma obj_set_In o k v k' v' :
  In (k', v') (obj_set k v o) -> (k' = k /\ v' = v) \/ In (k', v') o.
Proof.
  unfold obj_set. destruct (obj_get o k).
  - apply obj_update_In.
  - destruct (array_index k).
    + apply obj_insert_index_In.
    + intros Hin. apply in_app_or in Hin as [Hin|[[= <- <-]|[]]];
        [right; exact Hin | left; auto].
Qed.
End ObjectMembers.

Section KomarHeatmap.
Context `{Host}.

(** In every cell the active readings are among the readings, and there
    is at least one reading. *)
Lemma countSlots_counts (sortedData : list TimeSeriesPoint) (k : string)
    (active total : nat) :
  In (k, (active, total)) (KomarMetrics.countSlots sortedData) ->
  (active <= total)%nat /\ (1 <= total)%nat.
Proof.
  unfold KomarMetrics.countSlots.
  assert (Hgen : forall (rs : list TimeSeriesPoint) (o : jsobj (nat * nat)),
            (forall k a t, In (k, (a, t)) o -> (a <= t)%nat /\ (1 <= t)%nat) ->
            forall k a t,
              In (k, (a, t))
                (fold_left
                   (fun heatmapData record =>
                      if KomarMetrics.tracked record then
                        let '(active, total) :=
                          default (0, 0)%nat
                            (obj_get heatmapData (KomarMetrics.slotKey record)) in
                        obj_set (KomarMetrics.slotKey record)
                          (if is1 record "DI1_KM" then S active else active,
                           S total) heatmapData
                      else heatmapData) rs o) ->
              (a <= t)%nat /\ (1 <= t)%nat).
  { induction rs as [|r rs IH]; intros o Ho; [exact Ho|].
    simpl fold_left. apply IH.
    destruct (KomarMetrics.tracked r); [|exact Ho].
    destruct (obj_get o (KomarMetrics.slotKey r)) as [[a0 t0]|] eqn:E;
      simpl default; cbv iota beta.
    - pose proof (Ho _ _ _ (obj_get_In _ _ _ E)) as [Hat Ht].
      intros k' a t Hin. apply obj_set_In in Hin as [[_ Ev]|Hin];
        [|apply (Ho _ _ _ Hin)].
      injection Ev as -> ->. destruct (is1 r "DI1_KM"); lia.
    - intros k' a t Hin. apply obj_set_In in Hin as [[_ Ev]|Hin];
        [|apply (Ho _ _ _ Hin)].
      injection Ev as -> ->. destruct (is1 r "DI1_KM"); lia. }
  apply Hgen. intros ? ? ? [].
Qed.
End KomarHeatmap.

Lemma fold_set_values {A V : Type} (f : A -> V) (P : V -> Prop)
    (entries : jsobj A) (acc : jsobj V) :
  (forall k x, In (k, x) entries -> P (f x)) ->
  (forall k v, In (k, v) acc -> P v) ->
  forall k v,
    In (k, v)
      (fold_left (fun result '(key, x) => obj_set key (f x) result)
         entries acc) ->
    P v.
Proof.
  revert acc. induction entries as [|[k0 x0] entries IH];
    intros acc Hentries Hacc; [exact Hacc|].
  simpl fold_left. apply IH.
  - intros k x Hin. apply (Hentries k). right. exact Hin.
  - intros k v Hin. apply obj_set_In in Hin as [[_ ->]|Hin].
    + apply (Hentries k0). left. reflexivity.
    + apply (Hacc k). exact Hin.
Qed.

(** X18.  Every value of the utilization heatmap of the dashboard
    without filters is a percentage between 0 and 100, whatever the
    readings. *)
Theorem komar_heatmap_percentages `{Host} `{Collation}
    (realTimeData : list TimeSeriesPoint) :
  Forall (fun x => exists q : Q, x = Some q /\ (0 <= q)%Q /\ (q <= 100)%Q)
    (objectValues (KomarMetrics.calculateUtilizationHeatmap realTimeData)).
Proof.
  destruct realTimeData as [|r0 rs]; [constructor|].
  unfold KomarMetrics.calculateUtilizationHeatmap. cbv zeta.
  set (sortedData := sortBy byTimestamp (r0 :: rs)).
  unfold objectValues. apply List.Forall_forall. intros x Hx.
  apply in_map_iff in Hx as [[k v] [<- Hkv]].
  set (pct := fun c : nat * nat =>
                rounded 2 (if (0 <? snd c)%nat
                           then (ofnat (fst c) / ofnat (snd c) * 100)%Q
                           else 0%Q)).
  match type of Hkv with
  | In _ (fold_left ?F _ _) =>
      assert (Hfold : forall l acc,
                fold_left F l acc
                = fold_left (fun result '(key, c) => obj_set key (pct c) result)
                    l acc)
  end.
  { induction l as [|[key [a t]] l IH]; intros acc; [reflexivity|].
    simpl fold_left. apply IH. }
  rewrite Hfold in Hkv.
  apply (fold_set_values pct
           (fun v => exists q : Q, vnum v = Some q /\ (0 <= q)%Q /\ (q <= 100)%Q)
           _ _) in Hkv; [exact Hkv| |intros ? ? []].
  intros key [a t] Hin.
  apply (Permutation_in _ (sortBy_perm KomarMetrics.byKey _)) in Hin.
  apply countSlots_counts in Hin as [Hat Ht].
  unfold pct. simpl fst. simpl snd.
  replace (0 <? t)%nat with true by (symmetry; apply Nat.ltb_lt; lia).
  eexists. split; [reflexivity|].
  apply (toFixed_bounds 2 _ 100);
    apply percent_bounds;
    [apply ofnat_nonneg | apply ofnat_le; exact Hat | apply ofnat_pos; lia
    |apply ofnat_nonneg | apply ofnat_le; exact Hat | apply ofnat_pos; lia].
Qed.

(** ** Utilization of the dashboard without filters *)

Lemma sum_defined (name : string) (cycles : list TimeSeriesPoint) (a : Q) :
  (0 <= a)%Q ->
  (forall c, In c cycles ->
     exists q, field c name = Some q /\ (0 <= q)%Q) ->
  exists s,
    fold_left
      (fun acc x =>
         match fval name x with
         | VUndef => acc
         | v => match acc with
                | VUndef => v
                | _ => js_add acc v
                end
         end) cycles (VNum a) = VNum s /\ (0 <= s)%Q.
Proof.
  revert a. induction cycles as [|c cycles IH]; intros a Ha Hall.
  - exists a. split; [reflexivity | exact Ha].
  - destruct (Hall c (or_introl eq_refl)) as [q [Eq Hq]].
    simpl fold_left. unfold fval at 2. rewrite Eq. simpl.
    apply IH; [lra|]. intros x Hx. apply Hall. right. exact Hx.
Qed.

(** X19.  [calculateUtilization] of the dashboard without filters
    returns a percentage between 0 and 100 for cycles whose durations
    are not negative: the average duration against 30 seconds, capped
    at 100. *)
Theorem komar_utilization_bounds (cycles : list TimeSeriesPoint) :
  cycles <> [] ->
  (forall c, In c cycles ->
     exists q, field c "cycle.durationS" = Some q /\ (0 <= q)%Q) ->
  exists u : Q,
    KomarMetrics.calculateUtilization cycles = JQ u /\
    (0 <= u)%Q /\ (u <= 100)%Q.
Proof.
  intros Hne Hall. destruct cycles as [|c0 cs]; [congruence|]. clear Hne.
  unfold KomarMetrics.calculateUtilization. cbv zeta.
  set (cycles := c0 :: cs) in *.
  destruct (Hall c0 (or_introl eq_refl)) as [q0 [E0 H0]].
  destruct (sum_defined "cycle.durationS" cs q0 H0) as [s [Es Hs]];
    [intros c Hc; apply Hall; right; exact Hc|].
  assert (Esum : sumBy (fval "cycle.durationS") cycles = VNum s).
  { unfold sumBy, baseSum, cycles. simpl fold_left.
    unfold fval at 2. rewrite E0. exact Es. }
  rewrite Esum. simpl to_number.
  set (n := ofnat (length cycles)).
  assert (Hn : (0 < n)%Q) by (apply ofnat_pos; simpl; lia).
  assert (Ediv : ndiv (Some s) (Some n) = Some (s / n)%Q).
  { unfold ndiv. destruct (Qeq_bool n 0) eqn:E; [|reflexivity].
    apply Qeq_bool_iff in E. lra. }
  rewrite Ediv. simpl.
  eexists. split; [reflexivity|].
  assert (Hx : (0 <= s / n / 30 * 100)%Q).
  { assert (Hq : (0 <= s / n)%Q) by (apply Qle_shift_div_l; lra).
    assert (Hq' : (0 <= s / n / 30)%Q) by (apply Qle_shift_div_l; lra).
    lra. }
  unfold Qmin. destruct (Qle_bool_spec 100 (s / n / 30 * 100)); split; lra.
Qed.

(** Two cycles of 12 and 18 seconds: half of the 30 seconds. *)
Lemma komar_utilization_bounds_witness :
  let cycles := [cycleAt 0 12; cycleAt 60000 18] in
  exists u : Q,
    KomarMetrics.calculateUtilization cycles = JQ u /\
    (0 <= u)%Q /\ (u <= 100)%Q.
Proof.
  intros cycles.
  assert (Hne : cycles <> []) by discriminate.
  assert (Hall : forall c, In c cycles ->
            exists q, field c "cycle.durationS" = Some q /\ (0 <= q)%Q).
  { intros c [<-|[<-|[]]]; eexists;
      (split; [vm_compute; reflexivity | discriminate]). }
  exact (komar_utilization_bounds cycles Hne Hall).
Defined.

(** ** Progress of the long-shape parser *)

Lemma div_succ (c b : Z) :
  0 <= c -> 0 < b ->
  if (c + 1) mod b =? 0
  then (c + 1) / b = c / b + 1 /\ c + 1 = (c / b + 1) * b
  else (c + 1) / b = c / b.
Proof.
  intros Hc Hb.
  pose proof (Z.div_mod c b ltac:(lia)) as Ec.
  pose proof (Z.mod_pos_bound c b Hb) as Hr.
  set (q := c / b) in *. set (r := c mod b) in *.
  destruct (Z.eq_dec (r + 1) b) as [E|Hne].
  - assert (Ed : (c + 1) / b = q + 1)
      by (symmetry; apply (Z.div_unique (c + 1) b (q + 1) 0); nia).
    assert (Em : (c + 1) mod b = 0)
      by (symmetry; apply (Z.mod_unique (c + 1) b (q + 1) 0); nia).
    rewrite Em. simpl. split; [exact Ed | nia].
  - assert (Ed : (c + 1) / b = q)
      by (symmetry; apply (Z.div_unique (c + 1) b q (r + 1)); nia).
    assert (Em : (c + 1) mod b = r + 1)
      by (symmetry; apply (Z.mod_unique (c + 1) b q (r + 1)); nia).
    rewrite Em. destruct (Z.eqb_spec (r + 1) 0); [lia | exact Ed].
Qed.

Section ParseProps.
Context `{Host}.
Variables (batchSize expected : Z).
Hypothesis (HbatchSize : 0 < batchSize) (Hexpected : 0 < expected).

(** The reports made after the first [batches] full batches. *)
Lemma parse_fold (rows done : list RawRow) (calls : list Callback) :
  calls
  = map (fun k => onProgress (progressAt expected (Z.of_nat k * batchSize)))
      (seq 1 (Z.to_nat (kept done / batchSize))) ->
  exists calls',
    fold_left (parseStep batchSize expected) rows
      (List.filter hasKeys done, kept done, calls)
    = (List.filter hasKeys (done ++ rows), kept (done ++ rows), calls') /\
    calls'
    = map (fun k => onProgress (progressAt expected (Z.of_nat k * batchSize)))
        (seq 1 (Z.to_nat (kept (done ++ rows) / batchSize))).
Proof using HbatchSize.
  revert done calls. induction rows as [|r rows IH]; intros done calls Hcalls.
  - rewrite app_nil_r. exists calls. split; [reflexivity | exact Hcalls].
  - replace (done ++ r :: rows) with ((done ++ [r]) ++ rows)
      by (rewrite <- app_assoc; reflexivity).
    simpl fold_left.
    assert (Ef : List.filter hasKeys (done ++ [r])
                 = List.filter hasKeys done
                   ++ (if hasKeys r then [r] else []))
      by (rewrite List.filter_app; reflexivity).
    destruct (hasKeys r) eqn:Er.
    + cbv zeta.
      assert (Ekept : kept (done ++ [r]) = kept done + 1)
        by (unfold kept; rewrite Ef, length_app; simpl; lia).
      rewrite <- Ef, <- Ekept.
      apply IH. rewrite Ekept.
      assert (Hc : 0 <= kept done) by (unfold kept; lia).
      pose proof (div_succ (kept done) batchSize Hc HbatchSize) as Hdiv.
      assert (Hq : 0 <= kept done / batchSize)
        by (apply Z.div_pos; lia).
      destruct ((kept done + 1) mod batchSize =? 0).
      * destruct Hdiv as [Eq Ec]. rewrite Eq.
        replace (Z.to_nat (kept done / batchSize + 1))
          with (S (Z.to_nat (kept done / batchSize))) by lia.
        rewrite seq_S, map_app, Hcalls. simpl.
        do 3 f_equal. rewrite Ec. f_equal. lia.
      * rewrite Hdiv. exact Hcalls.
    + rewrite app_nil_r in Ef.
      assert (Ekept : kept (done ++ [r]) = kept done)
        by (unfold kept; rewrite Ef; reflexivity).
      rewrite <- Ef, <- Ekept. apply IH.
      rewrite Ekept. exact Hcalls.
Qed.

Lemma progressAt_range (c : Z) :
  0 < c ->
  (0 < progressAt expected c)%Q /\ (progressAt expected c <= 90)%Q.
Proof using Hexpected.
  intros Hc. unfold progressAt, ofZ.
  assert (Hn : (0 < inject_Z c)%Q)
    by (change 0%Q with (inject_Z 0); rewrite <- Zlt_Qlt; exact Hc).
  assert (He : (0 < inject_Z expected)%Q)
    by (change 0%Q with (inject_Z 0); rewrite <- Zlt_Qlt; exact Hexpected).
  assert (Hq : (0 < inject_Z c / inject_Z expected)%Q)
    by (apply Qlt_shift_div_l; lra).
  unfold Qmin.
  destruct (Qle_bool_spec 90 (inject_Z c / inject_Z expected * 100));
    split; lra.
Qed.

Lemma progressAt_mono (c d : Z) :
  c <= d -> (progressAt expected c <= progressAt expected d)%Q.
Proof using Hexpected.
  intros Hcd. unfold progressAt, ofZ.
  assert (He : (0 < inject_Z expected)%Q)
    by (change 0%Q with (inject_Z 0); rewrite <- Zlt_Qlt; exact Hexpected).
  assert (Hn : (inject_Z c <= inject_Z d)%Q)
    by (rewrite <- Zle_Qle; exact Hcd).
  assert (Hq : (inject_Z c / inject_Z expected
                <= inject_Z d / inject_Z expected)%Q).
  { apply Qmult_le_compat_r;
      [exact Hn | apply Qlt_le_weak, Qinv_lt_0_compat; exact He]. }
  unfold Qmin.
  destruct (Qle_bool_spec 90 (inject_Z c / inject_Z expected * 100)),
    (Qle_bool_spec 90 (inject_Z d / inject_Z expected * 100)); lra.
Qed.

Lemma parseCSV_with_calls (csvContent : string) :
  let rows := List.filter hasKeys (Papa_parse csvContent) in
  exists early : list Q,
    parseCSV_with batchSize expected csvContent
    = map onProgress early
      ++ [onProgress 95; onComplete rows; onProgress 100] /\
    Z.of_nat (length early) = Z.of_nat (length rows) / batchSize /\
    Forall (fun p => (0 < p)%Q /\ (p <= 90)%Q) early /\
    StronglySorted Qle early.
Proof using HbatchSize Hexpected.
  cbv zeta. unfold parseCSV_with.
  destruct (parse_fold (Papa_parse csvContent) [] [])
    as [calls [Efold Ecalls]].
  { change (kept []) with 0. rewrite Z.div_0_l by lia. reflexivity. }
  change (List.filter hasKeys []) with (@nil RawRow) in Efold.
  change (kept []) with 0 in Efold. simpl app in Efold.
  rewrite Efold. simpl app in Ecalls.
  set (rows := List.filter hasKeys (Papa_parse csvContent)).
  fold (kept (Papa_parse csvContent)).
  set (n := kept (Papa_parse csvContent)) in *.
  assert (Hn : 0 <= n / batchSize)
    by (apply Z.div_pos; [unfold n, kept|]; lia).
  exists (map (fun k => progressAt expected (Z.of_nat k * batchSize))
            (seq 1 (Z.to_nat (n / batchSize)))).
  split; [rewrite Ecalls, map_map; reflexivity|].
  split; [rewrite length_map, length_seq, Z2Nat.id by exact Hn; reflexivity|].
  split.
  - apply List.Forall_forall. intros p Hp.
    apply in_map_iff in Hp as [k [<- Hk]]. apply in_seq in Hk.
    apply progressAt_range. nia.
  - apply StronglySorted_map_seq. intros i j Hij.
    apply progressAt_mono. nia.
Qed.
End ParseProps.

(** X21.  [DataProcessor.parseCSV] keeps, in file order, exactly the
    rows whose [Time], [deviceId] and [measure_name] are all truthy, and
    hands them over once.  Its progress never goes backwards: one
    report, above 0 and at most 90, for every full batch of kept rows
    (10000 in the dashboard with filters, 1000 in the one without),
    then 95, then the rows, then 100. *)
Theorem parseCSV_progress `{Host} (csvContent : string) :
  let rows := List.filter hasKeys (Papa_parse csvContent) in
  (exists early : list Q,
     DataProcessor.parseCSV csvContent
     = map onProgress early
       ++ [onProgress 95; onComplete rows; onProgress 100] /\
     Z.of_nat (length early) = Z.of_nat (length rows) / 10000 /\
     Forall (fun p => (0 < p)%Q /\ (p <= 90)%Q) early /\
     StronglySorted Qle early) /\
  (exists early : list Q,
     KomarDataProcessor.parseCSV csvContent
     = map onProgress early
       ++ [onProgress 95; onComplete rows; onProgress 100] /\
     Z.of_nat (length early) = Z.of_nat (length rows) / 1000 /\
     Forall (fun p => (0 < p)%Q /\ (p <= 90)%Q) early /\
     StronglySorted Qle early).
Proof.
  cbv zeta. split.
  - apply (parseCSV_with_calls 10000 100000); lia.
  - apply (parseCSV_with_calls 1000 5000); lia.
Qed.

(** ** Writes and totals *)

Section Weights.
Context {V : Type} (w : V -> Z).
Implicit Types (o : jsobj V) (k : string) (v : V).

Lemma weigh_update o k v old :
  obj_get o k = Some old ->
  weigh w (obj_update k v o) = weigh w o - w old + w v.
Proof.
  unfold weigh. induction o as [|[k0 v0] o IH]; simpl; [discriminate|].
  destruct (String.eqb_spec k0 k) as [->|Hne]; simpl.
  - intros [= ->]. lia.
  - intros E. rewrite (IH E). lia.
Qed.

Lemma weigh_insert_index n o k v :
  weigh w (obj_insert_index n k v o) = weigh w o + w v.
Proof.
  unfold weigh. induction o as [|[k0 v0] o IH]; simpl; [lia|].
  destruct (array_index k0) as [n'|]; [destruct (n <? n')|]; simpl; lia.
Qed.

Lemma weigh_app o o' : weigh w (o ++ o') = weigh w o + weigh w o'.
Proof.
  unfold weigh. induction o as [|[k0 v0] o IH]; simpl; [lia|].
  rewrite IH. lia.
Qed.

(** A write changes the total by the difference of the weights. *)
Lemma weigh_set o k v :
  weigh w (obj_set k v o)
  = weigh w o - match obj_get o k with
                | Some old => w old
                | None => 0
                end + w v.
Proof.
  unfold obj_set. destruct (obj_get o k) as [old|] eqn:E.
  - apply weigh_update. exact E.
  - destruct (array_index k).
    + rewrite weigh_insert_index. lia.
    + rewrite weigh_app. unfold weigh at 2. simpl. lia.
Qed.
End Weights.

(** ** The daily heatmap *)

Section DailyHeatmap.
Context `{Host}.

Lemma heatStep_total (heatmap : jsobj Z) (d : DataUtils.Entry) :
  weigh id (DataUtils.heatStep heatmap d)
  = weigh id heatmap
    + (if strict_eq (DataUtils.measure d) (VStr "cycle.durationS")
       then 1 else 0).
Proof.
  unfold DataUtils.heatStep.
  destruct (strict_eq (DataUtils.measure d) (VStr "cycle.durationS"));
    [|lia].
  cbv zeta.
  set (key := showIndex (option_map getDay (new_Date (DataUtils.time d)))
              +:+ "-"
              +:+ showIndex (option_map getHours
                               (new_Date (DataUtils.time d)))).
  destruct (obj_get heatmap key) as [v|] eqn:E.
  - destruct (Z.eqb_spec v 0) as [->|Hv].
    + rewrite !weigh_set, obj_get_set, String.eqb_refl, E.
      unfold id. simpl. lia.
    + rewrite weigh_set, E. unfold id. simpl. lia.
  - rewrite !weigh_set, obj_get_set, String.eqb_refl, E.
    unfold id. simpl. lia.
Qed.

Lemma heatmap_fold_total (entries : list DataUtils.Entry)
    (heatmap : jsobj Z) :
  weigh id (fold_left DataUtils.heatStep entries heatmap)
  = weigh id heatmap
    + Z.of_nat
        (length
           (List.filter
              (fun d => strict_eq (DataUtils.measure d)
                          (VStr "cycle.durationS")) entries)).
Proof.
  revert heatmap. induction entries as [|d entries IH]; intros heatmap.
  - simpl. lia.
  - simpl fold_left. rewrite IH, heatStep_total. simpl List.filter.
    destruct (strict_eq (DataUtils.measure d) (VStr "cycle.durationS"));
      simpl length; lia.
Qed.
End DailyHeatmap.

(** X22.  The heatmap of the daily dashboard conserves the cycles: the
    counts of [getUtilizationHeatmap] add up to the number of entries
    whose measure is cycle.durationS, over all days, whatever their
    dates. *)
Theorem daily_heatmap_conservation `{Host}
    (processedData : jsobj (list DataUtils.Entry)) :
  Zsum (Object_values (DataUtils.getUtilizationHeatmap processedData))
  = Z.of_nat (length (DataUtils.allCycles processedData)).
Proof.
  unfold DataUtils.getUtilizationHeatmap, DataUtils.allCycles.
  pose proof (heatmap_fold_total (concat (Object_values processedData)) [])
    as Hfold.
  rewrite Z.add_comm in Hfold. change (weigh id []) with 0 in Hfold.
  rewrite Z.add_0_r in Hfold. rewrite <- Hfold.
  reflexivity.
Qed.

(** ** Filing by day *)

Section ByDay.
Context `{Host} `{Numeric}.

Lemma filed_snoc (day : string) (done : list RawRow) (row : RawRow) :
  DataUtils.filed day (done ++ [row])
  = DataUtils.filed day done
    ++ match new_Date (row_get row "Time") with
       | Some t =>
           if String.eqb (isoDay t) day then [DataUtils.entryOf row t]
           else []
       | None => []
       end.
Proof.
  unfold DataUtils.filed. rewrite flat_map_app. simpl.
  rewrite app_nil_r. reflexivity.
Qed.

Lemma pushEntry_get (dayData : jsobj (list DataUtils.Entry))
    (dayKey day : string) (e : DataUtils.Entry) :
  obj_get (DataUtils.pushEntry dayData dayKey e) day
  = if String.eqb dayKey day
    then Some (default [] (obj_get dayData dayKey) ++ [e])
    else obj_get dayData day.
Proof.
  unfold DataUtils.pushEntry.
  destruct (obj_get dayData dayKey) as [group|] eqn:E.
  - rewrite obj_get_set, E. reflexivity.
  - rewrite !obj_get_set, String.eqb_refl.
    destruct (String.eqb dayKey day); reflexivity.
Qed.

Lemma pushEntry_NoDup (dayData : jsobj (list DataUtils.Entry))
    (dayKey : string) (e : DataUtils.Entry) :
  NoDup (map fst dayData) ->
  NoDup (map fst (DataUtils.pushEntry dayData dayKey e)).
Proof.
  intros Hnd. unfold DataUtils.pushEntry.
  destruct (obj_get dayData dayKey); repeat apply obj_set_NoDup; exact Hnd.
Qed.

Lemma pushEntry_total (dayData : jsobj (list DataUtils.Entry))
    (dayKey : string) (e : DataUtils.Entry) :
  weigh (fun group => Z.of_nat (length group))
    (DataUtils.pushEntry dayData dayKey e)
  = weigh (fun group => Z.of_nat (length group)) dayData + 1.
Proof.
  unfold DataUtils.pushEntry.
  destruct (obj_get dayData dayKey) as [group|] eqn:E.
  - rewrite weigh_set, E. simpl default. rewrite length_app. simpl. lia.
  - rewrite !weigh_set, obj_get_set, String.eqb_refl, E. simpl. lia.
Qed.

Lemma concat_total (byDay : jsobj (list DataUtils.Entry)) :
  Z.of_nat (length (concat (Object_values byDay)))
  = weigh (fun group => Z.of_nat (length group)) byDay.
Proof.
  unfold weigh, Object_values.
  induction byDay as [|[day group] byDay IH]; simpl; [reflexivity|].
  rewrite length_app, Nat2Z.inj_add, IH. reflexivity.
Qed.

Lemma fileRows_go (data done : list RawRow)
    (acc : jsobj (list DataUtils.Entry)) :
  (forall day, obj_get acc day = nonempty (DataUtils.filed day done)) ->
  NoDup (map fst acc) ->
  weigh (fun group => Z.of_nat (length group)) acc
  = Z.of_nat (length done) ->
  Forall (fun row => new_Date (row_get row "Time") <> None) done ->
  match DataUtils.fileRows data acc with
  | Ok byDay =>
      Forall (fun row => new_Date (row_get row "Time") <> None)
        (done ++ data) /\
      NoDup (map fst byDay) /\
      (forall day,
         obj_get byDay day = nonempty (DataUtils.filed day (done ++ data))) /\
      weigh (fun group => Z.of_nat (length group)) byDay
      = Z.of_nat (length (done ++ data))
  | Throw message =>
      message = "RangeError: Invalid time value"%string /\
      Exists (fun row => new_Date (row_get row "Time") = None) data
  end.
Proof.
  revert done acc.
  induction data as [|row data IH]; intros done acc Hget Hnd Hw Hv.
  - simpl. rewrite app_nil_r. auto.
  - simpl DataUtils.fileRows.
    destruct (new_Date (row_get row "Time")) as [t|] eqn:Et.
    + replace (done ++ row :: data) with ((done ++ [row]) ++ data)
        by (rewrite <- app_assoc; reflexivity).
      assert (Hget' : forall day,
                obj_get (DataUtils.pushEntry acc (isoDay t)
                           (DataUtils.entryOf row t)) day
                = nonempty (DataUtils.filed day (done ++ [row]))).
      { intros day. rewrite pushEntry_get, filed_snoc, Et.
        destruct (String.eqb_spec (isoDay t) day) as [E|Hne]; [subst day|].
        - rewrite Hget.
          destruct (DataUtils.filed (isoDay t) done); reflexivity.
        - rewrite Hget, app_nil_r. reflexivity. }
      assert (Hw' : weigh (fun group => Z.of_nat (length group))
                      (DataUtils.pushEntry acc (isoDay t)
                         (DataUtils.entryOf row t))
                    = Z.of_nat (length (done ++ [row]))).
      { rewrite pushEntry_total, Hw, length_app. simpl. lia. }
      assert (Hv' : Forall
                      (fun row => new_Date (row_get row "Time") <> None)
                      (done ++ [row])).
      { apply Forall_app. split; [exact Hv|].
        constructor; [congruence | constructor]. }
      specialize (IH (done ++ [row]) _ Hget'
                    (pushEntry_NoDup _ _ _ Hnd) Hw' Hv').
      destruct (DataUtils.fileRows data _) as [byDay|message].
      * exact IH.
      * destruct IH as [-> Hex]. split; [reflexivity|].
        apply Exists_cons_tl. exact Hex.
    + split; [reflexivity|]. apply Exists_cons_hd. exact Et.
Qed.
End ByDay.

(** X23.  [processByDay] either files every row or throws.  It returns
    exactly when every row has a valid Time; the days are then distinct
    keys, the array of a day holds the entries of the rows of that day
    in coordinated universal time, in file order, a day without rows is
    no key, and the arrays hold as many entries as there are rows.  With
    a row whose Time is no valid date it throws a RangeError, because
    [toISOString] does. *)
Theorem processByDay_files `{Host} `{Numeric} (data : list RawRow) :
  match DataUtils.processByDay data with
  | Ok byDay =>
      Forall (fun row => new_Date (row_get row "Time") <> None) data /\
      NoDup (map fst byDay) /\
      (forall day, obj_get byDay day = nonempty (DataUtils.filed day data)) /\
      length (concat (Object_values byDay)) = length data
  | Throw message =>
      message = "RangeError: Invalid time value"%string /\
      Exists (fun row => new_Date (row_get row "Time") = None) data
  end.
Proof.
  unfold DataUtils.processByDay.
  pose proof (fileRows_go data [] []) as Hgo. simpl app in Hgo.
  assert (Hgo' := Hgo (fun day => eq_refl) NoDup_nil_2 eq_refl
                    (Forall_nil_2 _)).
  destruct (DataUtils.fileRows data []) as [byDay|message]; [|exact Hgo'].
  destruct Hgo' as (Hv & Hnd & Hget & Hw).
  repeat split; try assumption.
  apply Nat2Z.inj. rewrite concat_total. exact Hw.
Qed.

(** ** The rows of the text parser *)

Section ParseRows.
Context {V : Type}.
Implicit Types (o : jsobj V) (k : string) (v : V).

Lemma obj_keys_get o k : In k (map fst o) <-> obj_get o k <> None.
Proof.
  induction o as [|[k0 v0] o IH]; simpl; [tauto|].
  destruct (String.eqb_spec k0 k) as [->|Hne].
  - split; [discriminate | auto].
  - rewrite <- IH. split; [intros [?|?]; [congruence | assumption] | auto].
Qed.

Lemma obj_set_keys_In o k v k' :
  In k' (map fst (obj_set k v o)) <-> k' = k \/ In k' (map fst o).
Proof.
  rewrite !obj_keys_get, obj_get_set.
  destruct (String.eqb_spec k k') as [->|Hne].
  - split; [auto | discriminate].
  - split; [auto | intros [E|Hn]; [congruence | exact Hn]].
Qed.

Lemma obj_insert_index_keys_ext n k v v' o o' :
  map fst o = map fst o' ->
  map fst (obj_insert_index n k v o) = map fst (obj_insert_index n k v' o').
Proof.
  revert o'.
  induction o as [|[k0 v0] o IH]; intros [|[k0' v0'] o']; simpl;
    try discriminate; [reflexivity|].
  intros [= <- E].
  destruct (array_index k0) as [n'|]; [destruct (n <? n')|]; simpl;
    try (rewrite E; reflexivity).
  f_equal. apply IH. exact E.
Qed.

Lemma obj_set_keys_ext o o' k v v' :
  map fst o = map fst o' ->
  map fst (obj_set k v o) = map fst (obj_set k v' o').
Proof.
  intros E. unfold obj_set.
  destruct (obj_get o k) as [old|] eqn:Eo,
           (obj_get o' k) as [old'|] eqn:Eo'.
  - rewrite !obj_keys_update. exact E.
  - apply obj_get_None_keys in Eo'. rewrite <- E in Eo'.
    apply obj_get_None_keys in Eo'. congruence.
  - apply obj_get_None_keys in Eo. rewrite E in Eo.
    apply obj_get_None_keys in Eo. congruence.
  - destruct (array_index k).
    + apply obj_insert_index_keys_ext. exact E.
    + rewrite !map_app, E. reflexivity.
Qed.
End ParseRows.

Lemma rowOf_keys_ext (values values' : list string)
    (fields : list (nat * string)) (row row' : RawRow) :
  map fst row = map fst row' ->
  map fst
    (fold_left
       (fun row '(i, header) =>
          DataUtils.setField header (DataUtils.cellAt values i) row)
       fields row)
  = map fst
      (fold_left
         (fun row '(i, header) =>
            DataUtils.setField header (DataUtils.cellAt values' i) row)
         fields row').
Proof.
  revert row row'.
  induction fields as [|[i header] fields IH]; intros row row' E;
    [exact E|].
  simpl. apply IH. unfold DataUtils.setField.
  destruct (String.eqb header "__proto__"); [exact E|].
  apply obj_set_keys_ext. exact E.
Qed.

Lemma rowOf_keys_In (values : list string) (fields : list (nat * string))
    (row : RawRow) (name : string) :
  In name
    (map fst
       (fold_left
          (fun row '(i, header) =>
             DataUtils.setField header (DataUtils.cellAt values i) row)
          fields row))
  <-> In name (map fst row)
      \/ (In name (map snd fields) /\ name <> "__proto__"%string).
Proof.
  revert row.
  induction fields as [|[i header] fields IH]; intros row; simpl.
  - tauto.
  - rewrite IH. unfold DataUtils.setField.
    destruct (String.eqb_spec header "__proto__") as [E|Hne].
    + subst header. split; [tauto|].
      intros [?|[[?|?] ?]]; [tauto | congruence | tauto].
    + rewrite obj_set_keys_In. split.
      * intros [[->|?]|[? ?]]; [right; split; auto | tauto | tauto].
      * intros [?|[[->|?] ?]]; tauto.
Qed.

Lemma fields_names (headers : list string) (g : nat -> nat) :
  map snd (imap (fun i header => (g i, header)) headers) = headers.
Proof.
  revert g. induction headers as [|header headers IH]; intros g;
    [reflexivity|].
  simpl. f_equal. apply (IH (fun i => g (S i))).
Qed.

(** The keys of a row are the header names, whatever the line. *)
Lemma rowOf_keys (headers : list string) (line : string) (name : string) :
  In name (Object_keys (DataUtils.rowOf headers line))
  <-> In name headers /\ name <> "__proto__"%string.
Proof.
  unfold Object_keys, DataUtils.rowOf. cbv zeta.
  rewrite rowOf_keys_In, (fields_names headers (fun i => i)). simpl. tauto.
Qed.

Lemma rowOf_get_go (values : list string) (fields : list (nat * string))
    (row : RawRow) (name : string) (i : nat) :
  name <> "__proto__"%string ->
  In (i, name) fields ->
  (forall i', In (i', name) fields -> i' = i) ->
  obj_get
    (fold_left
       (fun row '(i, header) =>
          DataUtils.setField header (DataUtils.cellAt values i) row)
       fields row) name
  = Some (DataUtils.cellAt values i).
Proof.
  intros Hname. revert row.
  induction fields as [|[j header] fields IH] using rev_ind;
    intros row Hin Huniq; [destruct Hin|].
  rewrite fold_left_app. simpl. unfold DataUtils.setField.
  assert (Hprev : header <> name ->
                  obj_get
                    (fold_left
                       (fun row '(i, header) =>
                          DataUtils.setField header
                            (DataUtils.cellAt values i) row)
                       fields row) name
                  = Some (DataUtils.cellAt values i)).
  { intros Hne. apply IH.
    - apply in_app_or in Hin. destruct Hin as [Hin|[[= -> ->]|[]]];
        [exact Hin | congruence].
    - intros i' Hi'. apply Huniq, in_or_app. left. exact Hi'. }
  destruct (String.eqb_spec header "__proto__") as [E|Hne].
  - apply Hprev. congruence.
  - rewrite obj_get_set.
    destruct (String.eqb_spec header name) as [E|Hne'].
    + subst header. f_equal. f_equal. apply Huniq, in_or_app.
      right. left. reflexivity.
    + apply Hprev. exact Hne'.
Qed.

Lemma fields_In (headers : list string) (i : nat) (name : string) :
  In (i, name) (imap (fun i header => (i, header)) headers)
  <-> headers !! i = Some name.
Proof.
  rewrite <- list_elem_of_In, list_elem_of_lookup. split.
  - intros [j Hj]. apply list_lookup_imap_Some in Hj.
    destruct Hj as (header & Hj & [= -> ->]). exact Hj.
  - intros Hi. exists i. apply list_lookup_imap_Some. eauto.
Qed.

Lemma map_lookup {A B : Type} (f : A -> B) (l : list A) (j : nat) :
  map f l !! j = option_map f (l !! j).
Proof.
  revert j. induction l as [|x l IH]; intros [|j]; simpl; auto.
Qed.

(** X24.  The text parser gives one row for each line after the first
    of the trimmed text, and every row has the same keys in the same
    order: the names of the header line, apart from a header called
    __proto__, whether the line is short, long or empty. *)
Theorem parseCSV_shape (csvText : string) :
  let lines := split "010" (trim csvText) in
  let headers := DataUtils.cells (hd ""%string lines) in
  let rows := DataUtils.parseCSV csvText in
  length rows = (length lines - 1)%nat /\
  (forall row name,
     In row rows ->
     (In name (Object_keys row)
      <-> In name headers /\ name <> "__proto__"%string)) /\
  (forall row row',
     In row rows -> In row' rows -> Object_keys row = Object_keys row').
Proof.
  intros lines headers rows. subst rows. unfold DataUtils.parseCSV.
  cbv zeta. fold lines. fold headers. split; [|split].
  - rewrite length_map. destruct lines; simpl; lia.
  - intros row name Hrow. apply in_map_iff in Hrow.
    destruct Hrow as (line & <- & _). apply rowOf_keys.
  - intros row row' Hrow Hrow'. apply in_map_iff in Hrow, Hrow'.
    destruct Hrow as (line & <- & _). destruct Hrow' as (line' & <- & _).
    unfold Object_keys, DataUtils.rowOf. cbv zeta.
    apply rowOf_keys_ext. reflexivity.
Qed.

(** X25.  When the names of the header line are distinct, the row of a
    line holds under the name at position [i] the piece of the line at
    position [i], without its double quotes and trimmed, and
    [undefined] when the line has no such piece; pieces beyond the
    header are dropped. *)
Theorem parseCSV_cell (csvText : string) (i j : nat) (name line : string) :
  let lines := split "010" (trim csvText) in
  let headers := DataUtils.cells (hd ""%string lines) in
  NoDup headers ->
  headers !! i = Some name ->
  name <> "__proto__"%string ->
  tl lines !! j = Some line ->
  exists row,
    DataUtils.parseCSV csvText !! j = Some row /\
    obj_get row name = Some (DataUtils.cellAt (DataUtils.cells line) i).
Proof.
  intros lines headers Hnd Hi Hname Hj.
  exists (DataUtils.rowOf headers line). split.
  - unfold DataUtils.parseCSV. cbv zeta. fold lines. fold headers.
    rewrite map_lookup, Hj. reflexivity.
  - unfold DataUtils.rowOf. cbv zeta. apply rowOf_get_go.
    + exact Hname.
    + apply fields_In. exact Hi.
    + intros i' Hi'. apply fields_In in Hi'.
      exact (NoDup_lookup _ _ _ _ Hnd Hi' Hi).
Qed.

Lemma parseCSV_cell_witness :
  exists row,
    DataUtils.parseCSV
      (String.concat (String "010" "")
         ["Time,deviceId,measure_value"; " t1 , d 1,4.5 "; "t2,d2"])
    !! 1%nat = Some row /\
    obj_get row "measure_value" = Some VUndef.
Proof.
  apply (parseCSV_cell
           (String.concat (String "010" "")
              ["Time,deviceId,measure_value"; " t1 , d 1,4.5 "; "t2,d2"])
           2 1 "measure_value" "t2,d2").
  - vm_compute. repeat constructor; rewrite list_elem_of_In; simpl;
      intuition discriminate.
  - reflexivity.
  - discriminate.
  - reflexivity.
Defined.

(** ** Rounded shares *)

Lemma Math_round_exact (x : Q) (z : Z) :
  (x == inject_Z z)%Q -> Math_round x = inject_Z z.
Proof.
  intros E. unfold Math_round. f_equal. rewrite E.
  apply Z.le_antisymm.
  - apply Z.lt_succ_r. rewrite Zlt_Qlt.
    pose proof (Qfloor_le (inject_Z z + (1 # 2))) as Hf.
    unfold Z.succ. rewrite inject_Z_plus. change (inject_Z 1) with 1%Q.
    set (f := inject_Z (Qfloor _)) in *. set (q := inject_Z z) in *. lra.
  - rewrite <- (Qfloor_Z z) at 1. apply Qfloor_resp_le.
    set (q := inject_Z z). lra.
Qed.

Lemma Math_round_lower (x : Q) (z : Z) :
  (inject_Z z - (1 # 2) <= x)%Q -> (inject_Z z <= Math_round x)%Q.
Proof.
  intros Hx. unfold Math_round. rewrite <- Zle_Qle.
  rewrite <- (Qfloor_Z z) at 1. apply Qfloor_resp_le.
  set (q := inject_Z z) in *. lra.
Qed.

Lemma Math_round_upper (x : Q) (z : Z) :
  (x < inject_Z z + (1 # 2))%Q -> (Math_round x <= inject_Z z)%Q.
Proof.
  intros Hx. unfold Math_round. rewrite <- Zle_Qle.
  apply Z.lt_succ_r. rewrite Zlt_Qlt.
  pose proof (Qfloor_le (x + (1 # 2))) as Hf.
  unfold Z.succ. rewrite inject_Z_plus. change (inject_Z 1) with 1%Q.
  set (f := inject_Z (Qfloor _)) in *. set (q := inject_Z z) in *. lra.
Qed.

(** A share that is a whole percentage is not changed by rounding. *)
Lemma share_exact (a t : Q) (z : Z) :
  (0 < t)%Q -> (a * 100 == inject_Z z * t)%Q ->
  Math_round (a / t * 100) = inject_Z z.
Proof.
  intros Ht E. apply Math_round_exact.
  setoid_replace (a / t * 100)%Q with (a * 100 / t)%Q
      using relation Qeq by (field; lra).
  rewrite E. apply Qdiv_mult_l. lra.
Qed.

Lemma daysOf_pos (processedData : jsobj (list DataUtils.Entry)) :
  (0 < DataUtils.daysOf processedData)%Q.
Proof.
  unfold DataUtils.daysOf. destruct processedData as [|d ds]; [lra|].
  apply ofnat_pos. simpl. lia.
Qed.

Lemma cyclesPerDay_nonneg (processedData : jsobj (list DataUtils.Entry)) :
  (0 <= DataUtils.cyclesPerDay processedData)%Q.
Proof.
  unfold DataUtils.cyclesPerDay.
  pose proof (daysOf_pos processedData) as Hd.
  pose proof (ofnat_nonneg (length (DataUtils.allCycles processedData)))
    as Hn.
  apply Qle_shift_div_l; [exact Hd | lra].
Qed.

Ltac by_cases :=
  repeat match goal with
         | |- context [Qle_bool ?a ?b] =>
             lazymatch b with
             | context [Qle_bool _ _] => fail
             | _ => destruct (Qle_bool_spec a b)
             end
         | |- context [ltQ ?a ?b] => destruct (ltQ_spec a b)
         end.

(** X26.  The chamber shares of the daily dashboard follow the number of
    cycles per day: below 50 everything is in the low share, at exactly
    50 the fixed shares 30, 40 and 30 are returned, above 50 and up to
    150 everything is in the medium share, and above 150 the low share
    is 0, the medium share is at least 29 and the high share at most
    71. *)
Theorem chamber_shares_by_band
    (processedData : jsobj (list DataUtils.Entry)) :
  let perDay := DataUtils.cyclesPerDay processedData in
  let shares := DataUtils.calculateChamberFullness processedData in
  ((perDay < 50)%Q ->
   shares = {| DataUtils.low := 100; DataUtils.medium := 0;
               DataUtils.high := 0 |}) /\
  ((perDay == 50)%Q ->
   shares = {| DataUtils.low := 30; DataUtils.medium := 40;
               DataUtils.high := 30 |}) /\
  ((50 < perDay)%Q -> (perDay <= 150)%Q ->
   shares = {| DataUtils.low := 0; DataUtils.medium := 100;
               DataUtils.high := 0 |}) /\
  ((150 < perDay)%Q ->
   DataUtils.low shares = 0%Q /\
   (29 <= DataUtils.medium shares <= 100)%Q /\
   (0 <= DataUtils.high shares <= 71)%Q).
Proof.
  intros perDay shares.
  pose proof (cyclesPerDay_nonneg processedData) as Hp. fold perDay in Hp.
  assert (El : ((50 - perDay) / 50 * 30 == 30 - (3 # 5) * perDay)%Q)
    by field.
  assert (Em : ((perDay - 50) / 100 * 40 == (2 # 5) * perDay - 20)%Q)
    by field.
  assert (Eh : ((perDay - 150) / 100 * 100 == perDay - 150)%Q) by field.
  subst shares. unfold DataUtils.calculateChamberFullness. cbv zeta.
  fold perDay.
  set (x := ((50 - perDay) / 50 * 30)%Q) in *.
  set (y := ((perDay - 50) / 100 * 40)%Q) in *.
  set (z := ((perDay - 150) / 100 * 100)%Q) in *.
  set (l := Qmax 0 (Qmin 30 x)).
  set (m := if ltQ perDay 50 then 0%Q else Qmin 40 y).
  set (h := if ltQ perDay 150 then 0%Q else Qmin 100 z).
  split; [|split; [|split]].
  - intros Hlt.
    assert (Hl : (0 < l)%Q)
      by (subst l; unfold Qmax, Qmin; by_cases; lra).
    assert (Hm : m = 0%Q)
      by (subst m; by_cases; [reflexivity | exfalso; lra]).
    assert (Hh : h = 0%Q)
      by (subst h; by_cases; [reflexivity | exfalso; lra]).
    clearbody l m h. subst m h.
    destruct (gtQ_spec (l + 0 + 0) 0); [|exfalso; lra].
    f_equal; [apply (share_exact _ _ 100) | apply (share_exact _ _ 0)
             | apply (share_exact _ _ 0)];
      unfold inject_Z; lra.
  - intros Heq.
    assert (Ht : (l + m + h == 0)%Q)
      by (subst l m h; unfold Qmax, Qmin; by_cases; lra).
    destruct (gtQ_spec (l + m + h) 0); [exfalso; lra | reflexivity].
  - intros Hgt Hle.
    assert (Hl : l = 0%Q)
      by (subst l; unfold Qmax, Qmin; by_cases;
          first [reflexivity | exfalso; lra]).
    assert (Hm : (0 < m)%Q)
      by (subst m; unfold Qmin; by_cases; lra).
    assert (Hh : (h == 0)%Q)
      by (subst h; unfold Qmin; by_cases; lra).
    clearbody l m h. subst l.
    destruct (gtQ_spec (0 + m + h) 0); [|exfalso; lra].
    f_equal; [apply (share_exact _ _ 0) | apply (share_exact _ _ 100)
             | apply (share_exact _ _ 0)];
      unfold inject_Z; lra.
  - intros Hgt.
    assert (Hl : l = 0%Q)
      by (subst l; unfold Qmax, Qmin; by_cases;
          first [reflexivity | exfalso; lra]).
    assert (Hm : m = 40%Q)
      by (subst m; unfold Qmin; by_cases;
          first [reflexivity | exfalso; lra]).
    assert (Hh : (0 < h)%Q /\ (h <= 100)%Q)
      by (subst h; unfold Qmin; by_cases; split; lra).
    clearbody l m h. subst l m. destruct Hh as [Hh0 Hh1].
    destruct (gtQ_spec (0 + 40 + h) 0); [|exfalso; lra].
    cbn [DataUtils.low DataUtils.medium DataUtils.high].
    set (t := (0 + 40 + h)%Q) in *.
    assert (Ht : (40 < t)%Q /\ (t <= 140)%Q) by (subst t; split; lra).
    assert (Et : (h == t - 40)%Q) by (subst t; lra).
    clearbody t. destruct Ht as [Ht0 Ht1].
    split; [|split; split].
    + apply (share_exact _ _ 0); unfold inject_Z; lra.
    + apply (Math_round_lower _ 29).
      setoid_replace (40 / t * 100)%Q with (4000 / t)%Q
      using relation Qeq by (field; lra).
      apply Qle_shift_div_l; unfold inject_Z; lra.
    + apply (Math_round_upper _ 100).
      setoid_replace (40 / t * 100)%Q with (4000 / t)%Q
      using relation Qeq by (field; lra).
      apply Qlt_shift_div_r; unfold inject_Z; lra.
    + apply (Math_round_lower _ 0).
      setoid_replace (h / t * 100)%Q with (100 * h / t)%Q
      using relation Qeq by (field; lra).
      apply Qle_shift_div_l; unfold inject_Z; lra.
    + apply (Math_round_upper _ 71).
      setoid_replace (h / t * 100)%Q with (100 * h / t)%Q
      using relation Qeq by (field; lra).
      apply Qlt_shift_div_r; unfold inject_Z; lra.
Qed.

(** X27.  The utilization of the daily dashboard is a whole percentage
    between 0 and 100, and it is 100 from 240 cycles per day on. *)
Theorem daily_utilization_bounds
    (processedData : jsobj (list DataUtils.Entry)) :
  let utilization := DataUtils.calculateUtilization processedData in
  (0 <= utilization <= 100)%Q /\
  (exists percent : Z, utilization = inject_Z percent) /\
  ((240 <= DataUtils.cyclesPerDay processedData)%Q ->
   utilization = 100%Q).
Proof.
  intros utilization. subst utilization.
  pose proof (cyclesPerDay_nonneg processedData) as Hp.
  unfold DataUtils.calculateUtilization. cbv zeta.
  fold (DataUtils.cyclesPerDay processedData).
  set (perDay := DataUtils.cyclesPerDay processedData) in *.
  assert (E : (perDay / (8 * 60 / 2) * 100 == (5 # 12) * perDay)%Q)
    by field.
  set (x := (perDay / (8 * 60 / 2) * 100)%Q) in *.
  split; [split|split].
  - apply (Math_round_lower _ 0). unfold Qmin. by_cases;
      unfold inject_Z; lra.
  - apply (Math_round_upper _ 100). unfold Qmin. by_cases;
      unfold inject_Z; lra.
  - eexists. reflexivity.
  - intros Hfull. apply (Math_round_exact _ 100). unfold Qmin.
    by_cases; unfold inject_Z; lra.
Qed.

(** ** Anomalies of the daily dashboard *)

Lemma Zsum_app (xs ys : list Z) : Zsum (xs ++ ys) = Zsum xs + Zsum ys.
Proof. induction xs as [|x xs IH]; simpl; [reflexivity | rewrite IH; lia]. Qed.

(** With distinct keys, reading every key gives every value. *)
Lemma values_by_keys {V : Type} (o : jsobj (list V)) :
  NoDup (map fst o) ->
  flat_map (fun k => default [] (obj_get o k)) (map fst o)
  = concat (Object_values o).
Proof.
  unfold Object_values.
  induction o as [|[k v] o IH]; intros Hnd; [reflexivity|].
  apply NoDup_cons in Hnd. destruct Hnd as [Hk Hnd]. simpl.
  rewrite String.eqb_refl. simpl. f_equal.
  rewrite <- (IH Hnd), !flat_map_concat_map. f_equal.
  apply map_ext_in. intros k' Hk'.
  destruct (String.eqb_spec k k') as [E|_]; [|reflexivity].
  subst k'. exfalso. apply Hk. apply list_elem_of_In. exact Hk'.
Qed.

Lemma voltagesOf_spec (data : list DataUtils.Entry) :
  match DataUtils.voltagesOf data with
  | Ok voltages =>
      Forall (fun d => exists s, DataUtils.measure d = VStr s) data
  | Throw _ =>
      Exists (fun d => forall s, DataUtils.measure d <> VStr s) data
  end.
Proof.
  induction data as [|d data IH]; simpl; [constructor|].
  destruct (DataUtils.measure d) as [| | | | |s] eqn:Em; simpl;
    try (apply Exists_cons_hd; intros s; rewrite Em; discriminate).
  destruct (DataUtils.voltagesOf data) as [voltages|msg]; simpl.
  - constructor; [exists s; exact Em | exact IH].
  - apply Exists_cons_tl. exact IH.
Qed.

Lemma anomalies_of_entries (day : string)
    (push : string -> DataUtils.Entry -> list DataUtils.Anomaly.t)
    (entries : list DataUtils.Entry) :
  (forall d a,
     In a (push day d) ->
     (DataUtils.Anomaly.severity a = "critical"%string
      \/ DataUtils.Anomaly.severity a = "warning"%string)
     /\ DataUtils.Anomaly.count a = None) ->
  Forall
    (fun a =>
       DataUtils.Anomaly.severity a = "critical"%string
       \/ DataUtils.Anomaly.severity a = "warning"%string)
    (flat_map (push day) entries)
  /\ Zsum
       (map (fun a => default 0 (DataUtils.Anomaly.count a))
          (flat_map (push day) entries)) = 0.
Proof.
  intros Hpush. induction entries as [|d entries [IH1 IH2]]; simpl.
  - split; [constructor | reflexivity].
  - split.
    + apply Forall_app. split; [|exact IH1].
      apply List.Forall_forall. intros a Ha. apply (Hpush d a Ha).
    + rewrite map_app, Zsum_app, IH2.
      assert (Hz : forall l,
                 (forall a, In a l -> DataUtils.Anomaly.count a = None) ->
                 Zsum (map (fun a => default 0 (DataUtils.Anomaly.count a))
                         l) = 0).
      { induction l as [|a l IHl]; intros Hl; simpl; [reflexivity|].
        rewrite (Hl a (or_introl eq_refl)), IHl; [reflexivity|].
        intros a' Ha'. apply Hl. right. exact Ha'. }
      rewrite Hz; [reflexivity|].
      intros a Ha. apply (Hpush d a Ha).
Qed.

Lemma dayAnomalies_spec (day : string) (data : list DataUtils.Entry) :
  match DataUtils.dayAnomalies day data with
  | Ok pushed =>
      Forall (fun d => exists s, DataUtils.measure d = VStr s) data /\
      Forall
        (fun a =>
           DataUtils.Anomaly.severity a = "critical"%string
           \/ DataUtils.Anomaly.severity a = "warning"%string) pushed /\
      Zsum (map (fun a => default 0 (DataUtils.Anomaly.count a)) pushed)
      = Z.of_nat (length (List.filter DataUtils.isFullError data))
  | Throw _ =>
      Exists (fun d => forall s, DataUtils.measure d <> VStr s) data
  end.
Proof.
  unfold DataUtils.dayAnomalies.
  pose proof (voltagesOf_spec data) as Hv.
  destruct (DataUtils.voltagesOf data) as [voltages|msg]; simpl;
    [|exact Hv].
  split; [exact Hv|].
  assert (H1 := anomalies_of_entries day DataUtils.voltageAnomaly voltages).
  assert (H2 := anomalies_of_entries day DataUtils.temperatureAnomaly
                  (List.filter
                     (fun d => strict_eq (DataUtils.measure d)
                                 (VStr "temperature.ambient")) data)).
  assert (H3 := anomalies_of_entries day DataUtils.inrushAnomaly
                  (List.filter
                     (fun d => strict_eq (DataUtils.measure d)
                                 (VStr "inrush.maxPeakA")) data)).
  destruct H1 as [S1 Z1].
  { intros d a. unfold DataUtils.voltageAnomaly.
    destruct (ltQ (DataUtils.value d) 110 || gtQ (DataUtils.value d) 125);
      [|intros []].
    intros [<-|[]]. simpl.
    destruct (ltQ (DataUtils.value d) 105 || gtQ (DataUtils.value d) 130);
      auto. }
  destruct H2 as [S2 Z2].
  { intros d a. unfold DataUtils.temperatureAnomaly.
    destruct (gtQ (DataUtils.value d) 35); [|intros []].
    intros [<-|[]]. simpl. destruct (gtQ (DataUtils.value d) 40); auto. }
  destruct H3 as [S3 Z3].
  { intros d a. unfold DataUtils.inrushAnomaly.
    destruct (gtQ (DataUtils.value d) 40); [|intros []].
    intros [<-|[]]. simpl. destruct (gtQ (DataUtils.value d) 45); auto. }
  split.
  - repeat (apply Forall_app; split); try assumption.
    unfold DataUtils.errorState.
    destruct (0 <? length (List.filter DataUtils.isFullError data))%nat;
      repeat constructor.
  - rewrite !map_app, !Zsum_app, Z1, Z2, Z3.
    unfold DataUtils.errorState.
    destruct (Nat.ltb_spec 0
                (length (List.filter DataUtils.isFullError data)));
      simpl; lia.
Qed.

Lemma detectDays_spec (processedData : jsobj (list DataUtils.Entry))
    (days : list string) (anomalies : list DataUtils.Anomaly.t) :
  match DataUtils.detectDays processedData days anomalies with
  | Ok found =>
      Forall (fun d => exists s, DataUtils.measure d = VStr s)
        (flat_map (fun day => default [] (obj_get processedData day)) days)
      /\ (Forall
            (fun a =>
               DataUtils.Anomaly.severity a = "critical"%string
               \/ DataUtils.Anomaly.severity a = "warning"%string)
            anomalies ->
          Forall
            (fun a =>
               DataUtils.Anomaly.severity a = "critical"%string
               \/ DataUtils.Anomaly.severity a = "warning"%string) found)
      /\ Zsum (map (fun a => default 0 (DataUtils.Anomaly.count a)) found)
         = Zsum (map (fun a => default 0 (DataUtils.Anomaly.count a))
                   anomalies)
           + Z.of_nat
               (length
                  (List.filter DataUtils.isFullError
                     (flat_map
                        (fun day => default [] (obj_get processedData day))
                        days)))
  | Throw _ =>
      Exists (fun d => forall s, DataUtils.measure d <> VStr s)
        (flat_map (fun day => default [] (obj_get processedData day)) days)
  end.
Proof.
  revert anomalies.
  induction days as [|day days IH]; intros anomalies; simpl.
  - split; [constructor|]. split; [auto | lia].
  - pose proof (dayAnomalies_spec day
                  (default [] (obj_get processedData day))) as Hday.
    destruct (DataUtils.dayAnomalies day
                (default [] (obj_get processedData day)))
      as [pushed|msg]; simpl.
    + destruct Hday as (Hs & Hsev & Hcount).
      specialize (IH (anomalies ++ pushed)).
      destruct (DataUtils.detectDays processedData days
                  (anomalies ++ pushed)) as [found|msg].
      * destruct IH as (IHs & IHsev & IHcount). split; [|split].
        -- apply Forall_app. split; assumption.
        -- intros Ha. apply IHsev. apply Forall_app. split; assumption.
        -- rewrite IHcount, map_app, Zsum_app, Hcount, List.filter_app,
             length_app. lia.
      * apply Exists_app. right. exact IH.
    + apply Exists_app. left. exact Hday.
Qed.

Lemma safety_cycleErrors (entries : list DataUtils.Entry)
    (counters : DataUtils.SafetyMetrics) :
  DataUtils.cycleErrors (fold_left DataUtils.safetyStep entries counters)
  = DataUtils.cycleErrors counters
    + Z.of_nat (length (List.filter DataUtils.isFullError entries)).
Proof.
  revert counters.
  induction entries as [|d entries IH]; intros counters; simpl; [lia|].
  rewrite IH. simpl. destruct (DataUtils.isFullError d); simpl; lia.
Qed.

(** X28.  [detectAnomalies] returns exactly when the measure of every
    entry is a string, and throws a TypeError otherwise.  Every anomaly
    it returns is critical or a warning, and the counts of its error
    states add up to the cycle errors that [calculateSafetyMetrics]
    reports for the same data. *)
Theorem detectAnomalies_defined
    (processedData : jsobj (list DataUtils.Entry)) :
  NoDup (map fst processedData) ->
  match DataUtils.detectAnomalies processedData with
  | Ok anomalies =>
      Forall (fun d => exists s, DataUtils.measure d = VStr s)
        (concat (Object_values processedData)) /\
      Forall
        (fun a =>
           DataUtils.Anomaly.severity a = "critical"%string
           \/ DataUtils.Anomaly.severity a = "warning"%string) anomalies /\
      Zsum (map (fun a => default 0 (DataUtils.Anomaly.count a)) anomalies)
      = DataUtils.cycleErrors
          (DataUtils.calculateSafetyMetrics processedData)
  | Throw _ =>
      Exists (fun d => forall s, DataUtils.measure d <> VStr s)
        (concat (Object_values processedData))
  end.
Proof.
  intros Hnd. unfold DataUtils.detectAnomalies.
  pose proof (detectDays_spec processedData (map fst processedData) [])
    as Hdays.
  rewrite (values_by_keys processedData Hnd) in Hdays.
  destruct (DataUtils.detectDays processedData (map fst processedData) [])
    as [anomalies|msg]; [|exact Hdays].
  destruct Hdays as (Hs & Hsev & Hcount). split; [exact Hs|].
  split; [apply Hsev; constructor|].
  rewrite Hcount. unfold DataUtils.calculateSafetyMetrics.
  rewrite safety_cycleErrors. reflexivity.
Qed.

Lemma detectAnomalies_defined_witness :
  match
    DataUtils.detectAnomalies
      [("2024-01-01"%string,
        [{| DataUtils.time := VStr "2024-01-01T05:00:00Z";
            DataUtils.timestamp := 1704085200000;
            DataUtils.deviceId := VStr "B1";
            DataUtils.measure := VStr "DI8_Full_Error";
            DataUtils.value := 1 |};
         {| DataUtils.time := VStr "2024-01-01T06:00:00Z";
            DataUtils.timestamp := 1704088800000;
            DataUtils.deviceId := VStr "B1";
            DataUtils.measure := VStr "voltage.U1";
            DataUtils.value := 131 |}])]
  with
  | Ok anomalies =>
      Zsum (map (fun a => default 0 (DataUtils.Anomaly.count a)) anomalies)
      = 1
  | Throw _ => False
  end.
Proof.
  pose proof
    (detectAnomalies_defined
       [("2024-01-01"%string,
         [{| DataUtils.time := VStr "2024-01-01T05:00:00Z";
             DataUtils.timestamp := 1704085200000;
             DataUtils.deviceId := VStr "B1";
             DataUtils.measure := VStr "DI8_Full_Error";
             DataUtils.value := 1 |};
          {| DataUtils.time := VStr "2024-01-01T06:00:00Z";
             DataUtils.timestamp := 1704088800000;
             DataUtils.deviceId := VStr "B1";
             DataUtils.measure := VStr "voltage.U1";
             DataUtils.value := 131 |}])]) as Hdef.
  simpl in Hdef. apply Hdef. repeat constructor. simpl.
  rewrite list_elem_of_In. simpl. tauto.
Defined.

(** ** Uploading a file to the daily dashboard *)

Lemma obj_get_of_In {V : Type} (o : jsobj V) (k : string) (v : V) :
  NoDup (map fst o) -> In (k, v) o -> obj_get o k = Some v.
Proof.
  induction o as [|[k0 v0] o IH]; simpl; [intros _ []|].
  intros Hnd. apply NoDup_cons in Hnd. destruct Hnd as [Hk Hnd].
  intros [[= -> ->]|Hin].
  - rewrite String.eqb_refl. reflexivity.
  - destruct (String.eqb_spec k0 k) as [E|_]; [|apply IH; assumption].
    subst k0. exfalso. apply Hk. apply list_elem_of_In.
    apply (in_map fst) in Hin. exact Hin.
Qed.

Section Upload.
Context `{Host} `{Numeric}.

(** The entries of the days are the entries of the rows. *)
Lemma processByDay_entries (data : list RawRow)
    (byDay : jsobj (list DataUtils.Entry)) (e : DataUtils.Entry) :
  DataUtils.processByDay data = Ok byDay ->
  In e (concat (Object_values byDay))
  <-> exists row t,
        In row data /\ new_Date (row_get row "Time") = Some t
        /\ e = DataUtils.entryOf row t.
Proof.
  intros Hok. unfold DataUtils.processByDay in Hok.
  pose proof (fileRows_go data [] [] (fun day => eq_refl) NoDup_nil_2
                eq_refl (Forall_nil_2 _)) as Hgo.
  rewrite Hok in Hgo. simpl app in Hgo.
  destruct Hgo as (_ & Hnd & Hget & _).
  assert (Hfiled : forall day,
            In e (DataUtils.filed day data)
            <-> exists row t,
                  In row data /\ new_Date (row_get row "Time") = Some t
                  /\ isoDay t = day /\ e = DataUtils.entryOf row t).
  { intros day. unfold DataUtils.filed. rewrite in_flat_map. split.
    - intros (row & Hrow & He).
      destruct (new_Date (row_get row "Time")) as [t|] eqn:Et;
        [|destruct He].
      destruct (String.eqb_spec (isoDay t) day) as [E|_]; [|destruct He].
      destruct He as [<-|[]]. exists row, t. auto.
    - intros (row & t & Hrow & Et & E & ->). exists row.
      split; [exact Hrow|]. rewrite Et.
      apply String.eqb_eq in E. rewrite E. left. reflexivity. }
  unfold Object_values. rewrite in_concat. split.
  - intros (group & Hgroup & He). apply in_map_iff in Hgroup.
    destruct Hgroup as ([day group'] & <- & Hin). simpl in He.
    apply (obj_get_of_In _ _ _ Hnd) in Hin. rewrite Hget in Hin.
    assert (Eg : group' = DataUtils.filed day data)
      by (destruct (DataUtils.filed day data); [discriminate|];
          injection Hin; auto).
    rewrite Eg in He. apply Hfiled in He.
    destruct He as (row & t & Hrow & Et & _ & ->). eauto.
  - intros (row & t & Hrow & Et & ->).
    assert (He : In (DataUtils.entryOf row t)
                   (DataUtils.filed (isoDay t) data))
      by (apply Hfiled; eauto 6).
    exists (DataUtils.filed (isoDay t) data). split; [|exact He].
    apply in_map_iff. exists (isoDay t, DataUtils.filed (isoDay t) data).
    split; [reflexivity|]. apply obj_get_In. rewrite Hget.
    destruct (DataUtils.filed (isoDay t) data); [destruct He|reflexivity].
Qed.
End Upload.

(** X29.  Loading a file into the daily dashboard always keeps the
    parsed rows and ends the loading state.  A row whose Time is no
    valid date gives the alert and leaves the days and the figures as
    they were; with valid times, a row whose measure name is not text
    gives the alert after the days were replaced, and leaves the figures
    as they were; otherwise there is no alert, and the days and the
    figures are those of the file. *)
Theorem daily_upload_outcome `{Host} `{Numeric} (content : string)
    (s : DailyDashboard.State) :
  let parsed := DataUtils.parseCSV content in
  let s' := DailyDashboard.handleFileLoad content s in
  DailyDashboard.csvData s' = Some parsed /\
  DailyDashboard.isLoading s' = false /\
  ((Exists (fun row => new_Date (row_get row "Time") = None) parsed /\
    DailyDashboard.alerts s'
    = DailyDashboard.alerts s
      ++ ["Error processing CSV file. Please check the file format."]
        %string /\
    DailyDashboard.processedData s' = DailyDashboard.processedData s /\
    DailyDashboard.stats s' = DailyDashboard.stats s)
   \/
   (Forall (fun row => new_Date (row_get row "Time") <> None) parsed /\
    Exists (fun row => forall name, row_get row "measure_name" <> VStr name)
      parsed /\
    DailyDashboard.alerts s'
    = DailyDashboard.alerts s
      ++ ["Error processing CSV file. Please check the file format."]
        %string /\
    DataUtils.processByDay parsed = Ok (DailyDashboard.processedData s') /\
    DailyDashboard.stats s' = DailyDashboard.stats s)
   \/
   (Forall
      (fun row =>
         new_Date (row_get row "Time") <> None
         /\ exists name, row_get row "measure_name" = VStr name) parsed /\
    DailyDashboard.alerts s' = DailyDashboard.alerts s /\
    DataUtils.processByDay parsed = Ok (DailyDashboard.processedData s') /\
    exists anomalies,
      DataUtils.detectAnomalies (DailyDashboard.processedData s')
      = Ok anomalies /\
      DailyDashboard.stats s'
      = DailyDashboard.statsOf parsed (DailyDashboard.processedData s')
          anomalies)).
Proof.
  intros parsed s'. subst s'. unfold DailyDashboard.handleFileLoad.
  cbv zeta. fold parsed.
  pose proof (fileRows_go parsed [] [] (fun day => eq_refl) NoDup_nil_2
                eq_refl (Forall_nil_2 _)) as Hgo.
  simpl app in Hgo.
  pose proof (processByDay_entries parsed) as Hentries.
  unfold DataUtils.processByDay in *.
  destruct (DataUtils.fileRows parsed []) as [byDay|msg]; simpl.
  - destruct Hgo as (Hv & Hnd & _ & _).
    specialize (Hentries byDay).
    pose proof (detectDays_spec byDay (map fst byDay) []) as Hdays.
    rewrite (values_by_keys byDay Hnd) in Hdays.
    unfold DataUtils.detectAnomalies.
    destruct (DataUtils.detectDays byDay (map fst byDay) [])
      as [anomalies|msg] eqn:Edet; simpl.
    + split; [reflexivity|]. split; [reflexivity|]. right. right.
      destruct Hdays as (Hs & _ & _).
      split; [|split; [reflexivity|split; [reflexivity|]]].
      * apply List.Forall_forall. intros row Hrow.
        rewrite List.Forall_forall in Hv. specialize (Hv row Hrow).
        split; [exact Hv|].
        destruct (new_Date (row_get row "Time")) as [t|] eqn:Et;
          [|congruence].
        rewrite List.Forall_forall in Hs.
        apply (Hs (DataUtils.entryOf row t)).
        apply Hentries; [reflexivity|]. eauto.
      * exists anomalies. split; [exact Edet | reflexivity].
    + split; [reflexivity|]. split; [reflexivity|]. right. left.
      split; [exact Hv|]. split; [|auto].
      apply List.Exists_exists in Hdays. destruct Hdays as (e & He & Hn).
      apply Hentries in He; [|reflexivity].
      destruct He as (row & t & Hrow & _ & ->).
      apply List.Exists_exists. exists row. split; [exact Hrow|].
      exact Hn.
  - split; [reflexivity|]. split; [reflexivity|]. left.
    destruct Hgo as [_ Hex]. auto.
Qed.

(** ** Downtime *)

Section SortedByKey.
Context {A : Type} (key : A -> Z).

Lemma sort_insert_sorted (x : A) (l : list A) :
  StronglySorted (fun a b => key a <= key b) l ->
  StronglySorted (fun a b => key a <= key b)
    (sort_insert (fun a b => key a - key b) x l).
Proof.
  induction l as [|y l IH]; intros Hs; simpl.
  - repeat constructor.
  - apply StronglySorted_inv in Hs. destruct Hs as [Hs Hy].
    destruct (Z.leb_spec (key x - key y) 0) as [Hle|Hgt].
    + constructor; [constructor; assumption|].
      constructor; [lia|].
      apply List.Forall_forall. intros z Hz.
      rewrite List.Forall_forall in Hy. specialize (Hy z Hz). lia.
    + constructor; [apply IH; exact Hs|].
      apply List.Forall_forall. intros z Hz.
      apply (Permutation_in _ (sort_insert_perm _ x l)) in Hz.
      destruct Hz as [<-|Hz]; [lia|].
      rewrite List.Forall_forall in Hy. apply Hy. exact Hz.
Qed.

Lemma sortBy_sorted (l : list A) :
  StronglySorted (fun a b => key a <= key b)
    (sortBy (fun a b => key a - key b) l).
Proof.
  induction l as [|x l IH]; simpl; [constructor|].
  apply sort_insert_sorted. exact IH.
Qed.
End SortedByKey.

Lemma minutes_of (z : Z) :
  (inject_Z z / 1000 / 60 == inject_Z z * (1 # 60000))%Q.
Proof. field. Qed.

Lemma inject_Z_sub (a b : Z) :
  (inject_Z (a - b) == inject_Z a - inject_Z b)%Q.
Proof.
  unfold Z.sub. rewrite inject_Z_plus, inject_Z_opp. reflexivity.
Qed.

Lemma downMinutes_grows (kmStates : list DataUtils.Entry) :
  StronglySorted
    (fun a b => DataUtils.timestamp a <= DataUtils.timestamp b) kmStates ->
  forall acc : Q, (acc <= DataUtils.downMinutes kmStates acc)%Q.
Proof.
  induction kmStates as [|prev kmStates IH]; intros Hs acc.
  - simpl. lra.
  - apply StronglySorted_inv in Hs. destruct Hs as [Hs Hprev].
    destruct kmStates as [|cur rest]; [simpl; lra|].
    assert (Hpc : DataUtils.timestamp prev <= DataUtils.timestamp cur)
      by (apply Forall_inv in Hprev; exact Hprev).
    change (DataUtils.downMinutes (prev :: cur :: rest) acc)
      with (DataUtils.downMinutes (cur :: rest)
              (if Qeq_bool (DataUtils.value cur) 0
               then (acc + inject_Z (DataUtils.timestamp cur
                                     - DataUtils.timestamp prev)
                           / 1000 / 60)%Q
               else acc)).
    set (acc' := if Qeq_bool (DataUtils.value cur) 0
                 then (acc + inject_Z (DataUtils.timestamp cur
                                       - DataUtils.timestamp prev)
                             / 1000 / 60)%Q
                 else acc).
    assert (Hacc : (acc <= acc')%Q).
    { subst acc'. rewrite Zle_Qle in Hpc.
      destruct (Qeq_bool (DataUtils.value cur) 0); [|lra].
      rewrite minutes_of, inject_Z_sub.
      set (a := inject_Z (DataUtils.timestamp cur)) in *.
      set (b := inject_Z (DataUtils.timestamp prev)) in *. lra. }
    pose proof (IH Hs acc') as IH'. lra.
Qed.

(** X30.  [calculateDowntime] gives one item for each day, and the
    downtime of a day is never negative, in whatever order the entries
    of the day stand in the file: the entries are sorted by time before
    the differences are added. *)
Theorem downtime_nonneg `{Host} `{Locale}
    (processedData : jsobj (list DataUtils.Entry)) :
  length (DataUtils.calculateDowntime processedData)
  = length processedData /\
  Forall (fun item => (0 <= DataUtils.Downtime.downtime item)%Q)
    (DataUtils.calculateDowntime processedData).
Proof.
  unfold DataUtils.calculateDowntime. split.
  - rewrite length_map, (Permutation_length (sortBy_perm _ _)), length_map.
    reflexivity.
  - apply List.Forall_forall. intros item Hitem.
    apply in_map_iff in Hitem. destruct Hitem as (day & <- & _).
    cbn [DataUtils.Downtime.downtime].
    apply downMinutes_grows.
    apply (sortBy_sorted DataUtils.timestamp).
Qed.
